(** * The SQL connector of unstructured-ingest: batch identity and reconciliation

    A shallow embedding of
    [unstructured_ingest/v2/processes/connectors/sql/sql.py]:
    the date normalizer ([parse_date_string]), the indexer
    ([SQLIndexer._get_doc_ids], [SQLIndexer.run]), the downloader's file name
    ([SQLDownloader.get_identifier]), the stager ([SQLUploadStager.conform_dict],
    [SQLUploadStager.conform_dataframe]) and the uploader
    ([SQLUploader._fit_to_schema], [prepare_data], [delete_by_record_id],
    [upload_dataframe]).

    Python values are an inductive type; raised exceptions are the left
    injection of a sum; logging is a writer; the destination table and the
    statements sent to the cursor are an explicit state. Text is a byte
    string: a [string] stands for the UTF-8 encoding of a Python [str], for
    which byte-wise lexicographic order is code-point order. *)

From Stdlib Require Import ZArith String Ascii List Lia Bool.
From Stdlib Require Import Floats.SpecFloat.
From Stdlib Require Import DecimalString.
From stdpp Require Import gmap strings list sets sorting.

Set Warnings "-register-all".

Local Open Scope string_scope.
Local Open Scope list_scope.
Local Open Scope Z_scope.

(* ===================================================================== *)
(** * Python values, exceptions and logging *)
(* ===================================================================== *)

(** A naive [datetime.datetime]: calendar fields, no time zone. *)
Record datetime := mk_datetime {
  dt_year : Z; dt_month : Z; dt_day : Z;
  dt_hour : Z; dt_minute : Z; dt_second : Z; dt_microsecond : Z
}.

(** The values that travel through the connector: what [json.load] yields
    ([None], [bool], [int], [float], [str], [list], [dict] with text keys),
    plus the [datetime] the date normalizer produces. A [dict] keeps its
    insertion order. A [float] is an IEEE binary64 number. *)
Inductive pyval :=
| VNone
| VBool (b : bool)
| VInt (z : Z)
| VFloat (f : spec_float)
| VStr (s : string)
| VList (l : list pyval)
| VDict (d : list (string * pyval))
| VDatetime (d : datetime).

(** Exception classes; all of them derive from [Exception]. *)
Inductive exn :=
| TypeError | ValueError | OverflowError | OSError | ZeroDivisionError
| AttributeError | ParserError | OperationalError.

Inductive log_level := DEBUG | INFO | WARNING | ERROR.

(** The log messages of sql.py, with their arguments kept apart. *)
Inductive log_message :=
| MsgNotATimestamp (date_value : pyval) (e : exn)
| MsgColumnsDropped (columns_to_drop : gset string)
| MsgColumnsAdded (missing_columns : gset string)
| MsgSkippingDelete (record_id_key : string)
| MsgDeleting (record_id_key identifier table_name : string)
| MsgDeleted (rowcount : Z) (table_name : string)
| MsgWriting (total : nat) (table_name : string) (batch_size : Z)
| MsgRunningQuery (stmt : string).

Definition log_record : Type := log_level * log_message.

(** ** Fallible computations that log *)

Definition W (A : Type) : Type := list log_record * (exn + A).

Definition W_ret {A} (a : A) : W A := ([], inr a).

Definition W_bind {A B} (m : W A) (k : A -> W B) : W B :=
  match m with
  | (l, inl e) => (l, inl e)
  | (l, inr a) => let '(l', r) := k a in (l ++ l', r)
  end.

Definition W_log (lvl : log_level) (msg : log_message) : W unit :=
  ([(lvl, msg)], inr tt).

Definition W_lift {A} (r : exn + A) : W A := ([], r).

(** [try: m  except Exception as e: handler e], where control continues
    after the handler. *)
Definition W_try {A} (m : W A) (handler : exn -> W A) : W A :=
  match m with
  | (l, inl e) => let '(l', r) := handler e in (l ++ l', r)
  | (l, inr a) => (l, inr a)
  end.

Notation "'let*' x ':=' c 'in' k" := (W_bind c (fun x => k))
  (at level 10, x name, c at level 100, k at level 200).
Notation "'run*' c 'in' k" := (W_bind c (fun _ => k))
  (at level 10, c at level 100, k at level 200).

Fixpoint W_mapM {A B} (f : A -> W B) (l : list A) : W (list B) :=
  match l with
  | [] => W_ret []
  | x :: l' => let* y := f x in let* ys := W_mapM f l' in W_ret (y :: ys)
  end.

Fixpoint W_foldM {A S} (f : S -> A -> W S) (s : S) (l : list A) : W S :=
  match l with
  | [] => W_ret s
  | x :: l' => let* s' := f s x in W_foldM f s' l'
  end.

(** Exceptions without logging. *)
Definition E_bind {A B} (m : exn + A) (k : A -> exn + B) : exn + B :=
  match m with
  | inl e => inl e
  | inr a => k a
  end.

(* ===================================================================== *)
(** * Floating point: the built-in [float] *)
(* ===================================================================== *)

Module Float64.

Definition prec : Z := 53.
Definition emax : Z := 1024.

(** The nearest binary64 number to an integer, ties to even. *)
Definition of_Z (z : Z) : spec_float := binary_normalize prec emax z 0 false.

Definition div (x y : spec_float) : spec_float := SFdiv prec emax x y.

(** The nearest binary64 number to [(-1)^sign * m * 10^e]. *)
Definition of_decimal (sign : bool) (m : Z) (e : Z) : spec_float :=
  match m with
  | Zpos p =>
      if 0 <=? e
      then binary_normalize prec emax (if sign then - (m * 10 ^ e) else m * 10 ^ e) 0 false
      else SFdiv prec emax (S754_finite sign p 0)
                           (S754_finite false (Z.to_pos (10 ^ (- e))) 0)
  | _ => S754_zero sign
  end.

(** The white space [float] strips from both ends: the space and the
    controls tab, line feed, vertical tab, form feed and carriage return.
    The separators 0x1c to 0x1f are not among them. *)
Definition is_space (c : ascii) : bool :=
  let n := N_of_ascii c in
  ((9 <=? n) && (n <=? 13) || (n =? 32))%N.

(** Every byte is below 128: the text has no character outside ASCII. *)
Definition is_ascii_text (s : string) : bool :=
  forallb (fun c => (N_of_ascii c <? 128)%N) (list_ascii_of_string s).

Definition is_digit (c : ascii) : bool :=
  let n := N_of_ascii c in ((48 <=? n) && (n <=? 57))%N.

Definition digit_value (c : ascii) : Z := Z.of_N (N_of_ascii c) - 48.

Definition lower (c : ascii) : ascii :=
  let n := N_of_ascii c in
  if ((65 <=? n) && (n <=? 90))%N then ascii_of_N (n + 32) else c.

Fixpoint lstrip (l : list ascii) : list ascii :=
  match l with
  | c :: l' => if is_space c then lstrip l' else l
  | [] => []
  end.

Definition strip (l : list ascii) : list ascii :=
  rev (lstrip (rev (lstrip l))).

(** [digit (["_"] digit)*]: the digits read and the rest of the input. *)
Fixpoint digitpart_tail (l : list ascii) : list ascii * list ascii :=
  match l with
  | c :: l' =>
      if is_digit c then
        let '(ds, rest) := digitpart_tail l' in (c :: ds, rest)
      else if Ascii.eqb c "_" then
        match l' with
        | d :: l'' =>
            if is_digit d then
              let '(ds, rest) := digitpart_tail l'' in (d :: ds, rest)
            else ([], l)
        | [] => ([], l)
        end
      else ([], l)
  | [] => ([], [])
  end.

Definition digitpart (l : list ascii) : option (list ascii * list ascii) :=
  match l with
  | c :: l' =>
      if is_digit c then
        let '(ds, rest) := digitpart_tail l' in Some (c :: ds, rest)
      else None
  | [] => None
  end.

Definition digits_value (ds : list ascii) : Z :=
  fold_left (fun acc c => 10 * acc + digit_value c) ds 0.

Definition take_sign (l : list ascii) : bool * list ascii :=
  match l with
  | c :: l' =>
      if Ascii.eqb c "-" then (true, l')
      else if Ascii.eqb c "+" then (false, l')
      else (false, l)
  | [] => (false, [])
  end.

(** [[digitpart] "." digitpart | digitpart ["."]]: integer digits,
    fraction digits and the rest. *)
Definition number (l : list ascii)
  : option (list ascii * list ascii * list ascii) :=
  match digitpart l with
  | Some (ip, rest) =>
      match rest with
      | c :: rest' =>
          if Ascii.eqb c "." then
            match digitpart rest' with
            | Some (fp, rest'') => Some (ip, fp, rest'')
            | None => Some (ip, [], rest')
            end
          else Some (ip, [], rest)
      | [] => Some (ip, [], [])
      end
  | None =>
      match l with
      | c :: rest' =>
          if Ascii.eqb c "." then
            match digitpart rest' with
            | Some (fp, rest'') => Some ([], fp, rest'')
            | None => None
            end
          else None
      | [] => None
      end
  end.

(** [("e" | "E") [sign] digitpart], or nothing. *)
Definition exponent (l : list ascii) : option (Z * list ascii) :=
  match l with
  | c :: l' =>
      if Ascii.eqb (lower c) "e" then
        let '(s, l'') := take_sign l' in
        match digitpart l'' with
        | Some (ds, rest) =>
            Some (if s then - digits_value ds else digits_value ds, rest)
        | None => None
        end
      else Some (0, l)
  | [] => Some (0, [])
  end.

(** [float(s)] for ASCII text: surrounding white space is ignored, then
    [[sign] (floatnumber | "inf" | "infinity" | "nan")] in any letter
    case; anything else is a [ValueError]. *)
Definition of_string (s : string) : exn + spec_float :=
  let '(sign, body) := take_sign (strip (list_ascii_of_string s)) in
  let low := string_of_list_ascii (map lower body) in
  if String.eqb low "inf" || String.eqb low "infinity" then inr (S754_infinity sign)
  else if String.eqb low "nan" then inr S754_nan
  else
    match number body with
    | Some (ip, fp, rest) =>
        match exponent rest with
        | Some (e, []) =>
            inr (of_decimal sign (digits_value (ip ++ fp)) (e - Z.of_nat (length fp)))
        | _ => inl ValueError
        end
    | None => inl ValueError
    end.

End Float64.

(** [isinstance(v, int)]; [bool] is a subclass of [int]. *)
Definition isinstance_int (v : pyval) : bool :=
  match v with
  | VInt _ | VBool _ => true
  | _ => false
  end.

(** Decimal text of an integer, as [str(z)] prints it. *)
Definition py_str_int (z : Z) : string :=
  NilZero.string_of_int (Z.to_int z).

(* ===================================================================== *)
(** * What the connector takes from outside sql.py *)
(* ===================================================================== *)

(** [FileData] of v2.interfaces: the connector reads its identifier. *)
Record FileData := { identifier : string }.

(** Library functions and helpers of other modules, as an interface. *)
Class Runtime := {
  (** [datetime.fromtimestamp]: the local time, in the zone of the process,
      of a POSIX time stamp. *)
  fromtimestamp : spec_float -> exn + datetime;
  (** [dateutil.parser.parse]. *)
  dateutil_parse : pyval -> exn + datetime;
  (** [json.dumps] with its default arguments. *)
  json_dumps : pyval -> exn + string;
  (** [str] of a float, a container or a datetime. *)
  py_repr : pyval -> string;
  (** The order in which the interpreter iterates [frozenset(l)]; it lists
      every element of the set once. *)
  frozenset_iter : list string -> list string;
  frozenset_iter_perm :
    forall l, frozenset_iter l ≡ₚ elements (list_to_set l : gset string);
  (** Modelled from the spec: [get_enhanced_element_id] of v2.utils, which
      is not in this file. It is a pure function of the element's field
      mapping and of the file identity, and it does not fail (section 4.1). *)
  get_enhanced_element_id : list (string * pyval) -> FileData -> string;
  (** [float(s)] for text with a character outside ASCII: the interpreter
      first maps the spaces and the decimal digits of its Unicode database
      to ASCII, so the outcome depends on that database. *)
  float_of_unicode : string -> exn + spec_float;
  (** [d.update(other)] for a list [other] that is not empty: the
      interpreter reads each item as a key and a value, or raises. The
      mappings here have text keys, so this is the outcome restricted to
      the keys that are text. *)
  update_from_pairs :
    list (string * pyval) -> list pyval -> exn + list (string * pyval)
}.

(** [float(v)]. An [int] beyond the binary64 range raises [OverflowError];
    a value that is neither a number nor text raises [TypeError]. *)
Definition py_float {rt : Runtime} (v : pyval) : exn + spec_float :=
  match v with
  | VBool b => inr (Float64.of_Z (if b then 1 else 0))
  | VInt z =>
      match Float64.of_Z z with
      | S754_infinity _ => inl OverflowError
      | f => inr f
      end
  | VFloat f => inr f
  | VStr s => if Float64.is_ascii_text s then Float64.of_string s
              else float_of_unicode s
  | VNone | VList _ | VDict _ | VDatetime _ => inl TypeError
  end.

(* ===================================================================== *)
(** * The date normalizer *)
(* ===================================================================== *)

Definition _DATE_COLUMNS : list string :=
  ["date_created"; "date_modified"; "date_processed"; "last_modified"].

Section DateNormalizer.
Context {rt : Runtime}.

(** [float(date_value) / 1000 if isinstance(date_value, int)
     else float(date_value)] *)
Definition timestamp_of (date_value : pyval) : exn + spec_float :=
  if isinstance_int date_value
  then E_bind (py_float date_value)
              (fun f => inr (Float64.div f (Float64.of_Z 1000)))
  else py_float date_value.

(** The body of the [try] block. *)
Definition epoch_path (date_value : pyval) : exn + datetime :=
  E_bind (timestamp_of date_value) fromtimestamp.

Definition parse_date_string (date_value : pyval) : W datetime :=
  W_try (W_lift (epoch_path date_value))
    (fun e =>
       run* W_log DEBUG (MsgNotATimestamp date_value e) in
       W_lift (dateutil_parse date_value)).

End DateNormalizer.

(* ===================================================================== *)
(** * Built-ins on sequences *)
(* ===================================================================== *)

(** [sorted] on text: a stable sort that only asks [y < x]. *)
Fixpoint sorted_insert (x : string) (l : list string) : list string :=
  match l with
  | [] => [x]
  | y :: l' => if String.ltb y x then y :: sorted_insert x l' else x :: l
  end.

Definition py_sorted (l : list string) : list string :=
  fold_right sorted_insert [] l.

(** A slice bound as Python resolves it against a length: a negative bound
    counts from the end, and the result is clamped to [0, len]. *)
Definition slice_bound (len i : Z) : Z :=
  if i <? 0 then Z.max 0 (i + len) else Z.min i len.

(** [l[lo:hi]] *)
Definition py_slice {A} (l : list A) (lo hi : Z) : list A :=
  let len := Z.of_nat (length l) in
  let lo' := slice_bound len lo in
  let hi' := slice_bound len hi in
  take (Z.to_nat (hi' - lo')) (drop (Z.to_nat lo') l).

(** [range(n)] *)
Definition py_range (n : Z) : list Z :=
  map Z.of_nat (seq 0 (Z.to_nat n)).

(* ===================================================================== *)
(** * The indexer *)
(* ===================================================================== *)

Module SQLIndexerConfig.
Record t := {
  table_name : string;
  id_column : string;
  batch_size : Z
}.
End SQLIndexerConfig.

Module SqlAdditionalMetadata.
Record t := { table_name : string; id_column : string }.
End SqlAdditionalMetadata.

Record BatchItem := { item_identifier : string }.

Record SqlBatchFileData := {
  connector_type : string;
  date_processed : string;
  additional_metadata : SqlAdditionalMetadata.t;
  batch_items : list BatchItem
}.

Section SQLIndexer.
Context {rt : Runtime}.
(** The attribute [connector_type] of the concrete indexer. *)
Variable self_connector_type : string.
Variable index_config : SQLIndexerConfig.t.
(** The store behind the cursor: the rows [fetchall] returns for a query
    text, each row being the 1-tuple of an identifier. *)
Variable fetchall : string -> list string.
(** The clock: [str(time())] when the [k]-th descriptor is built. *)
Variable clock : nat -> string.

Definition doc_ids_query : string :=
  "SELECT " +:+ SQLIndexerConfig.id_column index_config +:+
  " FROM " +:+ SQLIndexerConfig.table_name index_config.

Definition _get_doc_ids : list string :=
  let results := fetchall doc_ids_query in
  py_sorted results.

(** The slices whose [frozenset]s make [id_batches]; [//] by zero raises. *)
Definition id_slices (ids : list string) : exn + list (list string) :=
  let batch_size := SQLIndexerConfig.batch_size index_config in
  if batch_size =? 0 then inl ZeroDivisionError
  else
    inr (map (fun i => py_slice ids (i * batch_size) ((i + 1) * batch_size))
             (py_range ((Z.of_nat (length ids) + batch_size - 1) / batch_size))).

(** The descriptor yielded for the [k]-th batch; [batch] is the slice the
    frozenset was built from. *)
Definition descriptor (k : nat) (batch : list string) : SqlBatchFileData :=
  {| connector_type := self_connector_type;
     date_processed := clock k;
     additional_metadata :=
       {| SqlAdditionalMetadata.table_name := SQLIndexerConfig.table_name index_config;
          SqlAdditionalMetadata.id_column := SQLIndexerConfig.id_column index_config |};
     batch_items :=
       map (fun b => {| item_identifier := b |}) (frozenset_iter batch) |}.

Definition SQLIndexer_run : exn + list SqlBatchFileData :=
  let ids := _get_doc_ids in
  E_bind (id_slices ids) (fun id_batches => inr (imap descriptor id_batches)).

End SQLIndexer.

(** The identifier set of a descriptor. *)
Definition descriptor_ids (d : SqlBatchFileData) : gset string :=
  list_to_set (map item_identifier (batch_items d)).

(** What "batch assignment" compares: the identifier set and the items. *)
Definition assignment (d : SqlBatchFileData) : gset string * list BatchItem :=
  (descriptor_ids d, batch_items d).

(* ===================================================================== *)
(** * [hashlib.sha256] *)
(* ===================================================================== *)

Module SHA256.

Definition w32 (x : Z) : Z := x mod 2 ^ 32.
Definition add32 (x y : Z) : Z := w32 (x + y).
Definition rotr (n x : Z) : Z :=
  w32 (Z.lor (Z.shiftr x n) (Z.shiftl x (32 - n))).
Definition not32 (x : Z) : Z := 2 ^ 32 - 1 - x.

Definition Ch (x y z : Z) : Z := Z.lxor (Z.land x y) (Z.land (not32 x) z).
Definition Maj (x y z : Z) : Z :=
  Z.lxor (Z.lxor (Z.land x y) (Z.land x z)) (Z.land y z).
Definition Sigma0 (x : Z) : Z := Z.lxor (Z.lxor (rotr 2 x) (rotr 13 x)) (rotr 22 x).
Definition Sigma1 (x : Z) : Z := Z.lxor (Z.lxor (rotr 6 x) (rotr 11 x)) (rotr 25 x).
Definition sigma0 (x : Z) : Z := Z.lxor (Z.lxor (rotr 7 x) (rotr 18 x)) (Z.shiftr x 3).
Definition sigma1 (x : Z) : Z := Z.lxor (Z.lxor (rotr 17 x) (rotr 19 x)) (Z.shiftr x 10).

(** The first [n] primes, by trial division. *)
Definition is_prime (p : Z) : bool :=
  (1 <? p) && forallb (fun d => negb (p mod d =? 0)) (map Z.of_nat (seq 2 (Z.to_nat p - 2))).

Fixpoint primes_from (fuel n : nat) (p : Z) : list Z :=
  match fuel, n with
  | S fuel', S n' =>
      if is_prime p then p :: primes_from fuel' n' (p + 1)
      else primes_from fuel' n (p + 1)
  | _, _ => []
  end.

Definition first_primes (n : nat) : list Z := primes_from 400 n 2.

(** The integer cube root of a number below [2^108], bit by bit. *)
Definition icbrt (x : Z) : Z :=
  fold_left (fun r b => let r' := r + 2 ^ Z.of_nat b in
                        if r' * r' * r' <=? x then r' else r)
            (rev (seq 0 36)) 0.

(** The round constants: the first 32 bits of the fractional parts of the
    cube roots of the first 64 primes. *)
Definition K : list Z :=
  Eval vm_compute in map (fun p => icbrt (p * 2 ^ 96) mod 2 ^ 32) (first_primes 64).

(** The eight working words. *)
Record state := mk_state { ha : Z; hb : Z; hc : Z; hd : Z; he : Z; hf : Z; hg : Z; hh : Z }.

(** The initial words: the first 32 bits of the fractional parts of the
    square roots of the first 8 primes. *)
Definition H0 : state :=
  Eval vm_compute in
    match map (fun p => Z.sqrt (p * 2 ^ 64) mod 2 ^ 32) (first_primes 8) with
    | [a; b; c; d; e; f; g; h] => mk_state a b c d e f g h
    | _ => mk_state 0 0 0 0 0 0 0 0
    end.

(** Message bytes, the bit 1, zeros up to 56 modulo 64, and the bit length
    as eight big-endian bytes. *)
Definition be_bytes (n : nat) (x : Z) : list Z :=
  map (fun i => (Z.shiftr x (8 * Z.of_nat i)) mod 256) (rev (seq 0 n)).

Definition pad (msg : list Z) : list Z :=
  let len := Z.of_nat (length msg) in
  let zeros := Z.to_nat ((55 - len) mod 64) in
  msg ++ [128] ++ repeat 0 zeros ++ be_bytes 8 (8 * len).

Fixpoint be_words (fuel : nat) (bytes : list Z) : list Z :=
  match fuel, bytes with
  | S fuel', b0 :: b1 :: b2 :: b3 :: rest =>
      (((b0 * 256 + b1) * 256 + b2) * 256 + b3) :: be_words fuel' rest
  | _, _ => []
  end.

(** The schedule, newest word first: [ws] holds [W(t-1), W(t-2), ...]. *)
Fixpoint extend (n : nat) (ws : list Z) : list Z :=
  match n with
  | O => ws
  | S n' =>
      let w := add32 (add32 (sigma1 (nth 1 ws 0)) (nth 6 ws 0))
                     (add32 (sigma0 (nth 14 ws 0)) (nth 15 ws 0)) in
      extend n' (w :: ws)
  end.

Definition schedule (block : list Z) : list Z :=
  rev (extend 48 (rev block)).

Definition round (s : state) (kw : Z * Z) : state :=
  let '(k, w) := kw in
  let t1 := add32 (add32 (add32 (hh s) (Sigma1 (he s))) (Ch (he s) (hf s) (hg s)))
                  (add32 k w) in
  let t2 := add32 (Sigma0 (ha s)) (Maj (ha s) (hb s) (hc s)) in
  mk_state (add32 t1 t2) (ha s) (hb s) (hc s) (add32 (hd s) t1) (he s) (hf s) (hg s).

Definition compress (s : state) (block : list Z) : state :=
  let s' := fold_left round (combine K (schedule block)) s in
  mk_state (add32 (ha s) (ha s')) (add32 (hb s) (hb s')) (add32 (hc s) (hc s'))
           (add32 (hd s) (hd s')) (add32 (he s) (he s')) (add32 (hf s) (hf s'))
           (add32 (hg s) (hg s')) (add32 (hh s) (hh s')).

Fixpoint blocks (fuel : nat) (s : state) (words : list Z) : state :=
  match fuel, words with
  | S fuel', _ :: _ => blocks fuel' (compress s (take 16 words)) (drop 16 words)
  | _, _ => s
  end.

Definition digest (msg : list Z) : state :=
  let bytes := pad msg in
  let words := be_words (length bytes) bytes in
  blocks (length words) H0 words.

Definition hex_digit (d : Z) : ascii :=
  ascii_of_N (Z.to_N (if d <? 10 then 48 + d else 87 + d)).

(** Eight lower-case hexadecimal digits of a 32-bit word. *)
Definition hex_word (x : Z) : list ascii :=
  map (fun i => hex_digit ((Z.shiftr x (4 * Z.of_nat i)) mod 16)) (rev (seq 0 8)).

Definition bytes_of_string (s : string) : list Z :=
  map (fun c => Z.of_N (N_of_ascii c)) (list_ascii_of_string s).

(** [hashlib.sha256(s.encode()).hexdigest()] *)
Definition hexdigest (s : string) : string :=
  let d := digest (bytes_of_string s) in
  string_of_list_ascii
    (hex_word (ha d) ++ hex_word (hb d) ++ hex_word (hc d) ++ hex_word (hd d) ++
     hex_word (he d) ++ hex_word (hf d) ++ hex_word (hg d) ++ hex_word (hh d)).

End SHA256.

(* ===================================================================== *)
(** * The downloader's file name *)
(* ===================================================================== *)

(** [s[:n]] on text. *)
Definition str_prefix (n : nat) (s : string) : string := substring 0 n s.

(** [",".join(fields)] *)
Definition join_fields (fields : list string) : string := String.concat "," fields.

Section SQLDownloader.
(** [self.download_config.fields] *)
Variable fields : list string.

Definition fields_hash : string :=
  str_prefix 8 (SHA256.hexdigest (join_fields fields)).

Definition get_identifier (table_name record_id : string) : string :=
  let f := table_name +:+ "-" +:+ record_id in
  match fields with
  | [] => f
  | _ :: _ => f +:+ "-" +:+ fields_hash
  end.

End SQLDownloader.

(* ===================================================================== *)
(** * The stager *)
(* ===================================================================== *)

Definition _COLUMNS : list string :=
  [ "id"; "element_id"; "text"; "embeddings"; "type"; "system"; "layout_width";
    "layout_height"; "points"; "url"; "version"; "date_created"; "date_modified";
    "date_processed"; "permissions_data"; "record_locator"; "category_depth";
    "parent_id"; "attached_filename"; "filetype"; "last_modified";
    "file_directory"; "filename"; "languages"; "page_number"; "links";
    "page_name"; "link_urls"; "link_texts"; "sent_from"; "sent_to"; "subject";
    "section"; "header_footer_type"; "emphasized_text_contents";
    "emphasized_text_tags"; "text_as_html"; "regex_metadata";
    "detection_class_prob" ].

(** Modelled from the spec: the constant [RECORD_ID_LABEL] of v2.constants,
    which is not in this file; the record-linkage field is named
    [record_id] (section 3, StagedElement). *)
Definition RECORD_ID_LABEL : string := "record_id".

Definition _STRUCTURED_COLUMNS : list string :=
  ["permissions_data"; "record_locator"; "points"; "links"].

Definition _STRINGIFIED_COLUMNS : list string :=
  ["version"; "page_number"; "regex_metadata"].

(** [x in t] for a tuple of text. *)
Definition str_in (x : string) (t : list string) : bool :=
  existsb (String.eqb x) t.

(** ** [dict], in insertion order *)

Abbreviation dict := (list (string * pyval)).

Fixpoint dict_get (d : dict) (k : string) : option pyval :=
  match d with
  | [] => None
  | (k', v) :: d' => if String.eqb k k' then Some v else dict_get d' k
  end.

(** [d[k] = v]: a present key keeps its place, a new key goes last. *)
Fixpoint dict_set (d : dict) (k : string) (v : pyval) : dict :=
  match d with
  | [] => [(k, v)]
  | (k', v') :: d' =>
      if String.eqb k k' then (k', v) :: d' else (k', v') :: dict_set d' k v
  end.

Definition dict_remove (d : dict) (k : string) : dict :=
  List.filter (fun kv => negb (String.eqb k (fst kv))) d.

(** [d.pop(k, default)]: the value and the dict afterwards. *)
Definition dict_pop (d : dict) (k : string) (default : pyval) : pyval * dict :=
  match dict_get d k with
  | Some v => (v, dict_remove d k)
  | None => (default, d)
  end.

Definition dict_keys (d : dict) : list string := map fst d.

(** [d.update(other)]. A [dict] is merged in, key by key. Anything else is
    iterated as a sequence of key/value pairs: a value that cannot be
    iterated raises [TypeError]; empty text and the empty list change
    nothing; text that is not empty yields a first item of length 1, not 2,
    which raises [ValueError]; the items of any other list are read by the
    interpreter. *)
Definition dict_update {rt : Runtime} (d : dict) (other : pyval) : exn + dict :=
  match other with
  | VDict o => inr (fold_left (fun acc kv => dict_set acc (fst kv) (snd kv)) o d)
  | VStr EmptyString | VList [] => inr d
  | VStr (String _ _) => inl ValueError
  | VList (item :: items) => update_from_pairs d (item :: items)
  | VNone | VBool _ | VInt _ | VFloat _ | VDatetime _ => inl TypeError
  end.

Section SQLUploadStager.
Context {rt : Runtime}.

(** [conform_dict] up to and including [data["id"] = ...]: the merged
    mapping. In [metadata.pop] a value that is not a [dict] has no such
    method ([AttributeError]), or one of another signature ([TypeError]
    for a list). *)
Definition merged_data (element_dict : dict) (file_data : FileData) : exn + dict :=
  let data := element_dict in
  let '(metadata, data) := dict_pop data "metadata" (VDict []) in
  match metadata with
  | VDict metadata =>
      let '(data_source, metadata) := dict_pop metadata "data_source" (VDict []) in
      let '(coordinates, metadata) := dict_pop metadata "coordinates" (VDict []) in
      E_bind (dict_update data (VDict metadata)) (fun data =>
      E_bind (dict_update data data_source) (fun data =>
      E_bind (dict_update data coordinates) (fun data =>
      inr (dict_set data "id" (VStr (get_enhanced_element_id data file_data))))))
  | VList _ => inl TypeError
  | _ => inl AttributeError
  end.

Definition conform_dict (element_dict : dict) (file_data : FileData) : exn + dict :=
  E_bind (merged_data element_dict file_data) (fun data =>
    let element := List.filter (fun kv => str_in (fst kv) _COLUMNS) data in
    inr (dict_set element RECORD_ID_LABEL (VStr (identifier file_data)))).

End SQLUploadStager.

(** ** [pandas.DataFrame]: named columns over rows of cells *)

Record DataFrame := {
  df_columns : list string;
  df_rows : list (list pyval)
}.

Definition column_index (columns : list string) (column : string) : option nat :=
  fst <$> list_find (String.eqb column) columns.

(** [df[column]], for a column of the frame. *)
Definition df_get (df : DataFrame) (column : string) : option (list pyval) :=
  match column_index (df_columns df) column with
  | Some i => Some (map (fun row => default VNone (row !! i)) (df_rows df))
  | None => None
  end.

(** [df[column] = series], for a column of the frame and a series over the
    same rows. *)
Definition df_set (df : DataFrame) (column : string) (series : list pyval) : DataFrame :=
  match column_index (df_columns df) column with
  | Some i =>
      {| df_columns := df_columns df;
         df_rows := zip_with (fun row v => <[i := v]> row) (df_rows df) series |}
  | None => df
  end.

(** [str(x)] *)
Definition py_str {rt : Runtime} (x : pyval) : string :=
  match x with
  | VNone => "None"
  | VBool true => "True"
  | VBool false => "False"
  | VInt z => py_str_int z
  | VStr s => s
  | VFloat _ | VList _ | VDict _ | VDatetime _ => py_repr x
  end.

Section ConformDataframe.
Context {rt : Runtime}.

Definition date_cell (x : pyval) : W pyval :=
  let* d := parse_date_string x in W_ret (VDatetime d).

(** [lambda x: json.dumps(x) if isinstance(x, (list, dict)) else None] *)
Definition structured_cell (x : pyval) : W pyval :=
  match x with
  | VList _ | VDict _ => let* s := W_lift (json_dumps x) in W_ret (VStr s)
  | _ => W_ret VNone
  end.

Definition str_cell (x : pyval) : W pyval := W_ret (VStr (py_str x)).

(** One turn of [for column in filter(lambda x: x in df.columns, names):
    df[column] = df[column].apply(f)]: the filter is lazy, so membership is
    asked of the frame as it is when the turn starts. *)
Definition apply_column (f : pyval -> W pyval) (df : DataFrame) (column : string)
  : W DataFrame :=
  match df_get df column with
  | Some series => let* series' := W_mapM f series in W_ret (df_set df column series')
  | None => W_ret df
  end.

Definition conform_dataframe (df : DataFrame) : W DataFrame :=
  let* df := W_foldM (apply_column date_cell) df _DATE_COLUMNS in
  let* df := W_foldM (apply_column structured_cell) df _STRUCTURED_COLUMNS in
  W_foldM (apply_column str_cell) df _STRINGIFIED_COLUMNS.

End ConformDataframe.

(* ===================================================================== *)
(** * The destination store *)
(* ===================================================================== *)

(** The table the uploader writes to: its columns, and rows of cells aligned
    with them. *)
Record table := {
  tbl_name : string;
  tbl_columns : list string;
  tbl_rows : list (list pyval)
}.

(** The statements sql.py sends, with the text it builds for each. *)
Inductive statement :=
| SelectAll (table_name : string)
| DeleteWhere (table_name key delimiter : string)
| InsertInto (table_name : string) (columns : list string) (delimiter : string).

Definition sql_text (s : statement) : string :=
  match s with
  | SelectAll t => "SELECT * from " +:+ t
  | DeleteWhere t k d => "DELETE FROM " +:+ t +:+ " WHERE " +:+ k +:+ " = " +:+ d
  | InsertInto t cs d =>
      "INSERT INTO " +:+ t +:+ " (" +:+ String.concat "," cs +:+ ") VALUES(" +:+
      String.concat "," (map (fun _ => d) cs) +:+ ")"
  end.

(** One call on a cursor: the statement and the parameter tuples bound to
    it ([execute] binds one, [executemany] a sequence). *)
Definition call : Type := statement * list (list pyval).

(** [cell = param] as the store decides it: text with text, integer with
    integer; a null cell matches nothing. *)
Definition sql_eq (cell param : pyval) : bool :=
  match cell, param with
  | VStr a, VStr b => String.eqb a b
  | VInt a, VInt b => a =? b
  | VBool a, VBool b => Bool.eqb a b
  | _, _ => false
  end.

(** The cell of [row] under [column]. *)
Definition row_cell (columns : list string) (row : list pyval) (column : string) : pyval :=
  match column_index columns column with
  | Some i => default VNone (row !! i)
  | None => VNone
  end.

Definition row_matches (columns : list string) (key : string) (param : pyval)
    (row : list pyval) : bool :=
  sql_eq (row_cell columns row key) param.

(** The table row an INSERT naming [columns] stores for one parameter
    tuple: a column that is not named gets null. *)
Definition inserted_row (t : table) (columns : list string) (params : list pyval)
  : list pyval :=
  map (fun c => default VNone (dict_get (zip columns params) c)) (tbl_columns t).

(** The effect of a call: the table afterwards and the cursor's
    [description] and [rowcount]. A statement on another table, on a column
    the table does not have, or with a parameter tuple of the wrong length,
    is an [OperationalError]. *)
Record outcome := {
  out_table : table;
  out_description : list string;
  out_rowcount : Z
}.

Definition store_execute (t : table) (c : call) : exn + outcome :=
  match c with
  | (SelectAll name, _) =>
      if String.eqb name (tbl_name t)
      then inr {| out_table := t; out_description := tbl_columns t; out_rowcount := -1 |}
      else inl OperationalError
  | (DeleteWhere name key _, [[param]]) =>
      if String.eqb name (tbl_name t) && str_in key (tbl_columns t)
      then
        let kept := List.filter (fun row => negb (row_matches (tbl_columns t) key param row))
                           (tbl_rows t) in
        inr {| out_table := {| tbl_name := tbl_name t; tbl_columns := tbl_columns t;
                               tbl_rows := kept |};
               out_description := [];
               out_rowcount := Z.of_nat (length (tbl_rows t)) - Z.of_nat (length kept) |}
      else inl OperationalError
  | (DeleteWhere _ _ _, _) => inl OperationalError
  | (InsertInto name columns _, values) =>
      if String.eqb name (tbl_name t)
         && negb (Nat.eqb (length columns) 0)
         && forallb (fun c => str_in c (tbl_columns t)) columns
         && forallb (fun params => Nat.eqb (length params) (length columns)) values
      then
        inr {| out_table := {| tbl_name := tbl_name t; tbl_columns := tbl_columns t;
                               tbl_rows := tbl_rows t ++ map (inserted_row t columns) values |};
               out_description := [];
               out_rowcount := Z.of_nat (length values) |}
      else inl OperationalError
  end.

(** ** The uploader's world: the table, the calls made, the log *)

Record world := {
  w_table : table;
  w_calls : list call;
  w_log : list log_record
}.

Definition M (A : Type) : Type := world -> world * (exn + A).

Definition M_ret {A} (a : A) : M A := fun w => (w, inr a).

Definition M_bind {A B} (m : M A) (k : A -> M B) : M B :=
  fun w =>
    match m w with
    | (w', inl e) => (w', inl e)
    | (w', inr a) => k a w'
    end.

Notation "'let+' x ':=' c 'in' k" := (M_bind c (fun x => k))
  (at level 10, x name, c at level 100, k at level 200).
Notation "'run+' c 'in' k" := (M_bind c (fun _ => k))
  (at level 10, c at level 100, k at level 200).

Definition M_log (lvl : log_level) (msg : log_message) : M unit :=
  fun w => ({| w_table := w_table w; w_calls := w_calls w;
               w_log := w_log w ++ [(lvl, msg)] |}, inr tt).

(** Run a logging computation in the world. *)
Definition M_of_W {A} (m : W A) : M A :=
  fun w => ({| w_table := w_table w; w_calls := w_calls w;
               w_log := w_log w ++ fst m |}, snd m).

(** [cursor.execute] and [cursor.executemany]: the call is recorded, then
    the store runs it. *)
Definition cursor_execute (c : call) : M outcome :=
  fun w =>
    let calls := w_calls w ++ [c] in
    match store_execute (w_table w) c with
    | inr o => ({| w_table := out_table o; w_calls := calls; w_log := w_log w |}, inr o)
    | inl e => ({| w_table := w_table w; w_calls := calls; w_log := w_log w |}, inl e)
    end.

Fixpoint M_forM_ {A} (f : A -> M unit) (l : list A) : M unit :=
  match l with
  | [] => M_ret tt
  | x :: l' => run+ f x in M_forM_ f l'
  end.

(* ===================================================================== *)
(** * The uploader *)
(* ===================================================================== *)

Module SQLUploaderConfig.
Record t := {
  batch_size : Z;
  table_name : string;
  record_id_key : string
}.
End SQLUploaderConfig.

(** [df.drop(columns=s)]: a new frame without the columns named in [s]. *)
Fixpoint drop_flagged {A} (flags : list bool) (l : list A) : list A :=
  match flags, l with
  | b :: flags', x :: l' =>
      if b then drop_flagged flags' l' else x :: drop_flagged flags' l'
  | _, _ => l
  end.

Definition df_drop (df : DataFrame) (s : gset string) : DataFrame :=
  let flags := map (fun c => bool_decide (c ∈ s)) (df_columns df) in
  {| df_columns := drop_flagged flags (df_columns df);
     df_rows := map (drop_flagged flags) (df_rows df) |}.

(** [df[column] = pd.Series()] for a column the frame lacks: a new last
    column without values. *)
Definition df_add_empty_column (df : DataFrame) (column : string) : DataFrame :=
  {| df_columns := df_columns df ++ [column];
     df_rows := map (fun row => row ++ [VFloat S754_nan]) (df_rows df) |}.

(** [df.replace({np.nan: None}, inplace=True)] *)
Definition nan_to_none (x : pyval) : pyval :=
  match x with
  | VFloat S754_nan => VNone
  | _ => x
  end.

Definition df_replace_nan (df : DataFrame) : DataFrame :=
  {| df_columns := df_columns df;
     df_rows := map (map nan_to_none) (df_rows df) |}.

(** Modelled from the spec: [split_dataframe] of utils.data_prep, which is
    not in this file. It batches the rows, in order, "into chunks of at most
    [batch_size]" (section 4.6), [ceil(n/batch_size)] of them. *)
Fixpoint chunks {A} (fuel n : nat) (l : list A) : list (list A) :=
  match fuel, l with
  | S fuel', _ :: _ => take n l :: chunks fuel' n (drop n l)
  | _, _ => []
  end.

Definition split_dataframe (df : DataFrame) (chunk_size : Z) : list DataFrame :=
  map (fun rows => {| df_columns := df_columns df; df_rows := rows |})
      (chunks (length (df_rows df)) (Z.to_nat chunk_size) (df_rows df)).

Section SQLUploader.
Context {rt : Runtime}.
Variable upload_config : SQLUploaderConfig.t.
Variable values_delimiter : string.

Definition prepare_value (column_name : string) (value : pyval) : W pyval :=
  if str_in column_name _DATE_COLUMNS then
    match value with
    | VNone => W_ret VNone
    | _ => let* d := parse_date_string value in W_ret (VDatetime d)
    end
  else W_ret value.

Definition prepare_data (columns : list string) (data : list (list pyval))
  : W (list (list pyval)) :=
  W_mapM (fun row => W_mapM (fun cv => prepare_value (fst cv) (snd cv))
                            (zip columns row))
         data.

(** The frame bound to the local name [df] when the body ends. The method
    returns [None]; the frame passed in is not modified, since [drop]
    builds a new frame and the loop assigns into that one. The parameter
    [columns] is rebound on the first line. *)
Definition _fit_to_schema (df : DataFrame) (columns : list string) : W DataFrame :=
  let columns : gset string := list_to_set (df_columns df) in
  let schema_fields : gset string := columns in
  let columns_to_drop := columns ∖ schema_fields in
  let missing_columns := schema_fields ∖ columns in
  run* (if bool_decide (columns_to_drop = ∅) then W_ret tt
        else W_log WARNING (MsgColumnsDropped columns_to_drop)) in
  run* (if bool_decide (missing_columns = ∅) then W_ret tt
        else W_log INFO (MsgColumnsAdded missing_columns)) in
  let df := df_drop df columns_to_drop in
  W_ret (fold_left df_add_empty_column (elements missing_columns) df).

Definition get_table_columns : M (list string) :=
  let+ o := cursor_execute (SelectAll (SQLUploaderConfig.table_name upload_config), []) in
  M_ret (out_description o).

Definition can_delete : M bool :=
  let+ cols := get_table_columns in
  M_ret (str_in (SQLUploaderConfig.record_id_key upload_config) cols).

Definition delete_by_record_id (file_data : FileData) : M unit :=
  let table_name := SQLUploaderConfig.table_name upload_config in
  let record_id_key := SQLUploaderConfig.record_id_key upload_config in
  run+ M_log DEBUG (MsgDeleting record_id_key (identifier file_data) table_name) in
  let stmt := DeleteWhere table_name record_id_key values_delimiter in
  let+ o := cursor_execute (stmt, [[VStr (identifier file_data)]]) in
  M_log INFO (MsgDeleted (out_rowcount o) table_name).

Definition insert_statement (columns : list string) : statement :=
  InsertInto (SQLUploaderConfig.table_name upload_config) columns values_delimiter.

(** One turn of the loop over [split_dataframe]. *)
Definition insert_chunk (columns : list string) (rows : DataFrame) : M unit :=
  let stmt := insert_statement columns in
  let+ values := M_of_W (prepare_data columns (df_rows rows)) in
  run+ M_log DEBUG (MsgRunningQuery (sql_text stmt)) in
  run+ cursor_execute (stmt, values) in
  M_ret tt.

Definition upload_dataframe (df : DataFrame) (file_data : FileData) : M unit :=
  let table_name := SQLUploaderConfig.table_name upload_config in
  let batch_size := SQLUploaderConfig.batch_size upload_config in
  let+ deletable := can_delete in
  run+ (if deletable then delete_by_record_id file_data
        else M_log WARNING
               (MsgSkippingDelete (SQLUploaderConfig.record_id_key upload_config))) in
  let df := df_replace_nan df in
  let+ table_columns := get_table_columns in
  run+ M_of_W (_fit_to_schema df table_columns) in
  let columns := df_columns df in
  run+ M_log INFO (MsgWriting (length (df_rows df)) table_name batch_size) in
  M_forM_ (insert_chunk columns) (split_dataframe df batch_size).

End SQLUploader.

(* ===================================================================== *)
(** * A runtime for the examples *)
(* ===================================================================== *)

(** An instance of [Runtime] on which the definitions above evaluate: a
    process in the UTC zone, dates in the form [YYYY-MM-DD], JSON and [str]
    for the values the examples use. *)
Module ExampleRuntime.

(** The integer part of a finite float, towards zero. *)
Definition trunc (f : spec_float) : Z :=
  match f with
  | S754_finite s m e =>
      let v := if 0 <=? e then Zpos m * 2 ^ e else Zpos m / 2 ^ (- e) in
      if s then - v else v
  | _ => 0
  end.

(** The nearest integer, ties to even. *)
Definition round_half_even (f : spec_float) : Z :=
  match f with
  | S754_finite s m e =>
      let v :=
        if 0 <=? e then Zpos m * 2 ^ e
        else
          let d := 2 ^ (- e) in
          let q := Zpos m / d in
          let r := Zpos m mod d in
          match 2 * r ?= d with
          | Lt => q
          | Gt => q + 1
          | Eq => if Z.even q then q else q + 1
          end in
      if s then - v else v
  | _ => 0
  end.

(** Days since 1970-01-01 to a proleptic Gregorian date. *)
Definition civil_from_days (days : Z) : Z * Z * Z :=
  let z := days + 719468 in
  let era := z / 146097 in
  let doe := z - era * 146097 in
  let yoe := (doe - doe / 1460 + doe / 36524 - doe / 146096) / 365 in
  let doy := doe - (365 * yoe + yoe / 4 - yoe / 100) in
  let mp := (5 * doy + 2) / 153 in
  let d := doy - (153 * mp + 2) / 5 + 1 in
  let m := if mp <? 10 then mp + 3 else mp - 9 in
  let y := yoe + era * 400 + (if m <=? 2 then 1 else 0) in
  (y, m, d).

Definition fromtimestamp_utc (ts : spec_float) : exn + datetime :=
  match ts with
  | S754_nan => inl ValueError
  | S754_infinity _ => inl OverflowError
  | _ =>
      let intpart := trunc ts in
      let frac := SFsub Float64.prec Float64.emax ts (Float64.of_Z intpart) in
      let us := round_half_even
                  (SFmul Float64.prec Float64.emax frac (Float64.of_Z 1000000)) in
      let '(secs, us) :=
        if 1000000 <=? us then (intpart + 1, us - 1000000)
        else if us <? 0 then (intpart - 1, us + 1000000)
        else (intpart, us) in
      if (secs <? - 2 ^ 63) || (2 ^ 63 <=? secs) then inl OverflowError
      else
        let '(y, m, d) := civil_from_days (secs / 86400) in
        let s := secs mod 86400 in
        if (y <? 1) || (9999 <? y) then inl ValueError
        else inr (mk_datetime y m d (s / 3600) (s mod 3600 / 60) (s mod 60) us)
  end.

(** Dates written [YYYY-MM-DD]; other text is not parsed here. *)
Definition dateutil_iso (v : pyval) : exn + datetime :=
  match v with
  | VStr s =>
      match list_ascii_of_string s with
      | [y1; y2; y3; y4; da; m1; m2; db; d1; d2] =>
          let y := Float64.digits_value [y1; y2; y3; y4] in
          let m := Float64.digits_value [m1; m2] in
          let d := Float64.digits_value [d1; d2] in
          if forallb Float64.is_digit [y1; y2; y3; y4; m1; m2; d1; d2]
             && Ascii.eqb da "-" && Ascii.eqb db "-"
             && (1 <=? y) && (1 <=? m) && (m <=? 12) && (1 <=? d) && (d <=? 31)
          then inr (mk_datetime y m d 0 0 0 0)
          else inl ParserError
      | _ => inl ParserError
      end
  | _ => inl TypeError
  end.

Definition dquote : ascii := ascii_of_N 34.
Definition backslash : ascii := ascii_of_N 92.

Definition json_escape (s : string) : string :=
  string_of_list_ascii
    (flat_map (fun c : ascii =>
                 if Ascii.eqb c dquote then [backslash; dquote]
                 else if Ascii.eqb c backslash then [backslash; backslash]
                 else [c])
              (list_ascii_of_string s)).

Definition json_quote (s : string) : string :=
  String dquote (json_escape s) +:+ String dquote EmptyString.

(** [json.dumps] on values without floats; a datetime is not
    serializable. *)
Fixpoint json_dumps_basic (v : pyval) : exn + string :=
  match v with
  | VNone => inr "null"
  | VBool true => inr "true"
  | VBool false => inr "false"
  | VInt z => inr (py_str_int z)
  | VStr s => inr (json_quote s)
  | VList l =>
      let items :=
        (fix go (l : list pyval) : exn + list string :=
           match l with
           | [] => inr []
           | x :: l' =>
               E_bind (json_dumps_basic x) (fun s =>
               E_bind (go l') (fun ss => inr (s :: ss)))
           end) l in
      E_bind items (fun ss => inr ("[" +:+ String.concat ", " ss +:+ "]"))
  | VDict d =>
      let items :=
        (fix go (d : list (string * pyval)) : exn + list string :=
           match d with
           | [] => inr []
           | (k, x) :: d' =>
               E_bind (json_dumps_basic x) (fun s =>
               E_bind (go d') (fun ss => inr ((json_quote k +:+ ": " +:+ s) :: ss)))
           end) d in
      E_bind items (fun ss => inr ("{" +:+ String.concat ", " ss +:+ "}"))
  | VFloat _ => inl ValueError
  | VDatetime _ => inl TypeError
  end.

Definition two_digits (z : Z) : string :=
  if z <? 10 then "0" +:+ py_str_int z else py_str_int z.

(** [str] of a datetime without microseconds; other values print through
    [json_dumps_basic]. *)
Definition repr_basic (v : pyval) : string :=
  match v with
  | VDatetime d =>
      py_str_int (dt_year d) +:+ "-" +:+ two_digits (dt_month d) +:+ "-" +:+
      two_digits (dt_day d) +:+ " " +:+ two_digits (dt_hour d) +:+ ":" +:+
      two_digits (dt_minute d) +:+ ":" +:+ two_digits (dt_second d)
  | _ => match json_dumps_basic v with inr s => s | inl _ => EmptyString end
  end.

(** An identifier derived from the element's [element_id] and the file. *)
Definition enhanced_id (data : dict) (file_data : FileData) : string :=
  let element_id :=
    match dict_get data "element_id" with
    | Some (VStr s) => s
    | _ => "None"
    end in
  str_prefix 32 (SHA256.hexdigest (element_id +:+ identifier file_data)).

(** A list of pairs with text keys is merged in; any other item is refused. *)
Fixpoint update_text_pairs (d : dict) (items : list pyval) : exn + dict :=
  match items with
  | [] => inr d
  | VList [VStr k; v] :: items' => update_text_pairs (dict_set d k v) items'
  | _ => inl TypeError
  end.

#[export] Instance runtime : Runtime := {|
  fromtimestamp := fromtimestamp_utc;
  dateutil_parse := dateutil_iso;
  json_dumps := json_dumps_basic;
  py_repr := repr_basic;
  frozenset_iter := fun l => elements (list_to_set l : gset string);
  frozenset_iter_perm := fun l => reflexivity _;
  get_enhanced_element_id := enhanced_id;
  float_of_unicode := fun _ => inl ValueError;
  update_from_pairs := update_text_pairs
|}.

(** The same interpreter with another hash seed: a [frozenset] is iterated
    in the opposite order. *)
Definition reseeded_runtime : Runtime := {|
  fromtimestamp := fromtimestamp_utc;
  dateutil_parse := dateutil_iso;
  json_dumps := json_dumps_basic;
  py_repr := repr_basic;
  frozenset_iter := fun l => reverse (elements (list_to_set l : gset string));
  frozenset_iter_perm := fun l => reverse_Permutation _;
  get_enhanced_element_id := enhanced_id;
  float_of_unicode := fun _ => inl ValueError;
  update_from_pairs := update_text_pairs
|}.

(** A clock that advances by a tenth of a second per descriptor. *)
Definition clock_from (start : Z) (k : nat) : string :=
  py_str_int start +:+ "." +:+ py_str_int (Z.of_nat k).

End ExampleRuntime.

(* ===================================================================== *)
(** * Vocabulary of the statements *)
(* ===================================================================== *)

(** Whether a result is a raised exception. *)
Definition raises {A} (r : exn + A) : bool :=
  match r with
  | inl _ => true
  | inr _ => false
  end.


(** The order [sorted] sorts by: [a] may stand before [b] when [b < a] is
    false. *)
Definition str_le (a b : string) : Prop := String.ltb b a = false.

(** The first [k] slices of width [b]. *)
Definition nat_slices {A} (b k : nat) (l : list A) : list (list A) :=
  map (fun i => take b (drop (i * b) l)) (seq 0 k).

(** The batch assignments of a run, or the exception it raised. *)
Definition assignments (r : exn + list SqlBatchFileData)
  : exn + list (gset string * list BatchItem) :=
  match r with
  | inl e => inl e
  | inr ds => inr (map assignment ds)
  end.

(** Two descriptors carry the same batch: the same connector and table,
    the same identifier set, and the same batch items in some order. *)
Definition same_assignment (d1 d2 : SqlBatchFileData) : Prop :=
  connector_type d1 = connector_type d2
  /\ additional_metadata d1 = additional_metadata d2
  /\ descriptor_ids d1 = descriptor_ids d2
  /\ batch_items d1 ≡ₚ batch_items d2.

(** Two runs agree: both raise the same exception, or they yield equally
    many descriptors that carry, position by position, the same batch. *)
Definition same_assignments (r1 r2 : exn + list SqlBatchFileData) : Prop :=
  match r1, r2 with
  | inr ds1, inr ds2 => Forall2 same_assignment ds1 ds2
  | inl e1, inl e2 => e1 = e2
  | _, _ => False
  end.

(** A lower-case hexadecimal digit. *)
Definition is_hex (c : ascii) : bool :=
  let n := N_of_ascii c in
  ((48 <=? n) && (n <=? 57) || (97 <=? n) && (n <=? 102))%N.

(** A frame is rectangular: every row has one cell per column. *)
Definition df_wf (df : DataFrame) : Prop :=
  Forall (fun row => length row = length (df_columns df)) (df_rows df).

(** [f] turns the cell [x] into [y] without raising. *)
Definition cell_ok (f : pyval -> W pyval) (x y : pyval) : Prop :=
  snd (f x) = inr y.

(** The columns [names] rewritten by [f]: what changed and what did not. *)
Definition columns_rewritten (f : pyval -> W pyval) (names : list string)
    (df df' : DataFrame) : Prop :=
  df_wf df'
  /\ df_columns df' = df_columns df
  /\ length (df_rows df') = length (df_rows df)
  /\ (forall c, c ∉ names -> df_get df' c = df_get df c)
  /\ (forall c series, c ∈ names -> df_get df c = Some series ->
        exists series', df_get df' c = Some series'
                        /\ Forall2 (cell_ok f) series series').

(** What the structured columns hold afterwards: the JSON text of a list or
    of a mapping, null for anything else. *)
Definition json_or_null {rt : Runtime} (x y : pyval) : Prop :=
  match x with
  | VList _ | VDict _ => exists s, json_dumps x = inr s /\ y = VStr s
  | _ => y = VNone
  end.

(* ===================================================================== *)
(** * Data of the examples *)
(* ===================================================================== *)

(** Identifiers b, a, c are enumerated with batch size 2. *)
Definition abc_config : SQLIndexerConfig.t :=
  {| SQLIndexerConfig.table_name := "elements";
     SQLIndexerConfig.id_column := "id";
     SQLIndexerConfig.batch_size := 2 |}.

(** A staged element that is staged again: it has a [record_id] already. *)
Definition restaged_element : dict :=
  [ ("text", VStr "hello"); ("record_id", VStr "r0");
    ("metadata", VDict [("filename", VStr "a.pdf"); ("orig_elements", VStr "x")]) ].

Definition file_r1 : FileData := {| identifier := "r1" |}.

(** A staged batch with structured and stringified columns. *)
Definition staged_batch : DataFrame :=
  {| df_columns := ["text"; "links"; "points"; "page_number"; "version"];
     df_rows :=
       [ [VStr "hello"; VList [VInt 1; VInt 2]; VStr "not a list"; VInt 3; VNone];
         [VStr "bye"; VInt 5; VDict []; VNone; VStr "v1"] ] |}.

(** A batch with a column the table lacks, and a table with a column the
    batch lacks. *)
Definition drifted_batch : DataFrame :=
  {| df_columns := ["id"; "extra"];
     df_rows := [[VStr "e1"; VInt 1]; [VStr "e2"; VInt 2]] |}.

Definition live_columns : list string := ["id"; "text"].

Definition drifted_table : table :=
  {| tbl_name := "elements";
     tbl_columns := ["id"; "text"; "record_id"];
     tbl_rows := [ [VStr "e0"; VStr "old"; VStr "r1"] ] |}.

(** The scenario of section 8 of the specification: table [elements] has
    columns [id], [record_id], [text], and a row for [r1] from a previous
    upload. *)
Definition elements_config : SQLUploaderConfig.t :=
  {| SQLUploaderConfig.batch_size := 50;
     SQLUploaderConfig.table_name := "elements";
     SQLUploaderConfig.record_id_key := "record_id" |}.

Definition elements_table : table :=
  {| tbl_name := "elements";
     tbl_columns := ["id"; "record_id"; "text"];
     tbl_rows := [ [VStr "e1"; VStr "r1"; VStr "hello"];
                   [VStr "e9"; VStr "r2"; VStr "other"] ] |}.

Definition elements_world : world :=
  {| w_table := elements_table; w_calls := []; w_log := [] |}.

Definition updated_batch : DataFrame :=
  {| df_columns := ["id"; "record_id"; "text"];
     df_rows := [ [VStr "e2"; VStr "r1"; VStr "updated"] ] |}.

(* ===================================================================== *)
(** * Vocabulary of further statements *)
(* ===================================================================== *)

(** What [prepare_data] binds for the cell [v] of column [column_name]: a
    date column's cell is parsed unless it is [None]; any other cell is
    passed on. *)
Definition prepared {rt : Runtime} (column_name : string) (v v' : pyval) : Prop :=
  if str_in column_name _DATE_COLUMNS then
    match v with
    | VNone => v' = VNone
    | _ => exists d, snd (parse_date_string v) = inr d /\ v' = VDatetime d
    end
  else v' = v.


(** The rows of the table that an upload for the file [file_data] leaves in
    place: all of them when the table lacks the record-linkage column,
    otherwise those whose record-linkage cell is not the file's identifier. *)
Definition rows_kept (upload_config : SQLUploaderConfig.t) (file_data : FileData)
    (t : table) : list (list pyval) :=
  if str_in (SQLUploaderConfig.record_id_key upload_config) (tbl_columns t)
  then List.filter
         (fun row =>
            negb (row_matches (tbl_columns t)
                    (SQLUploaderConfig.record_id_key upload_config)
                    (VStr (identifier file_data)) row))
         (tbl_rows t)
  else tbl_rows t.

(** [values] are the rows [prepare_data] binds for the chunk [d]. *)
Definition chunk_prepared {rt : Runtime} (upload_columns : list string)
    (d : DataFrame) (values : list (list pyval)) : Prop :=
  snd (prepare_data upload_columns (df_rows d)) = inr values.

(** A call that is not a DELETE. *)
Definition not_a_delete (c : call) : Prop :=
  match fst c with
  | DeleteWhere _ _ _ => False
  | _ => True
  end.


(** The cell under [key] in [dict(zip(columns, row))] is the text [r]. *)
Definition row_linked (columns : list string) (key r : string) (row : list pyval)
  : Prop :=
  dict_get (zip columns row) key = Some (VStr r).

(** A cell parsed into a date. *)
Definition parsed_date {rt : Runtime} (x y : pyval) : Prop :=
  exists d, snd (parse_date_string x) = inr d /\ y = VDatetime d.

(** The mapping a field holds, empty when the field is absent. *)
Definition mapping_of (field : option pyval) : dict :=
  match field with
  | Some (VDict d) => d
  | _ => []
  end.

Definition mapping_or_absent (field : option pyval) : bool :=
  match field with
  | None | Some (VDict _) => true
  | Some _ => false
  end.

(** The value an element has for [k] once its nested mappings are
    flattened: that of [metadata.coordinates], else that of
    [metadata.data_source], else that of the rest of [metadata], else that
    of the element without [metadata]. *)
Definition flattened (element_dict : dict) (k : string) : option pyval :=
  let metadata := mapping_of (dict_get element_dict "metadata") in
  let data_source := mapping_of (dict_get metadata "data_source") in
  let coordinates := mapping_of (dict_get metadata "coordinates") in
  match dict_get coordinates k with
  | Some v => Some v
  | None =>
    match dict_get data_source k with
    | Some v => Some v
    | None =>
      match dict_get (dict_remove (dict_remove metadata "data_source") "coordinates") k with
      | Some v => Some v
      | None => dict_get (dict_remove element_dict "metadata") k
      end
    end
  end.

(** An element with nested metadata, whose [url], [version] and [points]
    are given at more than one level. *)
Definition nested_element : dict :=
  [ ("text", VStr "hello"); ("url", VStr "top"); ("type", VStr "Title");
    ("metadata",
     VDict [ ("filename", VStr "a.pdf"); ("url", VStr "meta"); ("version", VStr "m1");
             ("data_source", VDict [("url", VStr "source"); ("version", VStr "s1");
                                    ("points", VInt 1)]);
             ("coordinates", VDict [("points", VList [VInt 0; VInt 0]);
                                    ("system", VStr "PixelSpace")]) ]) ].

(* ===================================================================== *)
(** * The KDB.AI uploader (kdbai.py) *)
(* ===================================================================== *)

Module Kdbai.

Record KdbaiConnectionConfig := { endpoint : string }.

Record KdbaiUploaderConfig := {
  database_name : string;
  table_name : string;
  batch_size : Z
}.

(** The log message of [process_dataframe]. *)
Inductive log_message :=
| MsgUploadingEntries (n : nat) (endpoint database_name table_name : string).

(** [np.arange(n)] *)
Definition np_arange (n : nat) : list Z := map Z.of_nat (seq 0 n).

(** [a // b] for an integer array [a]: floor division, element by element;
    where the divisor is zero numpy warns and gives 0. *)
Definition np_floor_divide (a : list Z) (b : Z) : list Z :=
  map (fun x => if b =? 0 then 0 else x / b) a.

(** The group keys of [groupby]: the distinct keys, in ascending order
    ([sort=True] is the default). *)
Definition group_keys (keys : list Z) : list Z :=
  merge_sort Z.le (remove_dups keys).

(** [df.groupby(keys)] for an array with one key per row: iteration gives,
    for each group key, the key and the frame of the rows that have it, in
    the order they have in [df]. *)
Definition df_groupby (df : DataFrame) (keys : list Z) : list (Z * DataFrame) :=
  map (fun k =>
         (k, {| df_columns := df_columns df;
                df_rows := map snd (List.filter (fun kr => fst kr =? k)
                                      (zip keys (df_rows df))) |}))
      (group_keys keys).

Section KdbaiUploader.
Variable connection_config : KdbaiConnectionConfig.
Variable upload_config : KdbaiUploaderConfig.

(** The client library [kdbai_client]: the state of the service, and what
    its sessions, databases and tables do with it. *)
Variable St Session Database Table : Type.
Variable get_session : KdbaiConnectionConfig -> St -> St * (exn + Session).
Variable session_database : Session -> string -> St -> St * (exn + Database).
Variable database_table : Database -> string -> St -> St * (exn + Table).
Variable table_insert : Table -> DataFrame -> St -> St * (exn + unit).

(** Computations on the service that may raise. *)
Definition K (A : Type) : Type := St -> St * (exn + A).

Definition K_bind {A B} (m : K A) (k : A -> K B) : K B :=
  fun s =>
    match m s with
    | (s', inl e) => (s', inl e)
    | (s', inr a) => k a s'
    end.

(** [for x in l: f x] *)
Fixpoint K_forM_ {A} (f : A -> K unit) (l : list A) : K unit :=
  match l with
  | [] => fun s => (s, inr tt)
  | x :: l' => K_bind (f x) (fun _ => K_forM_ f l')
  end.

Definition get_database : K Database :=
  K_bind (get_session connection_config) (fun session =>
  session_database session (database_name upload_config)).

Definition get_table : K Table :=
  K_bind get_database (fun db => database_table db (table_name upload_config)).

Definition upsert_batch (batch : DataFrame) : K unit :=
  K_bind get_table (fun table => table_insert table batch).

(** The log record written first, and the run of the loop. *)
Definition process_dataframe (df : DataFrame)
  : (log_level * log_message) * K unit :=
  ((DEBUG, MsgUploadingEntries (length (df_rows df)) (endpoint connection_config)
             (database_name upload_config) (table_name upload_config)),
   K_forM_ (fun group => upsert_batch (snd group))
     (df_groupby df
        (np_floor_divide (np_arange (length (df_rows df))) (batch_size upload_config)))).

End KdbaiUploader.

End Kdbai.

(** A service that keeps the frames it was given, for the examples. *)
Definition recording_insert (table : string * string) (batch : DataFrame)
    (s : list (string * string * DataFrame))
  : list (string * string * DataFrame) * (exn + unit) :=
  (s ++ [(fst table, snd table, batch)], inr tt).

Definition three_rows : DataFrame :=
  {| df_columns := ["id"; "document"];
     df_rows := [ [VStr "e1"; VStr "a"]; [VStr "e2"; VStr "b"]; [VStr "e3"; VStr "c"] ] |}.

Definition kdbai_config : Kdbai.KdbaiUploaderConfig :=
  {| Kdbai.database_name := "default"; Kdbai.table_name := "elements";
     Kdbai.batch_size := 2 |}.

(* ===================================================================== *)
(** * Properties of the date normalizer *)
(* ===================================================================== *)

Section DateNormalizerFacts.
Context {rt : Runtime}.

Lemma timestamp_of_int (z : Z) :
  timestamp_of (VInt z) =
  E_bind (py_float (VInt z)) (fun f => inr (Float64.div f (Float64.of_Z 1000))).
Proof. reflexivity. Qed.

Lemma timestamp_of_str (s : string) : timestamp_of (VStr s) = py_float (VStr s).
Proof. reflexivity. Qed.

Lemma timestamp_of_float (f : spec_float) : timestamp_of (VFloat f) = inr f.
Proof. reflexivity. Qed.

Lemma parse_date_string_epoch (v : pyval) (d : datetime) :
  epoch_path v = inr d -> parse_date_string v = ([], inr d).
Proof. intros H. unfold parse_date_string, W_lift, W_try. now rewrite H. Qed.

Lemma parse_date_string_fallback (v : pyval) (e : exn) :
  epoch_path v = inl e ->
  parse_date_string v = ([(DEBUG, MsgNotATimestamp v e)], dateutil_parse v).
Proof.
  intros H. unfold parse_date_string, W_lift, W_try. rewrite H.
  unfold W_bind, W_log. cbn. now destruct (dateutil_parse v).
Qed.





End DateNormalizerFacts.




(** C8. The normalizer raises exactly when the epoch reading and the
    date-string reading both fail. When the epoch reading succeeds its date
    is returned and nothing is logged; when it fails, one debug record with
    the value and the exception is logged and the outcome is that of
    [dateutil]'s parser on the same value, raised exception included. *)
Theorem parse_date_string_raises_iff_both_fail {rt : Runtime} (v : pyval) :
  raises (snd (parse_date_string v))
    = raises (epoch_path v) && raises (dateutil_parse v)
  /\ parse_date_string v =
       match epoch_path v with
       | inr d => ([], inr d)
       | inl e => ([(DEBUG, MsgNotATimestamp v e)], dateutil_parse v)
       end.
Proof.
  destruct (epoch_path v) as [e | d] eqn:He.
  - rewrite (parse_date_string_fallback v e He). split; reflexivity.
  - rewrite (parse_date_string_epoch v d He). split; reflexivity.
Qed.

(* ===================================================================== *)
(** * Properties of [sorted] and of slices *)
(* ===================================================================== *)

Section StringOrder.

Lemma ascii_compare_lt_trans (x y z : ascii) :
  Ascii.compare x y = Lt -> Ascii.compare y z = Lt -> Ascii.compare x z = Lt.
Proof.
  unfold Ascii.compare. rewrite !N.compare_lt_iff. apply N.lt_trans.
Qed.

Lemma string_compare_lt_trans (a b c : string) :
  String.compare a b = Lt -> String.compare b c = Lt -> String.compare a c = Lt.
Proof.
  revert b c. induction a as [| x a IH]; intros [| y b] [| z c]; cbn; try congruence.
  destruct (Ascii.compare x y) eqn:Hxy; try congruence.
  - apply Ascii.compare_eq_iff in Hxy as ->.
    destruct (Ascii.compare y z); try congruence. apply IH.
  - intros _. destruct (Ascii.compare y z) eqn:Hyz; try congruence.
    + apply Ascii.compare_eq_iff in Hyz as <-. now rewrite Hxy.
    + now rewrite (ascii_compare_lt_trans x y z Hxy Hyz).
Qed.

Lemma str_le_compare (a b : string) : str_le a b <-> String.compare a b <> Gt.
Proof.
  unfold str_le, String.ltb. rewrite (String.compare_antisym b a).
  destruct (String.compare a b); cbn; split; congruence.
Qed.

Lemma str_le_of_ltb (a b : string) : String.ltb a b = true -> str_le a b.
Proof.
  unfold String.ltb. intros H. apply str_le_compare.
  destruct (String.compare a b); congruence.
Qed.

#[local] Instance str_le_trans : Transitive str_le.
Proof.
  intros a b c. rewrite !str_le_compare. intros Hab Hbc.
  destruct (String.compare a b) eqn:Eab; try congruence.
  - apply String.compare_eq_iff in Eab as ->. exact Hbc.
  - destruct (String.compare b c) eqn:Ebc; try congruence.
    + apply String.compare_eq_iff in Ebc as <-. congruence.
    + rewrite (string_compare_lt_trans a b c Eab Ebc). congruence.
Qed.

#[local] Instance str_le_antisym : AntiSymm eq str_le.
Proof.
  intros a b. rewrite !str_le_compare. intros Hab Hba.
  rewrite (String.compare_antisym b a) in Hba.
  destruct (String.compare a b) eqn:Eab; cbn in *; try congruence.
  now apply String.compare_eq_iff.
Qed.

Lemma sorted_insert_perm (x : string) (l : list string) :
  sorted_insert x l ≡ₚ x :: l.
Proof.
  induction l as [| y l IH]; cbn; [done |].
  destruct (String.ltb y x); [| done].
  rewrite IH. apply Permutation_swap.
Qed.

Lemma py_sorted_perm (l : list string) : py_sorted l ≡ₚ l.
Proof.
  induction l as [| x l IH]; cbn; [done |].
  rewrite sorted_insert_perm. now rewrite IH.
Qed.

Lemma sorted_insert_sorted (x : string) (l : list string) :
  StronglySorted str_le l -> StronglySorted str_le (sorted_insert x l).
Proof.
  induction 1 as [| y l Hl IH Hy]; cbn.
  - repeat constructor.
  - destruct (String.ltb y x) eqn:Hyx.
    + constructor; [exact IH |].
      rewrite sorted_insert_perm. constructor; [now apply str_le_of_ltb | exact Hy].
    + constructor; [now constructor |].
      constructor; [exact Hyx |].
      eapply Forall_impl; [exact Hy |]. intros z Hz. now transitivity y.
Qed.

Lemma py_sorted_sorted (l : list string) : StronglySorted str_le (py_sorted l).
Proof.
  induction l as [| x l IH]; cbn; [constructor | now apply sorted_insert_sorted].
Qed.

(** The sorted list depends on the identifiers, not on their order. *)
Lemma py_sorted_permutation_invariant (l1 l2 : list string) :
  l1 ≡ₚ l2 -> py_sorted l1 = py_sorted l2.
Proof.
  intros H. apply (StronglySorted_unique str_le); try apply py_sorted_sorted.
  now rewrite !py_sorted_perm.
Qed.

End StringOrder.

Section Slices.
Context {A : Type}.

Lemma concat_nat_slices (b k : nat) (l : list A) :
  concat (nat_slices b k l) = take (k * b) l.
Proof.
  unfold nat_slices. induction k as [| k IH].
  - now rewrite take_0.
  - rewrite seq_S, map_app, concat_app, IH. cbn. rewrite app_nil_r.
    rewrite take_take_drop. f_equal. lia.
Qed.

Lemma py_slice_nat (l : list A) (lo hi : Z) :
  0 <= lo <= hi ->
  py_slice l lo hi = take (Z.to_nat hi - Z.to_nat lo) (drop (Z.to_nat lo) l).
Proof.
  intros H. unfold py_slice, slice_bound.
  destruct (lo <? 0) eqn:E1; [lia |]. destruct (hi <? 0) eqn:E2; [lia |].
  destruct (Z_lt_le_dec lo (Z.of_nat (length l))) as [Hlt | Hge].
  - rewrite (Z.min_l lo) by lia.
    destruct (Z_lt_le_dec hi (Z.of_nat (length l))) as [Hlt' | Hge'].
    + rewrite (Z.min_l hi) by lia. f_equal. lia.
    + rewrite (Z.min_r hi) by lia.
      rewrite !take_ge; [done | rewrite length_drop; lia | rewrite length_drop; lia].
  - rewrite !(drop_ge l); [| lia | lia]. now rewrite !take_nil.
Qed.

Lemma elem_of_nat_slice_take (b i : nat) (l : list A) (x : A) :
  x ∈ take b (drop (i * b) l) -> x ∈ take ((i + 1) * b) l.
Proof.
  intros H. replace ((i + 1) * b)%nat with (i * b + b)%nat by lia.
  rewrite <- take_take_drop. apply elem_of_app. now right.
Qed.

Lemma elem_of_nat_slice_drop (b i j : nat) (l : list A) (x : A) :
  (j <= i * b)%nat -> x ∈ take b (drop (i * b) l) -> x ∈ drop j l.
Proof.
  intros Hj H. apply elem_of_take in H as (n & H & _). 
  rewrite lookup_drop in H.
  apply list_elem_of_lookup. exists (i * b + n - j)%nat.
  rewrite lookup_drop. rewrite <- H. f_equal. lia.
Qed.

Lemma NoDup_take_drop_disjoint (n : nat) (l : list A) (x : A) :
  NoDup l -> x ∈ take n l -> x ∈ drop n l -> False.
Proof.
  intros Hnd H1 H2. rewrite <- (take_drop n l) in Hnd.
  apply NoDup_app in Hnd as (_ & Hd & _). exact (Hd x H1 H2).
Qed.

(** Distinct slices of a duplicate-free list share no element. *)
Lemma nat_slices_disjoint (b i j : nat) (l : list A) (x : A) :
  NoDup l -> (i < j)%nat ->
  x ∈ take b (drop (i * b) l) -> x ∈ take b (drop (j * b) l) -> False.
Proof.
  intros Hnd Hij Hi Hj.
  apply (NoDup_take_drop_disjoint ((i + 1) * b) l x Hnd).
  - now apply elem_of_nat_slice_take.
  - apply (elem_of_nat_slice_drop b j); [nia | done].
Qed.

End Slices.

(* ===================================================================== *)
(** * Properties of the indexer *)
(* ===================================================================== *)

Section IndexerFacts.
Context {rt : Runtime}.
Variable self_connector_type : string.
Variable index_config : SQLIndexerConfig.t.

Local Abbreviation B := (SQLIndexerConfig.batch_size index_config).

Lemma descriptor_ids_descriptor (clock : nat -> string) (k : nat) (batch : list string) :
  descriptor_ids (descriptor self_connector_type index_config clock k batch)
  = list_to_set batch.
Proof.
  unfold descriptor_ids, descriptor. cbn. rewrite map_map. cbn. rewrite map_id.
  rewrite (list_to_set_perm_L _ _ (frozenset_iter_perm batch)).
  apply list_to_set_elements_L.
Qed.

Lemma assignment_descriptor (clock : nat -> string) (k : nat) (batch : list string) :
  assignment (descriptor self_connector_type index_config clock k batch)
  = (list_to_set batch, map (fun b => {| item_identifier := b |}) (frozenset_iter batch)).
Proof. unfold assignment. now rewrite descriptor_ids_descriptor. Qed.

Lemma id_slices_nat (ids : list string) :
  1 <= B ->
  id_slices index_config ids
  = inr (nat_slices (Z.to_nat B)
           (Z.to_nat ((Z.of_nat (length ids) + B - 1) / B)) ids).
Proof.
  intros HB. unfold id_slices.
  destruct (B =? 0) eqn:E; [lia |]. f_equal.
  unfold py_range, nat_slices. rewrite map_map. apply map_ext. intros i.
  rewrite py_slice_nat by nia.
  rewrite !Z2Nat.inj_mul, Z2Nat.inj_add, !Nat2Z.id by lia.
  f_equal. change (Z.to_nat 1) with 1%nat. lia.
Qed.

Lemma ceil_div_bounds (n : Z) :
  0 <= n -> 1 <= B ->
  0 <= (n + B - 1) / B /\ ((n + B - 1) / B - 1) * B < n <= (n + B - 1) / B * B.
Proof.
  intros Hn HB.
  pose proof (Z.div_mod (n + B - 1) B ltac:(lia)) as Hdm.
  pose proof (Z.mod_pos_bound (n + B - 1) B ltac:(lia)) as Hm.
  split; [apply Z.div_pos; lia | nia].
Qed.

Lemma union_list_to_set_concat (ls : list (list string)) :
  ⋃ ((list_to_set <$> ls) : list (gset string)) = list_to_set (concat ls).
Proof.
  induction ls as [| l ls IH]; cbn; [done |].
  now rewrite list_to_set_app_L, IH.
Qed.

Lemma descriptor_ids_imap (clock : nat -> string) (slices : list (list string)) :
  descriptor_ids <$> imap (descriptor self_connector_type index_config clock) slices
  = list_to_set <$> slices.
Proof.
  apply list_eq. intros i.
  rewrite !list_lookup_fmap, list_lookup_imap.
  destruct (slices !! i) as [s |]; [| done].
  cbn [fmap option_fmap option_map]. f_equal. apply descriptor_ids_descriptor.
Qed.

End IndexerFacts.

(** C2. On a table whose identifier column holds [N] distinct values, with a
    batch size [B >= 1], the run yields [ceil(N/B)] descriptors (the count
    [k] with [(k-1)*B < N <= k*B]); their identifier sets are pairwise
    disjoint and their union is the set of all identifiers; and the [i]-th
    descriptor holds the [i]-th slice of width [B] of the identifiers sorted
    in lexicographic order. *)
Theorem SQLIndexer_run_partitions
    {rt : Runtime} (self_connector_type : string) (index_config : SQLIndexerConfig.t)
    (fetchall : string -> list string) (clock : nat -> string)
    (Hdistinct : NoDup (fetchall (doc_ids_query index_config)))
    (Hsize : 1 <= SQLIndexerConfig.batch_size index_config) :
  exists ds : list SqlBatchFileData,
    SQLIndexer_run self_connector_type index_config fetchall clock = inr ds
    /\ (Z.of_nat (length ds) - 1) * SQLIndexerConfig.batch_size index_config
         < Z.of_nat (length (fetchall (doc_ids_query index_config)))
         <= Z.of_nat (length ds) * SQLIndexerConfig.batch_size index_config
    /\ (forall i j di dj, i <> j -> ds !! i = Some di -> ds !! j = Some dj ->
          descriptor_ids di ## descriptor_ids dj)
    /\ ⋃ (descriptor_ids <$> ds)
         = list_to_set (fetchall (doc_ids_query index_config))
    /\ StronglySorted str_le (py_sorted (fetchall (doc_ids_query index_config)))
    /\ py_sorted (fetchall (doc_ids_query index_config))
         ≡ₚ fetchall (doc_ids_query index_config)
    /\ (forall i d, ds !! i = Some d ->
          descriptor_ids d
          = list_to_set
              (take (Z.to_nat (SQLIndexerConfig.batch_size index_config))
                 (drop (i * Z.to_nat (SQLIndexerConfig.batch_size index_config))
                    (py_sorted (fetchall (doc_ids_query index_config)))))).
Proof.
  set (results := fetchall (doc_ids_query index_config)) in *.
  set (B := SQLIndexerConfig.batch_size index_config) in *.
  set (ids := py_sorted results).
  assert (Hlen : length ids = length results)
    by (apply Permutation_length, py_sorted_perm).
  assert (Hnd : NoDup ids) by (unfold ids; now rewrite py_sorted_perm).
  pose proof (ceil_div_bounds index_config (Z.of_nat (length ids))
                ltac:(lia) Hsize) as (Hk0 & Hk).
  fold B in Hk0, Hk.
  set (k := Z.to_nat ((Z.of_nat (length ids) + B - 1) / B)) in *.
  set (slices := nat_slices (Z.to_nat B) k ids).
  assert (Hlk : length slices = k)
    by (unfold slices, nat_slices; now rewrite length_map, length_seq).
  assert (Hslice : forall i s, slices !! i = Some s ->
                     s = take (Z.to_nat B) (drop (i * Z.to_nat B) ids)).
  { intros i s Hs. unfold slices, nat_slices in Hs.
    rewrite list_lookup_fmap in Hs.
    destruct (seq 0 k !! i) as [n |] eqn:En; [| done].
    apply lookup_seq in En as [-> _]. cbn in Hs. congruence. }
  exists (imap (descriptor self_connector_type index_config clock) slices).
  split; [| split; [| split; [| split; [| split; [| split]]]]].
  - unfold SQLIndexer_run, _get_doc_ids. fold results ids.
    rewrite (id_slices_nat index_config ids Hsize). reflexivity.
  - rewrite length_imap, Hlk, <- Hlen. unfold k. rewrite Z2Nat.id by lia. exact Hk.
  - intros i j di dj Hij Hi Hj.
    apply list_lookup_imap_Some in Hi as (si & Hsi & ->).
    apply list_lookup_imap_Some in Hj as (sj & Hsj & ->).
    rewrite !descriptor_ids_descriptor.
    apply Hslice in Hsi as ->. apply Hslice in Hsj as ->.
    intros x Hx Hy. apply elem_of_list_to_set in Hx, Hy.
    destruct (Nat.lt_total i j) as [Hlt | [Heq | Hgt]]; [| done |].
    + exact (nat_slices_disjoint _ i j ids x Hnd Hlt Hx Hy).
    + exact (nat_slices_disjoint _ j i ids x Hnd Hgt Hy Hx).
  - rewrite descriptor_ids_imap, union_list_to_set_concat.
    unfold slices. rewrite concat_nat_slices.
    rewrite take_ge.
    + apply list_to_set_perm_L, py_sorted_perm.
    + unfold k. nia.
  - apply py_sorted_sorted.
  - apply py_sorted_perm.
  - intros i d Hd.
    apply list_lookup_imap_Some in Hd as (s & Hs & ->).
    rewrite descriptor_ids_descriptor. now apply Hslice in Hs as ->.
Qed.

Example SQLIndexer_run_abc :
  @SQLIndexer_run ExampleRuntime.runtime "sql" abc_config
    (fun _ => ["b"; "a"; "c"]) (ExampleRuntime.clock_from 1700000000)
  = inr [ {| connector_type := "sql"; date_processed := "1700000000.0";
             additional_metadata :=
               {| SqlAdditionalMetadata.table_name := "elements";
                  SqlAdditionalMetadata.id_column := "id" |};
             batch_items := [ {| item_identifier := "a" |};
                              {| item_identifier := "b" |} ] |};
          {| connector_type := "sql"; date_processed := "1700000000.1";
             additional_metadata :=
               {| SqlAdditionalMetadata.table_name := "elements";
                  SqlAdditionalMetadata.id_column := "id" |};
             batch_items := [ {| item_identifier := "c" |} ] |} ].
Proof. vm_compute. reflexivity. Qed.

Lemma SQLIndexer_run_partitions_witness :
  exists ds : list SqlBatchFileData,
    @SQLIndexer_run ExampleRuntime.runtime "sql" abc_config
      (fun _ => ["b"; "a"; "c"]) (ExampleRuntime.clock_from 1700000000) = inr ds
    /\ length ds = 2%nat.
Proof.
  destruct (@SQLIndexer_run_partitions ExampleRuntime.runtime "sql" abc_config
              (fun _ => ["b"; "a"; "c"]) (ExampleRuntime.clock_from 1700000000))
    as (ds & Hrun & Hcount & _).
  - apply (bool_decide_unpack _). vm_compute. reflexivity.
  - cbn. lia.
  - exists ds. split; [exact Hrun |]. cbn in Hcount. lia.
Defined.

(** C6. Two enumerations of an unchanged table give the same batch
    assignments, also when they run in two interpreter processes, whose
    [frozenset]s may iterate in different orders: both raise the same
    exception, or they yield the same number of descriptors, in the same
    order, each with the same connector and table, the same identifier set
    and the same batch items up to their order inside the descriptor. This
    holds whatever the clock reads in either run, and also when the store
    returns the same identifiers in another order. Within one process the
    batch items are in the same order too. *)
Theorem SQLIndexer_run_deterministic
    (rt1 rt2 : Runtime) (self_connector_type : string)
    (index_config : SQLIndexerConfig.t)
    (fetchall1 fetchall2 : string -> list string) (clock1 clock2 : nat -> string)
    (Hsame : fetchall1 (doc_ids_query index_config)
               ≡ₚ fetchall2 (doc_ids_query index_config)) :
  same_assignments
    (@SQLIndexer_run rt1 self_connector_type index_config fetchall1 clock1)
    (@SQLIndexer_run rt2 self_connector_type index_config fetchall2 clock2)
  /\ (rt1 = rt2 ->
      assignments (@SQLIndexer_run rt1 self_connector_type index_config fetchall1 clock1)
      = assignments
          (@SQLIndexer_run rt2 self_connector_type index_config fetchall2 clock2)).
Proof.
  unfold SQLIndexer_run, _get_doc_ids.
  rewrite (py_sorted_permutation_invariant _ _ Hsame).
  destruct (id_slices index_config _) as [e | slices]; cbn; [done |].
  split.
  - apply Forall2_same_length_lookup_2; [now rewrite !length_imap |].
    intros i d1 d2 H1 H2.
    apply list_lookup_imap_Some in H1 as (s1 & Hs1 & ->).
    apply list_lookup_imap_Some in H2 as (s2 & Hs2 & ->).
    assert (s2 = s1) as -> by congruence.
    repeat split.
    + now rewrite !descriptor_ids_descriptor.
    + cbn [batch_items descriptor]. apply fmap_Permutation.
      now rewrite (@frozenset_iter_perm rt1 s1), (@frozenset_iter_perm rt2 s1).
  - intros <-. f_equal. apply list_eq. intros i.
    rewrite !list_lookup_fmap, !list_lookup_imap.
    destruct (slices !! i) as [s |]; [| done].
    cbn [fmap option_fmap option_map]. now rewrite !assignment_descriptor.
Qed.

Lemma SQLIndexer_run_deterministic_witness :
  exists ds1 ds2 : list SqlBatchFileData,
    @SQLIndexer_run ExampleRuntime.runtime "sql" abc_config
      (fun _ => ["b"; "a"; "c"]) (ExampleRuntime.clock_from 1700000000) = inr ds1
    /\ @SQLIndexer_run ExampleRuntime.reseeded_runtime "sql" abc_config
         (fun _ => ["c"; "b"; "a"]) (ExampleRuntime.clock_from 1800000000) = inr ds2
    /\ Forall2 same_assignment ds1 ds2
    /\ map batch_items ds1
       = [ [ {| item_identifier := "a" |}; {| item_identifier := "b" |} ];
           [ {| item_identifier := "c" |} ] ]
    /\ map batch_items ds2
       = [ [ {| item_identifier := "b" |}; {| item_identifier := "a" |} ];
           [ {| item_identifier := "c" |} ] ].
Proof.
  assert (H1 : { ds1 | @SQLIndexer_run ExampleRuntime.runtime "sql" abc_config
                         (fun _ => ["b"; "a"; "c"])
                         (ExampleRuntime.clock_from 1700000000) = inr ds1 })
    by (eexists; vm_compute; reflexivity).
  assert (H2 : { ds2 | @SQLIndexer_run ExampleRuntime.reseeded_runtime "sql" abc_config
                         (fun _ => ["c"; "b"; "a"])
                         (ExampleRuntime.clock_from 1800000000) = inr ds2 })
    by (eexists; vm_compute; reflexivity).
  destruct H1 as [ds1 H1]. destruct H2 as [ds2 H2].
  pose proof (proj1 (SQLIndexer_run_deterministic
                       ExampleRuntime.runtime ExampleRuntime.reseeded_runtime
                       "sql" abc_config
                       (fun _ => ["b"; "a"; "c"]) (fun _ => ["c"; "b"; "a"])
                       (ExampleRuntime.clock_from 1700000000)
                       (ExampleRuntime.clock_from 1800000000)
                       (Permutation_sym (Permutation_cons_append ["b"; "a"] "c")))) as H.
  rewrite H1, H2 in H. cbn [same_assignments] in H.
  exists ds1, ds2. split; [exact H1 |]. split; [exact H2 |]. split; [exact H |].
  vm_compute in H1, H2. injection H1 as <-. injection H2 as <-.
  split; reflexivity.
Defined.

(* ===================================================================== *)
(** * Properties of the downloader's file name *)
(* ===================================================================== *)

Section Text.

Lemma append_inj_r (s a b : string) : s +:+ a = s +:+ b -> a = b.
Proof. induction s as [| c s IH]; cbn; [done |]. intros [= H]. auto. Qed.

Lemma append_neq_self (s a : string) : a <> EmptyString -> s +:+ a <> s.
Proof.
  intros Ha H. apply Ha. apply (append_inj_r s). rewrite H.
  clear. induction s as [| c s IH]; [reflexivity |].
  change (String c s = String c (s +:+ EmptyString)). now f_equal.
Qed.

Lemma length_string_of_list_ascii (l : list ascii) :
  String.length (string_of_list_ascii l) = length l.
Proof. induction l as [| c l IH]; cbn; [done | now rewrite IH]. Qed.

Lemma length_str_prefix (n : nat) (s : string) :
  (n <= String.length s)%nat -> String.length (str_prefix n s) = n.
Proof.
  unfold str_prefix. revert s. induction n as [| n IH]; intros s Hn.
  - now destruct s.
  - destruct s as [| c s]; cbn in *; [lia |]. rewrite IH; [done | lia].
Qed.

Lemma str_prefix_chars (P : ascii -> Prop) (n : nat) (s : string) :
  Forall P (list_ascii_of_string s) ->
  Forall P (list_ascii_of_string (str_prefix n s)).
Proof.
  unfold str_prefix. revert s. induction n as [| n IH]; intros s Hs.
  - destruct s; constructor.
  - destruct s as [| c s]; cbn; [constructor |].
    inversion Hs; subst. constructor; [done | now apply IH].
Qed.

End Text.

Section Digest.

Lemma hex_digit_is_hex (d : Z) : 0 <= d < 16 -> is_hex (SHA256.hex_digit d) = true.
Proof.
  intros Hd.
  assert (H : d = 0 \/ d = 1 \/ d = 2 \/ d = 3 \/ d = 4 \/ d = 5 \/ d = 6 \/ d = 7 \/
              d = 8 \/ d = 9 \/ d = 10 \/ d = 11 \/ d = 12 \/ d = 13 \/ d = 14 \/ d = 15)
    by lia.
  repeat (destruct H as [-> | H]; [reflexivity |]). now subst.
Qed.

Lemma hex_word_spec (x : Z) :
  length (SHA256.hex_word x) = 8%nat
  /\ Forall (fun c => is_hex c = true) (SHA256.hex_word x).
Proof.
  unfold SHA256.hex_word. split; [now rewrite length_map |].
  apply Forall_map, Forall_forall. intros i _.
  apply hex_digit_is_hex, Z.mod_pos_bound. lia.
Qed.

(** A digest prints as 64 hexadecimal digits. *)
Lemma hexdigest_spec (s : string) :
  String.length (SHA256.hexdigest s) = 64%nat
  /\ Forall (fun c => is_hex c = true) (list_ascii_of_string (SHA256.hexdigest s)).
Proof.
  unfold SHA256.hexdigest. split.
  - rewrite length_string_of_list_ascii, !length_app.
    now rewrite !(proj1 (hex_word_spec _)).
  - rewrite list_ascii_of_string_of_list_ascii.
    repeat (apply Forall_app; split); apply hex_word_spec.
Qed.

Lemma fields_hash_spec (fields : list string) :
  String.length (fields_hash fields) = 8%nat
  /\ Forall (fun c => is_hex c = true) (list_ascii_of_string (fields_hash fields)).
Proof.
  unfold fields_hash.
  destruct (hexdigest_spec (join_fields fields)) as [Hlen Hhex]. split.
  - apply length_str_prefix. lia.
  - now apply str_prefix_chars.
Qed.

End Digest.

(** C5, as the code has it. Without a field projection the identifier is
    [{table_name}-{record_id}]; with one it is
    [{table_name}-{record_id}-{fields_hash}], where [fields_hash] is the
    first 8 hexadecimal digits of the SHA-256 digest of the comma-joined
    field list. A projected identifier differs from the unprojected one, and
    two projected identifiers of the same table and row are equal exactly
    when the 8-digit hashes of their comma-joined field lists are equal. *)
Theorem get_identifier_spec
    (table_name record_id f g : string) (fs gs : list string) :
  get_identifier [] table_name record_id = table_name +:+ "-" +:+ record_id
  /\ get_identifier (f :: fs) table_name record_id
     = (table_name +:+ "-" +:+ record_id) +:+ "-" +:+ fields_hash (f :: fs)
  /\ fields_hash (f :: fs)
     = str_prefix 8 (SHA256.hexdigest (String.concat "," (f :: fs)))
  /\ String.length (fields_hash (f :: fs)) = 8%nat
  /\ Forall (fun c => is_hex c = true) (list_ascii_of_string (fields_hash (f :: fs)))
  /\ get_identifier (f :: fs) table_name record_id
     <> get_identifier [] table_name record_id
  /\ (get_identifier (f :: fs) table_name record_id
      = get_identifier (g :: gs) table_name record_id
      <-> fields_hash (f :: fs) = fields_hash (g :: gs)).
Proof.
  destruct (fields_hash_spec (f :: fs)) as [Hlen Hhex].
  repeat split; try reflexivity; try assumption.
  - cbn [get_identifier]. apply append_neq_self.
    destruct (fields_hash (f :: fs)); cbn in *; [lia | discriminate].
  - cbn [get_identifier]. intros H.
    apply append_inj_r in H. now apply (append_inj_r "-") in H.
  - cbn [get_identifier]. now intros ->.
Qed.

(** C5, as stated, fails: the field lists [["a,b"]] and [["a"; "b"]] are
    distinct, as lists and as sets, and have the same comma-joined text, so
    the same table and row get the same identifier. *)
Lemma get_identifier_not_injective :
  ["a,b"] <> ["a"; "b"]
  /\ (list_to_set ["a,b"] : gset string) <> list_to_set ["a"; "b"]
  /\ get_identifier ["a,b"] "elements" "7" = get_identifier ["a"; "b"] "elements" "7".
Proof.
  split; [discriminate |]. split; [| reflexivity].
  intros H. assert (Ha : "a" ∈ (list_to_set ["a"; "b"] : gset string)) by set_solver.
  rewrite <- H in Ha. set_solver.
Qed.

(** The digests of the empty message and of abc, as FIPS 180-4 lists them. *)
Example hexdigest_empty :
  SHA256.hexdigest EmptyString
  = "e3b0c44298fc1c149afbf4c8996fb92427ae41e4649b934ca495991b7852b855".
Proof. vm_compute. reflexivity. Qed.

Example hexdigest_abc :
  SHA256.hexdigest "abc"
  = "ba7816bf8f01cfea414140de5dae2223b00361a396177a9cb410ff61f20015ad".
Proof. vm_compute. reflexivity. Qed.

Example get_identifier_projected :
  get_identifier ["id"; "text"] "elements" "42" = "elements-42-0d633f47".
Proof. vm_compute. reflexivity. Qed.

(* ===================================================================== *)
(** * Properties of the stager's [conform_dict] *)
(* ===================================================================== *)

Section DictFacts.

Lemma str_in_elem_of (x : string) (l : list string) : str_in x l = true <-> x ∈ l.
Proof.
  unfold str_in. rewrite existsb_exists. split.
  - intros (y & Hy & Heq). apply String.eqb_eq in Heq as ->. now apply list_elem_of_In.
  - intros H. exists x. split; [now apply list_elem_of_In | apply String.eqb_refl].
Qed.

Lemma dict_get_set_eq (d : dict) (k : string) (v : pyval) :
  dict_get (dict_set d k v) k = Some v.
Proof.
  induction d as [| [k' v'] d IH]; cbn.
  - now rewrite String.eqb_refl.
  - destruct (String.eqb k k') eqn:E; cbn; rewrite E; [done | exact IH].
Qed.

Lemma dict_get_set_ne (d : dict) (k k' : string) (v : pyval) :
  k <> k' -> dict_get (dict_set d k v) k' = dict_get d k'.
Proof.
  intros Hne. induction d as [| [k0 v0] d IH]; cbn.
  - destruct (String.eqb k' k) eqn:E; [| done].
    apply String.eqb_eq in E. congruence.
  - destruct (String.eqb k k0) eqn:E; cbn.
    + apply String.eqb_eq in E as ->.
      destruct (String.eqb k' k0) eqn:E'; [| done].
      apply String.eqb_eq in E'. congruence.
    + now rewrite IH.
Qed.

Lemma dict_keys_set (d : dict) (k : string) (v : pyval) (x : string) :
  x ∈ dict_keys (dict_set d k v) <-> x = k \/ x ∈ dict_keys d.
Proof.
  unfold dict_keys. induction d as [| [k' v'] d IH]; cbn.
  - rewrite elem_of_cons, elem_of_nil. tauto.
  - destruct (String.eqb k k') eqn:E; cbn.
    + apply String.eqb_eq in E as ->. rewrite !elem_of_cons. tauto.
    + rewrite !elem_of_cons, IH. tauto.
Qed.

Lemma dict_keys_filter (P : string -> bool) (d : dict) (x : string) :
  x ∈ dict_keys (List.filter (fun kv => P (fst kv)) d)
  <-> x ∈ dict_keys d /\ P x = true.
Proof.
  unfold dict_keys. induction d as [| [k v] d IH]; cbn.
  - rewrite elem_of_nil. tauto.
  - destruct (P k) eqn:E; cbn; rewrite ?elem_of_cons, IH.
    + split; [intros [-> | []]; auto | tauto].
    + split; [tauto | intros [[-> | H] HP]; [congruence | auto]].
Qed.

Lemma dict_get_filter (P : string -> bool) (d : dict) (k : string) :
  P k = true -> dict_get (List.filter (fun kv => P (fst kv)) d) k = dict_get d k.
Proof.
  intros HP. induction d as [| [k' v'] d IH]; cbn; [done |].
  destruct (String.eqb k k') eqn:E.
  - apply String.eqb_eq in E as <-. rewrite HP. cbn. now rewrite String.eqb_refl.
  - destruct (P k'); cbn; [now rewrite E |]; exact IH.
Qed.

Lemma record_id_not_a_column : RECORD_ID_LABEL ∉ _COLUMNS.
Proof. rewrite <- str_in_elem_of. vm_compute. discriminate. Qed.

End DictFacts.

(** C9, as the code has it. Every key of the staged element is in the
    allow-list or is the record-linkage key; the record-linkage field holds
    the file's identifier; every key of the merged mapping that is outside
    the allow-list and is not the record-linkage key is absent from the
    result; and every allow-listed key keeps the value the merged mapping
    has for it. *)
Theorem conform_dict_keys
    {rt : Runtime} (element_dict : dict) (file_data : FileData) (element : dict)
    (Hrun : conform_dict element_dict file_data = inr element) :
  (forall k, k ∈ dict_keys element -> k ∈ _COLUMNS \/ k = RECORD_ID_LABEL)
  /\ dict_get element RECORD_ID_LABEL = Some (VStr (identifier file_data))
  /\ exists data : dict,
       merged_data element_dict file_data = inr data
       /\ (forall k, k ∈ dict_keys data -> k ∉ _COLUMNS -> k <> RECORD_ID_LABEL ->
             k ∉ dict_keys element)
       /\ (forall k, k ∈ _COLUMNS -> dict_get element k = dict_get data k).
Proof.
  unfold conform_dict in Hrun.
  destruct (merged_data element_dict file_data) as [e | data] eqn:Hm; [discriminate |].
  cbn in Hrun. injection Hrun as <-.
  assert (Hkeys : forall k,
             k ∈ dict_keys (dict_set (List.filter (fun kv => str_in (fst kv) _COLUMNS) data)
                              RECORD_ID_LABEL (VStr (identifier file_data))) ->
             k ∈ _COLUMNS \/ k = RECORD_ID_LABEL).
  { intros k Hk. apply dict_keys_set in Hk as [-> | Hk]; [now right |].
    apply (dict_keys_filter (fun x => str_in x _COLUMNS)) in Hk as [_ Hk].
    left. now apply str_in_elem_of. }
  split; [exact Hkeys |]. split; [apply dict_get_set_eq |].
  exists data. split; [done |]. split.
  - intros k _ Hout Hne Hk. destruct (Hkeys k Hk); done.
  - intros k Hk. rewrite dict_get_set_ne.
    + apply (dict_get_filter (fun x => str_in x _COLUMNS)). now apply str_in_elem_of.
    + intros <-. now apply record_id_not_a_column.
Qed.

Lemma conform_dict_keys_witness :
  exists element : dict,
    @conform_dict ExampleRuntime.runtime restaged_element file_r1 = inr element
    /\ dict_get element RECORD_ID_LABEL = Some (VStr "r1").
Proof.
  eexists. split; [vm_compute; reflexivity |].
  refine (proj1 (proj2 (@conform_dict_keys ExampleRuntime.runtime restaged_element
                          file_r1 _ _))).
  vm_compute. reflexivity.
Defined.

(** C9, as stated, fails: [record_id] is a key of the merged mapping, it is
    outside the allow-list, and it is a key of the result. *)
Lemma conform_dict_keeps_record_id_key :
  exists data element : dict,
    @merged_data ExampleRuntime.runtime restaged_element file_r1 = inr data
    /\ @conform_dict ExampleRuntime.runtime restaged_element file_r1 = inr element
    /\ "record_id" ∈ dict_keys data
    /\ ("record_id" ∉ _COLUMNS)
    /\ "record_id" ∈ dict_keys element.
Proof.
  eexists. eexists. split; [vm_compute; reflexivity |].
  split; [vm_compute; reflexivity |].
  split; [| split; [exact record_id_not_a_column |]];
    apply list_elem_of_In; cbn; tauto.
Qed.

(* ===================================================================== *)
(** * Properties of the stager's [conform_dataframe] *)
(* ===================================================================== *)

Section WriterFacts.

Lemma W_bind_inr {A B} (m : W A) (k : A -> W B) (log : list log_record) (b : B) :
  W_bind m k = (log, inr b) ->
  exists l1 a l2, m = (l1, inr a) /\ k a = (l2, inr b) /\ log = l1 ++ l2.
Proof.
  unfold W_bind. destruct m as [l1 [e | a]]; [discriminate |].
  destruct (k a) as [l2 r] eqn:Hk. intros [= <- ->]. now exists l1, a, l2.
Qed.

Lemma W_mapM_inr {A B} (f : A -> W B) (l : list A) (log : list log_record)
    (l' : list B) :
  W_mapM f l = (log, inr l') -> Forall2 (fun x y => snd (f x) = inr y) l l'.
Proof.
  revert log l'. induction l as [| x l IH]; intros log l' H; cbn in H.
  - injection H as _ <-. constructor.
  - apply W_bind_inr in H as (l1 & y & l2 & Hx & H & _).
    apply W_bind_inr in H as (l3 & ys & l4 & Hl & H & _).
    injection H as _ <-. constructor; [now rewrite Hx | eauto].
Qed.

End WriterFacts.

Section FrameFacts.

Lemma column_index_Some (columns : list string) (c : string) (i : nat) :
  column_index columns c = Some i -> columns !! i = Some c.
Proof.
  unfold column_index. intros H.
  destruct (list_find _ columns) as [[j x] |] eqn:E; [| done].
  injection H as ->. apply list_find_Some in E as (Hx & Heq & _).
  apply Is_true_true, String.eqb_eq in Heq. congruence.
Qed.

Lemma column_index_ne (columns : list string) (c c' : string) (i j : nat) :
  c <> c' -> column_index columns c = Some i -> column_index columns c' = Some j ->
  i <> j.
Proof.
  intros Hne Hi Hj ->.
  apply column_index_Some in Hi, Hj. congruence.
Qed.

Lemma set_cells_get_eq (i : nat) (rows : list (list pyval)) (series : list pyval) :
  Forall (fun row => (i < length row)%nat) rows -> length series = length rows ->
  map (fun row => default VNone (row !! i))
      (zip_with (fun row v => <[i := v]> row) rows series) = series.
Proof.
  intros Hrows. revert series.
  induction Hrows as [| row rows Hrow _ IH]; intros [| v series] Hlen;
    cbn in *; try done.
  rewrite list_lookup_insert_eq by done. cbn. f_equal. apply IH. lia.
Qed.

Lemma set_cells_get_ne (i j : nat) (rows : list (list pyval)) (series : list pyval) :
  i <> j -> length series = length rows ->
  map (fun row => default VNone (row !! j))
      (zip_with (fun row v => <[i := v]> row) rows series)
  = map (fun row => default VNone (row !! j)) rows.
Proof.
  intros Hne. revert series.
  induction rows as [| row rows IH]; intros [| v series] Hlen; cbn in *; try done.
  rewrite list_lookup_insert_ne by done. f_equal. apply IH. lia.
Qed.

Lemma df_set_columns (df : DataFrame) (c : string) (series : list pyval) :
  df_columns (df_set df c series) = df_columns df.
Proof. unfold df_set. now destruct (column_index _ c). Qed.

Lemma df_set_rows_length (df : DataFrame) (c : string) (series : list pyval) :
  length series = length (df_rows df) ->
  length (df_rows (df_set df c series)) = length (df_rows df).
Proof.
  intros H. unfold df_set. destruct (column_index _ c); [| done].
  cbn. rewrite length_zip_with. lia.
Qed.

Lemma df_set_wf (df : DataFrame) (c : string) (series : list pyval) :
  df_wf df -> df_wf (df_set df c series).
Proof.
  unfold df_wf, df_set. intros Hwf. destruct (column_index _ c) as [i |]; [| done].
  cbn. revert series. induction Hwf as [| row rows Hrow _ IH]; intros [| v series];
    cbn; try constructor; [now rewrite length_insert | apply IH].
Qed.

Lemma df_get_length (df : DataFrame) (c : string) (series : list pyval) :
  df_get df c = Some series -> length series = length (df_rows df).
Proof.
  unfold df_get. destruct (column_index _ c); [| done].
  intros [= <-]. apply length_map.
Qed.

Lemma df_get_set_eq (df : DataFrame) (c : string) (old series : list pyval) :
  df_wf df -> df_get df c = Some old -> length series = length (df_rows df) ->
  df_get (df_set df c series) c = Some series.
Proof.
  unfold df_wf, df_get, df_set. intros Hwf Hget Hlen.
  destruct (column_index (df_columns df) c) as [i |] eqn:Hi; [| done].
  cbn [df_columns df_rows]. rewrite Hi. f_equal. apply set_cells_get_eq; [| done].
  apply column_index_Some, lookup_lt_Some in Hi.
  eapply Forall_impl; [exact Hwf |]. cbn. intros row Hrow. lia.
Qed.

Lemma df_get_set_ne (df : DataFrame) (c c' : string) (series : list pyval) :
  c <> c' -> length series = length (df_rows df) ->
  df_get (df_set df c series) c' = df_get df c'.
Proof.
  unfold df_get, df_set. intros Hne Hlen.
  destruct (column_index (df_columns df) c) as [i |] eqn:Hi; [| done].
  cbn [df_columns df_rows].
  destruct (column_index (df_columns df) c') as [j |] eqn:Hj; [| done].
  f_equal. apply set_cells_get_ne; [| done].
  exact (column_index_ne _ c c' i j Hne Hi Hj).
Qed.

End FrameFacts.

Section ConformDataframeFacts.
Context {rt : Runtime}.

Lemma apply_column_inr (f : pyval -> W pyval) (df df' : DataFrame) (c : string)
    (log : list log_record) :
  df_wf df -> apply_column f df c = (log, inr df') ->
  df_wf df'
  /\ df_columns df' = df_columns df
  /\ length (df_rows df') = length (df_rows df)
  /\ (forall c', c <> c' -> df_get df' c' = df_get df c')
  /\ (forall series, df_get df c = Some series ->
        exists series', df_get df' c = Some series'
                        /\ Forall2 (cell_ok f) series series').
Proof.
  intros Hwf. unfold apply_column.
  destruct (df_get df c) as [series |] eqn:Hget.
  - intros H. apply W_bind_inr in H as (l1 & series' & l2 & Hmap & H & _).
    injection H as _ <-.
    apply W_mapM_inr in Hmap.
    assert (Hlen : length series' = length (df_rows df)).
    { rewrite <- (Forall2_length _ _ _ Hmap). now apply df_get_length in Hget. }
    split; [now apply df_set_wf |]. split; [apply df_set_columns |].
    split; [now apply df_set_rows_length |]. split.
    + intros c' Hne. now apply df_get_set_ne.
    + intros s [= <-]. exists series'. split; [| exact Hmap].
      now apply (df_get_set_eq df c series).
  - intros [= _ <-]. repeat split; try done.
Qed.

Lemma W_foldM_apply_column (f : pyval -> W pyval) (names : list string)
    (df df' : DataFrame) (log : list log_record) :
  NoDup names -> df_wf df ->
  W_foldM (apply_column f) df names = (log, inr df') ->
  columns_rewritten f names df df'.
Proof.
  intros Hnd. revert df log. induction Hnd as [| c names Hc Hnd IH]; intros df log Hwf H.
  - cbn in H. injection H as _ <-. unfold columns_rewritten.
    repeat split; try done. intros c series Hc. now apply elem_of_nil in Hc.
  - cbn in H. apply W_bind_inr in H as (l1 & df1 & l2 & H1 & H2 & _).
    apply (apply_column_inr f df df1 c l1 Hwf) in H1
      as (Hwf1 & Hcols1 & Hlen1 & Hother1 & Hsame1).
    apply (IH df1 l2 Hwf1) in H2 as (Hwf' & Hcols' & Hlen' & Hother' & Hin').
    split; [done |]. split; [congruence |]. split; [congruence |]. split.
    + intros c' Hc'. apply not_elem_of_cons in Hc' as [Hne Hc'].
      rewrite Hother' by done. apply Hother1. congruence.
    + intros c' series Hc' Hget. apply elem_of_cons in Hc' as [-> | Hc'].
      * destruct (Hsame1 series Hget) as (series' & Hget' & Hcells).
        exists series'. split; [| done]. now rewrite Hother'.
      * apply Hin'; [done |]. rewrite Hother1; [done |]. intros ->. done.
Qed.

Lemma conform_dataframe_phases (df df' : DataFrame) (log : list log_record) :
  df_wf df -> conform_dataframe df = (log, inr df') ->
  exists df1 df2,
    columns_rewritten date_cell _DATE_COLUMNS df df1
    /\ columns_rewritten structured_cell _STRUCTURED_COLUMNS df1 df2
    /\ columns_rewritten str_cell _STRINGIFIED_COLUMNS df2 df'.
Proof.
  intros Hwf H. unfold conform_dataframe in H.
  apply W_bind_inr in H as (l1 & df1 & l1' & H1 & H & _).
  apply W_bind_inr in H as (l2 & df2 & l3 & H2 & H3 & _).
  assert (Hnd1 : NoDup _DATE_COLUMNS) by (apply (bool_decide_unpack _); vm_compute; done).
  assert (Hnd2 : NoDup _STRUCTURED_COLUMNS)
    by (apply (bool_decide_unpack _); vm_compute; done).
  assert (Hnd3 : NoDup _STRINGIFIED_COLUMNS)
    by (apply (bool_decide_unpack _); vm_compute; done).
  pose proof (W_foldM_apply_column _ _ _ _ _ Hnd1 Hwf H1) as P1.
  pose proof (W_foldM_apply_column _ _ _ _ _ Hnd2 (proj1 P1) H2) as P2.
  pose proof (W_foldM_apply_column _ _ _ _ _ Hnd3 (proj1 P2) H3) as P3.
  now exists df1, df2.
Qed.

Lemma structured_not_date (c : string) :
  c ∈ _STRUCTURED_COLUMNS -> (c ∉ _DATE_COLUMNS) /\ (c ∉ _STRINGIFIED_COLUMNS).
Proof.
  intros H. apply list_elem_of_In in H. cbn in H.
  repeat (destruct H as [<- | H]; [split; rewrite <- str_in_elem_of; discriminate |]).
  destruct H.
Qed.

Lemma stringified_not_date (c : string) :
  c ∈ _STRINGIFIED_COLUMNS -> (c ∉ _DATE_COLUMNS) /\ (c ∉ _STRUCTURED_COLUMNS).
Proof.
  intros H. apply list_elem_of_In in H. cbn in H.
  repeat (destruct H as [<- | H]; [split; rewrite <- str_in_elem_of; discriminate |]).
  destruct H.
Qed.

End ConformDataframeFacts.

Section CellFacts.
Context {rt : Runtime}.

Lemma structured_cell_ok (x y : pyval) :
  cell_ok structured_cell x y -> json_or_null x y.
Proof.
  unfold cell_ok, structured_cell, json_or_null, W_bind, W_lift, W_ret.
  destruct x; cbn; try (intros [= <-]; reflexivity);
    (destruct (json_dumps _) as [e | s]; cbn; [discriminate |];
     intros [= <-]; now exists s).
Qed.

Lemma str_cell_ok (x y : pyval) : cell_ok str_cell x y -> y = VStr (py_str x).
Proof. unfold cell_ok, str_cell, W_ret. cbn. now intros [= <-]. Qed.

Lemma Forall2_map_eq {A B} (g : A -> B) (l : list A) (l' : list B) :
  Forall2 (fun x y => y = g x) l l' -> l' = map g l.
Proof. induction 1; cbn; congruence. Qed.

End CellFacts.

(** C7. On a rectangular staged frame on which normalization succeeds,
    each cell of a column named [permissions_data], [record_locator],
    [points] or [links] becomes the JSON text of its value when the value is
    a list or a mapping, and null otherwise (text and numbers included); a
    column that is in none of the three name tables keeps its cells; the
    columns and the number of rows do not change. *)
Theorem conform_dataframe_structured_columns
    {rt : Runtime} (df df' : DataFrame) (log : list log_record)
    (Hwf : df_wf df) (Hrun : conform_dataframe df = (log, inr df')) :
  (forall c series,
      c ∈ _STRUCTURED_COLUMNS -> df_get df c = Some series ->
      exists series', df_get df' c = Some series' /\ Forall2 json_or_null series series')
  /\ (forall c,
        c ∉ _DATE_COLUMNS -> c ∉ _STRUCTURED_COLUMNS -> c ∉ _STRINGIFIED_COLUMNS ->
        df_get df' c = df_get df c)
  /\ df_columns df' = df_columns df
  /\ length (df_rows df') = length (df_rows df).
Proof.
  destruct (conform_dataframe_phases df df' log Hwf Hrun)
    as (df1 & df2 & (_ & Hc1 & Hl1 & Ho1 & _) & (_ & Hc2 & Hl2 & Ho2 & Hi2)
        & (_ & Hc3 & Hl3 & Ho3 & _)).
  split; [| split; [| split; congruence]].
  - intros c series Hc Hget.
    destruct (structured_not_date c Hc) as [Hnd Hns].
    rewrite <- (Ho1 c Hnd) in Hget.
    destruct (Hi2 c series Hc Hget) as (series' & Hget' & Hcells).
    exists series'. split; [now rewrite (Ho3 c Hns) |].
    eapply Forall2_impl; [exact Hcells |]. apply structured_cell_ok.
  - intros c H1 H2 H3. now rewrite (Ho3 c H3), (Ho2 c H2), (Ho1 c H1).
Qed.

Lemma staged_batch_wf : df_wf staged_batch.
Proof. repeat constructor. Defined.

Lemma staged_batch_conforms :
  { df' | @conform_dataframe ExampleRuntime.runtime staged_batch = ([], inr df') }.
Proof. eexists. vm_compute. reflexivity. Defined.

Example conform_dataframe_staged_batch :
  @conform_dataframe ExampleRuntime.runtime staged_batch
  = ([], inr {| df_columns := ["text"; "links"; "points"; "page_number"; "version"];
                df_rows :=
                  [ [VStr "hello"; VStr "[1, 2]"; VNone; VStr "3"; VStr "None"];
                    [VStr "bye"; VNone; VStr "{}"; VStr "None"; VStr "v1"] ] |}).
Proof. vm_compute. reflexivity. Qed.

Lemma conform_dataframe_structured_columns_witness :
  exists series',
    df_get (proj1_sig staged_batch_conforms) "links" = Some series'
    /\ Forall2 (@json_or_null ExampleRuntime.runtime)
         [VList [VInt 1; VInt 2]; VInt 5] series'.
Proof.
  refine (proj1 (@conform_dataframe_structured_columns ExampleRuntime.runtime
                   staged_batch (proj1_sig staged_batch_conforms) []
                   staged_batch_wf (proj2_sig staged_batch_conforms))
                "links" _ _ _).
  - apply list_elem_of_In. cbn. tauto.
  - reflexivity.
Defined.

(** C10. On a rectangular staged frame on which normalization succeeds,
    each cell of a column named [version], [page_number] or
    [regex_metadata] becomes the text [str] gives for it, whatever the
    cell holds; for [None] that text is the word None. *)
Theorem conform_dataframe_stringified_columns
    {rt : Runtime} (df df' : DataFrame) (log : list log_record)
    (Hwf : df_wf df) (Hrun : conform_dataframe df = (log, inr df')) :
  (forall c series,
      c ∈ _STRINGIFIED_COLUMNS -> df_get df c = Some series ->
      df_get df' c = Some (map (fun x => VStr (py_str x)) series))
  /\ py_str VNone = "None".
Proof.
  destruct (conform_dataframe_phases df df' log Hwf Hrun)
    as (df1 & df2 & (_ & _ & _ & Ho1 & _) & (_ & _ & _ & Ho2 & _)
        & (_ & _ & _ & _ & Hi3)).
  split; [| reflexivity].
  intros c series Hc Hget.
  destruct (stringified_not_date c Hc) as [Hnd Hns].
  rewrite <- (Ho1 c Hnd), <- (Ho2 c Hns) in Hget.
  destruct (Hi3 c series Hc Hget) as (series' & Hget' & Hcells).
  rewrite Hget'. f_equal. apply Forall2_map_eq.
  eapply Forall2_impl; [exact Hcells |]. apply str_cell_ok.
Qed.

Lemma conform_dataframe_stringified_columns_witness :
  df_get (proj1_sig staged_batch_conforms) "version" = Some [VStr "None"; VStr "v1"]
  /\ df_get (proj1_sig staged_batch_conforms) "page_number"
     = Some [VStr "3"; VStr "None"].
Proof.
  pose proof (proj1 (@conform_dataframe_stringified_columns ExampleRuntime.runtime
                       staged_batch (proj1_sig staged_batch_conforms) []
                       staged_batch_wf (proj2_sig staged_batch_conforms))) as H.
  split.
  - apply (H "version" [VNone; VStr "v1"]); [| reflexivity].
    apply list_elem_of_In. cbn. tauto.
  - apply (H "page_number" [VInt 3; VNone]); [| reflexivity].
    apply list_elem_of_In. cbn. tauto.
Defined.

(* ===================================================================== *)
(** * Properties of the uploader *)
(* ===================================================================== *)

Section FitToSchemaFacts.

Lemma drop_flagged_none {A} (names : list string) (l : list A) :
  drop_flagged (map (fun c => bool_decide (c ∈ (∅ : gset string))) names) l = l.
Proof.
  revert l. induction names as [| c names IH]; intros [| x l]; try reflexivity.
  cbn [map drop_flagged].
  rewrite bool_decide_eq_false_2 by apply not_elem_of_empty. now rewrite IH.
Qed.

Lemma df_drop_empty (df : DataFrame) : df_drop df ∅ = df.
Proof.
  destruct df as [cols rows]. unfold df_drop. cbn. f_equal.
  - apply drop_flagged_none.
  - rewrite <- (map_id rows) at 2. apply map_ext. intros row.
    apply drop_flagged_none.
Qed.

(** Both set differences are taken between a set and itself, so the step
    drops nothing, adds nothing and logs nothing, whatever the live
    columns are. *)
Lemma _fit_to_schema_noop (df : DataFrame) (columns : list string) :
  _fit_to_schema df columns = ([], inr df).
Proof.
  unfold _fit_to_schema. rewrite difference_diag_L.
  rewrite bool_decide_eq_true_2 by reflexivity.
  cbn. rewrite elements_empty. cbn. now rewrite df_drop_empty.
Qed.

End FitToSchemaFacts.

(** C3 on the code: for this batch and these live columns the step returns
    the batch as it was and logs nothing; the column [extra], absent from
    the table, is still there, the column [text] of the table is not, and
    the batch's column set is not the table's. *)
Theorem fit_to_schema_does_not_fit :
  _fit_to_schema drifted_batch live_columns = ([], inr drifted_batch)
  /\ "extra" ∈ df_columns drifted_batch
  /\ ("extra" ∉ live_columns)
  /\ "text" ∈ live_columns
  /\ ("text" ∉ df_columns drifted_batch)
  /\ (list_to_set (df_columns drifted_batch) : gset string) <> list_to_set live_columns.
Proof.
  split; [apply _fit_to_schema_noop |].
  assert (Hin : forall x l, str_in x l = true -> x ∈ l)
    by (intros x l; apply str_in_elem_of).
  assert (Hout : forall x l, str_in x l = false -> x ∉ l)
    by (intros x l H1 H2; apply str_in_elem_of in H2; congruence).
  repeat split; try (apply Hin; reflexivity); try (apply Hout; reflexivity).
  intros Heq.
  assert (H : "extra" ∈ (list_to_set live_columns : gset string)).
  { rewrite <- Heq. apply elem_of_list_to_set, Hin. reflexivity. }
  apply elem_of_list_to_set in H. revert H. apply Hout. reflexivity.
Qed.

Section WorldFacts.

Lemma M_bind_inr {A B} (m : M A) (k : A -> M B) (w w' : world) (b : B) :
  M_bind m k w = (w', inr b) ->
  exists w1 a, m w = (w1, inr a) /\ k a w1 = (w', inr b).
Proof.
  unfold M_bind. destruct (m w) as [w1 [e | a]]; [discriminate |].
  intros H. now exists w1, a.
Qed.

Lemma cursor_execute_inr (c : call) (w w' : world) (o : outcome) :
  cursor_execute c w = (w', inr o) ->
  store_execute (w_table w) c = inr o
  /\ w' = {| w_table := out_table o; w_calls := w_calls w ++ [c]; w_log := w_log w |}.
Proof.
  unfold cursor_execute. destruct (store_execute (w_table w) c) as [e | o'];
    [discriminate |]. now intros [= <- <-].
Qed.

Lemma M_log_inr (lvl : log_level) (msg : log_message) (w w' : world) (u : unit) :
  M_log lvl msg w = (w', inr u) ->
  w_table w' = w_table w /\ w_calls w' = w_calls w.
Proof. unfold M_log. now intros [= <- _]. Qed.

Lemma M_of_W_inr {A} (m : W A) (w w' : world) (a : A) :
  M_of_W m w = (w', inr a) ->
  snd m = inr a /\ w_table w' = w_table w /\ w_calls w' = w_calls w.
Proof. unfold M_of_W. now intros [= <- ->]. Qed.

Lemma snd_W_bind {A B} (m : W A) (k : A -> W B) :
  snd (W_bind m k) = match snd m with
                     | inl e => inl e
                     | inr a => snd (k a)
                     end.
Proof. unfold W_bind. destruct m as [l [e | a]]; cbn; [done |]. now destruct (k a). Qed.

Lemma W_mapM_snd_inr {A B} (f : A -> W B) (l : list A) (l' : list B) :
  snd (W_mapM f l) = inr l' <-> Forall2 (fun x y => snd (f x) = inr y) l l'.
Proof.
  revert l'. induction l as [| x l IH]; intros l'; cbn.
  - split; [intros [= <-]; constructor | now inversion 1].
  - rewrite snd_W_bind. destruct (snd (f x)) as [e | y] eqn:Hx.
    + split; [discriminate | inversion 1; congruence].
    + rewrite snd_W_bind. destruct (snd (W_mapM f l)) as [e | ys] eqn:Hl.
      * split; [discriminate |]. inversion 1; subst.
        assert (Hn : inl e = inr l'0) by now apply IH. discriminate.
      * cbn. split.
        -- intros [= <-]. constructor; [done | now apply IH].
        -- inversion 1; subst. f_equal.
           assert (Hy : inr ys = inr l'0) by now apply IH. congruence.
Qed.

Lemma Forall2_concat {A B} (R : A -> B -> Prop) (ls : list (list A))
    (ls' : list (list B)) :
  Forall2 (Forall2 R) ls ls' -> Forall2 R (concat ls) (concat ls').
Proof. induction 1; cbn; [constructor | now apply Forall2_app]. Qed.

Lemma chunks_concat {A} (fuel n : nat) (l : list A) :
  (1 <= n)%nat -> (length l <= fuel)%nat -> concat (chunks fuel n l) = l.
Proof.
  intros Hn. revert l. induction fuel as [| fuel IH]; intros [| x l] Hl; cbn in *;
    try done; try lia.
  destruct n as [| n]; [lia |]. cbn. f_equal.
  rewrite IH; [apply take_drop |]. rewrite length_drop. lia.
Qed.

Lemma chunks_bounded {A} (fuel n : nat) (l : list A) :
  (1 <= n)%nat ->
  Forall (fun c => c <> [] /\ (length c <= n)%nat) (chunks fuel n l).
Proof.
  intros Hn. revert l. induction fuel as [| fuel IH]; intros [| x l]; cbn;
    try constructor; [| apply IH].
  destruct n as [| n]; [lia |]. cbn. split; [done |].
  rewrite length_take. lia.
Qed.

Lemma inserted_row_columns (t t' : table) (columns : list string)
    (params : list pyval) :
  tbl_columns t = tbl_columns t' ->
  inserted_row t columns params = inserted_row t' columns params.
Proof. unfold inserted_row. now intros ->. Qed.

End WorldFacts.

Section UploaderFacts.
Context {rt : Runtime}.
Variable upload_config : SQLUploaderConfig.t.
Variable values_delimiter : string.

Local Abbreviation table_name := (SQLUploaderConfig.table_name upload_config).
Local Abbreviation record_id_key := (SQLUploaderConfig.record_id_key upload_config).

Lemma select_all_inr (t : table) (o : outcome) :
  store_execute t (SelectAll table_name, []) = inr o ->
  tbl_name t = table_name /\ out_table o = t /\ out_description o = tbl_columns t.
Proof.
  cbn. destruct (String.eqb_spec table_name (tbl_name t)) as [Heq | _];
    [| discriminate]. now intros [= <-].
Qed.

Lemma get_table_columns_inr (w w' : world) (columns : list string) :
  get_table_columns upload_config w = (w', inr columns) ->
  tbl_name (w_table w) = table_name
  /\ columns = tbl_columns (w_table w)
  /\ w_table w' = w_table w
  /\ w_calls w' = w_calls w ++ [(SelectAll table_name, [])].
Proof.
  unfold get_table_columns. intros H.
  apply M_bind_inr in H as (w1 & o & Hexec & Hret).
  apply cursor_execute_inr in Hexec as [Hstore ->].
  apply select_all_inr in Hstore as (Hname & Htable & Hdesc).
  unfold M_ret in Hret. injection Hret as <- <-. cbn. now rewrite Htable, Hdesc.
Qed.

Lemma delete_by_record_id_inr (file_data : FileData) (w w' : world) (u : unit) :
  delete_by_record_id upload_config values_delimiter file_data w = (w', inr u) ->
  tbl_columns (w_table w') = tbl_columns (w_table w)
  /\ tbl_name (w_table w') = tbl_name (w_table w)
  /\ tbl_rows (w_table w')
     = List.filter
         (fun row => negb (row_matches (tbl_columns (w_table w)) record_id_key
                             (VStr (identifier file_data)) row))
         (tbl_rows (w_table w))
  /\ w_calls w'
     = w_calls w ++ [(DeleteWhere table_name record_id_key values_delimiter,
                      [[VStr (identifier file_data)]])].
Proof.
  unfold delete_by_record_id. intros H.
  apply M_bind_inr in H as (w1 & [] & Hlog & H).
  apply M_log_inr in Hlog as [Ht1 Hc1].
  apply M_bind_inr in H as (w2 & o & Hexec & Hlog2).
  apply cursor_execute_inr in Hexec as [Hstore ->].
  apply M_log_inr in Hlog2 as [Ht2 Hc2]. cbn in Ht2, Hc2.
  rewrite Ht2, Hc2, Hc1. cbn in Hstore. rewrite Ht1 in Hstore.
  destruct (String.eqb table_name (tbl_name (w_table w))
            && str_in record_id_key (tbl_columns (w_table w))); [| discriminate].
  injection Hstore as <-. cbn. done.
Qed.

Lemma insert_into_inr (t : table) (columns : list string)
    (values : list (list pyval)) (o : outcome) :
  store_execute t (insert_statement upload_config values_delimiter columns, values)
    = inr o ->
  tbl_columns (out_table o) = tbl_columns t
  /\ tbl_name (out_table o) = tbl_name t
  /\ tbl_rows (out_table o) = tbl_rows t ++ map (inserted_row t columns) values.
Proof.
  cbn. destruct (_ && _); [| discriminate]. now intros [= <-].
Qed.

Lemma insert_chunks_inr (columns : list string) (dfs : list DataFrame)
    (w1 w2 : world) (u : unit) :
  M_forM_ (insert_chunk upload_config values_delimiter columns) dfs w1 = (w2, inr u) ->
  exists chunks : list (list (list pyval)),
    Forall2 (fun d values => snd (prepare_data columns (df_rows d)) = inr values)
            dfs chunks
    /\ w_calls w2
       = w_calls w1
         ++ map (fun values =>
                   (insert_statement upload_config values_delimiter columns, values))
                chunks
    /\ tbl_rows (w_table w2)
       = tbl_rows (w_table w1)
         ++ map (inserted_row (w_table w1) columns) (concat chunks)
    /\ tbl_columns (w_table w2) = tbl_columns (w_table w1).
Proof.
  revert w1. induction dfs as [| d dfs IH]; intros w1 H; cbn in H.
  - unfold M_ret in H. injection H as <- _. exists []. cbn.
    rewrite !app_nil_r. repeat split. constructor.
  - apply M_bind_inr in H as (wa & [] & Hchunk & Hrest).
    unfold insert_chunk in Hchunk.
    apply M_bind_inr in Hchunk as (wb & values & Hprep & Hchunk).
    apply M_of_W_inr in Hprep as (Hvalues & Htb & Hcb).
    apply M_bind_inr in Hchunk as (wc & [] & Hlog & Hchunk).
    apply M_log_inr in Hlog as [Htc Hcc].
    apply M_bind_inr in Hchunk as (wd & o & Hexec & Hret).
    apply cursor_execute_inr in Hexec as [Hstore ->].
    unfold M_ret in Hret. injection Hret as <-.
    rewrite Htc, Htb in Hstore.
    apply insert_into_inr in Hstore as (Hcols & Hname & Hrows).
    destruct (IH _ Hrest) as (chunks & Hall & Hcalls & Hrows' & Hcols').
    cbn in Hcalls, Hrows', Hcols'.
    exists (values :: chunks). split; [now constructor |]. split; [| split].
    + rewrite Hcalls, Hcc, Hcb. cbn. now rewrite <- app_assoc.
    + rewrite Hrows', Hrows. cbn. rewrite map_app, <- app_assoc. do 2 f_equal.
      apply map_ext. intros p. now apply inserted_row_columns.
    + congruence.
Qed.

End UploaderFacts.

Section UploaderCalls.
Context {rt : Runtime}.
Variable upload_config : SQLUploaderConfig.t.
Variable values_delimiter : string.

Local Abbreviation table_name := (SQLUploaderConfig.table_name upload_config).
Local Abbreviation record_id_key := (SQLUploaderConfig.record_id_key upload_config).

Lemma get_table_columns_run (w : world) :
  tbl_name (w_table w) = table_name ->
  exists w1,
    get_table_columns upload_config w = (w1, inr (tbl_columns (w_table w)))
    /\ w_table w1 = w_table w
    /\ w_calls w1 = w_calls w ++ [(SelectAll table_name, [])].
Proof.
  intros Hname. unfold get_table_columns, M_bind, cursor_execute. cbn.
  rewrite Hname, String.eqb_refl. cbn. eexists. split; [reflexivity |]. now cbn.
Qed.

Lemma delete_by_record_id_run (file_data : FileData) (w : world) :
  tbl_name (w_table w) = table_name ->
  str_in record_id_key (tbl_columns (w_table w)) = true ->
  exists w1,
    delete_by_record_id upload_config values_delimiter file_data w = (w1, inr tt)
    /\ tbl_name (w_table w1) = tbl_name (w_table w)
    /\ w_calls w1
       = w_calls w ++ [(DeleteWhere table_name record_id_key values_delimiter,
                        [[VStr (identifier file_data)]])].
Proof.
  intros Hname Hkey.
  unfold delete_by_record_id, M_bind, M_log, cursor_execute. cbn.
  rewrite Hname, String.eqb_refl, Hkey. cbn. eexists. split; [reflexivity |]. now cbn.
Qed.

(** Whatever its outcome, the loop over the chunks only sends INSERTs. *)
Lemma insert_chunks_calls (columns : list string) (dfs : list DataFrame)
    (w1 w2 : world) (r : exn + unit) :
  M_forM_ (insert_chunk upload_config values_delimiter columns) dfs w1 = (w2, r) ->
  exists inserts : list call,
    w_calls w2 = w_calls w1 ++ inserts
    /\ Forall (fun c => fst c = insert_statement upload_config values_delimiter columns)
              inserts.
Proof.
  revert w1. induction dfs as [| d dfs IH]; intros w1 H; cbn in H.
  - injection H as <- _. exists []. now rewrite app_nil_r.
  - unfold M_bind at 1 in H. unfold insert_chunk, M_bind, M_of_W, M_log in H.
    destruct (prepare_data columns (df_rows d)) as [l [e | values]]; cbn in H.
    + injection H as <- _. exists []. now rewrite app_nil_r.
    + unfold cursor_execute in H. cbn [w_table w_calls w_log] in H.
      destruct (store_execute (w_table w1) _) as [e | o]; cbn in H.
      * injection H as <- _. eexists [_]. cbn. split; [reflexivity |].
        now repeat constructor.
      * apply IH in H as (inserts & Hcalls & Hall). cbn in Hcalls.
        eexists (_ :: inserts). split.
        -- rewrite Hcalls, <- app_assoc. reflexivity.
        -- now constructor.
Qed.

End UploaderCalls.

(** C1. When the table has the record-linkage column, every upload call for
    a file with identifier [r], whatever its outcome, sends to the cursor
    the column probe, one DELETE on the record-linkage column bound to [r],
    the column probe again, and after that INSERTs only. When the call
    succeeds there is one INSERT per chunk of the batch, binding the
    prepared rows of its chunk, and the table afterwards holds the rows it
    had whose record-linkage cell is not [r], followed by the rows inserted
    from the batch; so every row for [r] in it is one of the newly inserted
    rows. With a batch size of at least 1 the chunks are not empty, have at
    most [batch_size] rows, and together are the prepared rows of the whole
    batch. *)
Theorem upload_dataframe_deletes_then_inserts
    {rt : Runtime} (upload_config : SQLUploaderConfig.t) (values_delimiter : string)
    (df : DataFrame) (file_data : FileData) (w w' : world) (r : exn + unit)
    (Hname : tbl_name (w_table w) = SQLUploaderConfig.table_name upload_config)
    (Hkey : str_in (SQLUploaderConfig.record_id_key upload_config)
                   (tbl_columns (w_table w)) = true)
    (Hrun : upload_dataframe upload_config values_delimiter df file_data w
            = (w', r)) :
  (exists inserts : list call,
     w_calls w'
     = w_calls w
       ++ [ (SelectAll (SQLUploaderConfig.table_name upload_config), []);
            (DeleteWhere (SQLUploaderConfig.table_name upload_config)
               (SQLUploaderConfig.record_id_key upload_config) values_delimiter,
             [[VStr (identifier file_data)]]);
            (SelectAll (SQLUploaderConfig.table_name upload_config), []) ]
       ++ inserts
     /\ Forall (fun c => fst c
                         = InsertInto (SQLUploaderConfig.table_name upload_config)
                             (df_columns df) values_delimiter)
               inserts)
  /\
  (r = inr tt ->
  exists batches : list (list (list pyval)),
    w_calls w'
    = w_calls w
      ++ [ (SelectAll (SQLUploaderConfig.table_name upload_config), []);
           (DeleteWhere (SQLUploaderConfig.table_name upload_config)
              (SQLUploaderConfig.record_id_key upload_config) values_delimiter,
            [[VStr (identifier file_data)]]);
           (SelectAll (SQLUploaderConfig.table_name upload_config), []) ]
      ++ map (fun values =>
                (InsertInto (SQLUploaderConfig.table_name upload_config)
                   (df_columns df) values_delimiter, values))
             batches
    /\ Forall2 (fun d values =>
                  snd (prepare_data (df_columns df) (df_rows d)) = inr values)
               (split_dataframe (df_replace_nan df)
                  (SQLUploaderConfig.batch_size upload_config))
               batches
    /\ (1 <= SQLUploaderConfig.batch_size upload_config ->
        Forall (fun values =>
                  values <> []
                  /\ Z.of_nat (length values)
                     <= SQLUploaderConfig.batch_size upload_config)
               batches
        /\ snd (prepare_data (df_columns df) (df_rows (df_replace_nan df)))
           = inr (concat batches))
    /\ tbl_rows (w_table w')
       = List.filter
           (fun row =>
              negb (row_matches (tbl_columns (w_table w))
                      (SQLUploaderConfig.record_id_key upload_config)
                      (VStr (identifier file_data)) row))
           (tbl_rows (w_table w))
         ++ map (inserted_row (w_table w) (df_columns df)) (concat batches)
    /\ (forall row,
          row ∈ tbl_rows (w_table w') ->
          row_matches (tbl_columns (w_table w))
            (SQLUploaderConfig.record_id_key upload_config)
            (VStr (identifier file_data)) row = true ->
          row ∈ map (inserted_row (w_table w) (df_columns df)) (concat batches))
    /\ tbl_columns (w_table w') = tbl_columns (w_table w)).
Proof.
  split.
  { unfold upload_dataframe, can_delete in Hrun.
    destruct (get_table_columns_run upload_config w Hname) as (w0 & E0 & Ht0 & Hc0).
    unfold M_bind at 1 2 in Hrun. rewrite E0 in Hrun.
    cbn [M_ret] in Hrun. rewrite Hkey in Hrun.
    destruct (delete_by_record_id_run upload_config values_delimiter file_data w0)
      as (w2 & E2 & Hn2 & Hc2); [now rewrite Ht0 | now rewrite Ht0 |].
    unfold M_bind at 1 in Hrun. rewrite E2 in Hrun.
    destruct (get_table_columns_run upload_config w2) as (w3 & E3 & Ht3 & Hc3);
      [now rewrite Hn2, Ht0 |].
    unfold M_bind at 1 in Hrun. rewrite E3 in Hrun.
    unfold M_bind at 1 2 in Hrun. rewrite _fit_to_schema_noop in Hrun.
    cbn [M_of_W M_log fst snd df_columns df_replace_nan] in Hrun.
    apply insert_chunks_calls in Hrun as (inserts & Hcalls & Hall).
    cbn [w_calls] in Hcalls.
    exists inserts. split; [| exact Hall].
    rewrite Hcalls, Hc3, Hc2, Hc0. now rewrite <- !app_assoc. }
  intros ->.
  unfold upload_dataframe in Hrun.
  apply M_bind_inr in Hrun as (w1 & deletable & Hcan & Hrun).
  unfold can_delete in Hcan.
  apply M_bind_inr in Hcan as (w0 & cols & Hcols & Hret).
  apply get_table_columns_inr in Hcols as (_ & -> & Ht0 & Hc0).
  unfold M_ret in Hret. injection Hret as -> <-. rewrite Hkey in Hrun.
  apply M_bind_inr in Hrun as (w2 & [] & Hdel & Hrun).
  apply delete_by_record_id_inr in Hdel as (Hcols2 & Hname2 & Hrows2 & Hc2).
  apply M_bind_inr in Hrun as (w3 & cols3 & Hcols3 & Hrun).
  apply get_table_columns_inr in Hcols3 as (_ & _ & Ht3 & Hc3).
  apply M_bind_inr in Hrun as (w4 & df4 & Hfit & Hrun).
  apply M_of_W_inr in Hfit as (_ & Ht4 & Hc4).
  apply M_bind_inr in Hrun as (w5 & [] & Hlog & Hrun).
  apply M_log_inr in Hlog as [Ht5 Hc5].
  cbn [df_columns df_replace_nan] in Hrun.
  apply insert_chunks_inr in Hrun as (batches & Hall & Hcalls & Hrows & Hcols).
  rewrite Ht5, Ht4, Ht3 in Hrows, Hcols. rewrite Ht0 in Hcols2, Hrows2.
  assert (Hrows' : tbl_rows (w_table w')
            = List.filter
                (fun row =>
                   negb (row_matches (tbl_columns (w_table w))
                           (SQLUploaderConfig.record_id_key upload_config)
                           (VStr (identifier file_data)) row))
                (tbl_rows (w_table w))
              ++ map (inserted_row (w_table w) (df_columns df)) (concat batches)).
  { rewrite Hrows, Hrows2. f_equal. apply map_ext. intros p.
    now apply inserted_row_columns. }
  exists batches. split; [| split; [| split; [| split; [| split]]]].
  - rewrite Hcalls, Hc5, Hc4, Hc3, Hc2, Hc0. now rewrite <- !app_assoc.
  - exact Hall.
  - intros Hsize.
    set (n := Z.to_nat (SQLUploaderConfig.batch_size upload_config)).
    assert (Hn : (1 <= n)%nat) by (unfold n; lia).
    set (rows := df_rows (df_replace_nan df)) in *.
    assert (Hsplit : map df_rows (split_dataframe (df_replace_nan df)
                                    (SQLUploaderConfig.batch_size upload_config))
                     = chunks (length rows) n rows).
    { unfold split_dataframe. rewrite map_map. cbn. apply map_id. }
    assert (Hlens : Forall2 (fun (rs vs : list (list pyval)) => length rs = length vs)
                      (chunks (length rows) n rows) batches).
    { rewrite <- Hsplit. apply Forall2_fmap_l.
      eapply Forall2_impl; [exact Hall |]. cbn. intros d values Hd.
      apply W_mapM_snd_inr in Hd. exact (Forall2_length _ _ _ Hd). }
    split.
    + pose proof (chunks_bounded (length rows) n rows Hn) as Hb.
      clear - Hb Hlens Hsize. revert Hb. unfold n in *.
      induction Hlens as [| rs vs rss vss Hlen _ IH]; intros Hb; [constructor |].
      inversion Hb as [| ? ? [Hne Hle] Hb']; subst.
      constructor; [| now apply IH]. split.
      * destruct vs, rs; cbn in *; try done.
      * rewrite <- Hlen. lia.
    + apply W_mapM_snd_inr.
      rewrite <- (chunks_concat (length rows) n rows Hn (Nat.le_refl _)).
      rewrite <- Hsplit. apply Forall2_concat. apply Forall2_fmap_l.
      eapply Forall2_impl; [exact Hall |]. cbn. intros d values Hd.
      now apply W_mapM_snd_inr in Hd.
  - exact Hrows'.
  - intros row Hin Hmatch. rewrite Hrows' in Hin.
    apply elem_of_app in Hin as [Hin | Hin]; [| done].
    apply list_elem_of_In, filter_In in Hin as [_ Hneg].
    rewrite Hmatch in Hneg. discriminate.
  - rewrite Hcols. now rewrite Hcols2.
Qed.

Lemma updated_batch_uploads :
  { w' | @upload_dataframe ExampleRuntime.runtime elements_config "?" updated_batch
           file_r1 elements_world = (w', inr tt) }.
Proof. eexists. vm_compute. reflexivity. Defined.

(** Re-uploading [r1]: the old row is gone, the new one is there, once. *)
Example upload_dataframe_replaces_r1 :
  let w' := proj1_sig updated_batch_uploads in
  tbl_rows (w_table w')
  = [ [VStr "e9"; VStr "r2"; VStr "other"]; [VStr "e2"; VStr "r1"; VStr "updated"] ]
  /\ map (fun c => sql_text (fst c)) (w_calls w')
     = [ "SELECT * from elements";
         "DELETE FROM elements WHERE record_id = ?";
         "SELECT * from elements";
         "INSERT INTO elements (id,record_id,text) VALUES(?,?,?)" ].
Proof. vm_compute. split; reflexivity. Qed.

Lemma upload_dataframe_deletes_then_inserts_witness :
  exists batches : list (list (list pyval)),
    concat batches = [ [VStr "e2"; VStr "r1"; VStr "updated"] ]
    /\ tbl_rows (w_table (proj1_sig updated_batch_uploads))
       = [ [VStr "e9"; VStr "r2"; VStr "other"] ]
         ++ map (inserted_row elements_table ["id"; "record_id"; "text"])
                (concat batches).
Proof.
  destruct (proj2 (@upload_dataframe_deletes_then_inserts ExampleRuntime.runtime
                     elements_config "?" updated_batch file_r1 elements_world
                     (proj1_sig updated_batch_uploads) (inr tt) eq_refl eq_refl
                     (proj2_sig updated_batch_uploads)) eq_refl)
    as (batches & _ & _ & Hsize & Hrows & _).
  destruct (Hsize ltac:(cbn; lia)) as [_ Hprep].
  exists batches. split; [| exact Hrows].
  change (@inr exn _ [ [VStr "e2"; VStr "r1"; VStr "updated"] ]
          = inr (concat batches)) in Hprep.
  now injection Hprep as <-.
Defined.

(** The drifted batch sent to a table with columns [id], [text],
    [record_id]: since the batch is not fitted, the INSERT names the column
    [extra], which the table does not have, and the store refuses it, after
    the DELETE has run. *)
Example upload_dataframe_unfitted_batch :
  let r := @upload_dataframe ExampleRuntime.runtime elements_config "?" drifted_batch
             file_r1 {| w_table := drifted_table; w_calls := []; w_log := [] |} in
  snd r = inl OperationalError
  /\ tbl_rows (w_table (fst r)) = []
  /\ map (fun c => sql_text (fst c)) (w_calls (fst r))
     = [ "SELECT * from elements";
         "DELETE FROM elements WHERE record_id = ?";
         "SELECT * from elements";
         "INSERT INTO elements (id,extra) VALUES(?,?)" ].
Proof. vm_compute. repeat split; reflexivity. Qed.

(** Without the record-linkage column the delete is skipped, with a
    warning, and the rows are appended. *)
Example upload_dataframe_skips_delete :
  let t := {| tbl_name := "elements"; tbl_columns := ["id"; "text"];
              tbl_rows := [ [VStr "e0"; VStr "old"] ] |} in
  let df := {| df_columns := ["id"; "text"];
               df_rows := [ [VStr "e1"; VStr "new"] ] |} in
  let r := @upload_dataframe ExampleRuntime.runtime elements_config "?" df file_r1
             {| w_table := t; w_calls := []; w_log := [] |} in
  snd r = inr tt
  /\ tbl_rows (w_table (fst r)) = [ [VStr "e0"; VStr "old"]; [VStr "e1"; VStr "new"] ]
  /\ w_log (fst r)
     = [ (WARNING, MsgSkippingDelete "record_id");
         (INFO, MsgWriting 1 "elements" 50);
         (DEBUG, MsgRunningQuery "INSERT INTO elements (id,text) VALUES(?,?)") ].
Proof. vm_compute. repeat split; reflexivity. Qed.

(* ===================================================================== *)
(** * Further properties of the uploader: [prepare_data] *)
(* ===================================================================== *)

Section PrepareDataFacts.
Context {rt : Runtime}.

Lemma W_mapM_raises {A B} (f : A -> W B) (l : list A) :
  raises (snd (W_mapM f l)) = true <-> exists x, x ∈ l /\ raises (snd (f x)) = true.
Proof.
  induction l as [| x l IH]; cbn.
  - split; [discriminate | intros (x & Hx & _); now apply elem_of_nil in Hx].
  - rewrite snd_W_bind. destruct (snd (f x)) as [e | y] eqn:Hx.
    + split; [| done]. intros _. exists x. rewrite Hx. split; [left | done].
    + rewrite snd_W_bind. destruct (snd (W_mapM f l)) as [e | ys] eqn:Hl; cbn.
      * split; [| done]. intros _. destruct (proj1 IH eq_refl) as (z & Hz & Hr).
        exists z. split; [now right | done].
      * split; [discriminate |]. intros (z & Hz & Hr).
        apply elem_of_cons in Hz as [-> | Hz]; [rewrite Hx in Hr; discriminate |].
        assert (Hn : false = true) by (apply IH; eauto). discriminate.
Qed.

Lemma date_cell_ok (v v' : pyval) :
  snd (date_cell v) = inr v'
  <-> exists d, snd (parse_date_string v) = inr d /\ v' = VDatetime d.
Proof.
  unfold date_cell. rewrite snd_W_bind.
  destruct (snd (parse_date_string v)) as [e | d]; cbn.
  - split; [discriminate | intros (d & [=] & _)].
  - split; [intros [= <-]; eauto | intros (d' & [= <-] & ->); reflexivity].
Qed.

Lemma date_cell_raises (v : pyval) :
  raises (snd (date_cell v)) = raises (snd (parse_date_string v)).
Proof.
  unfold date_cell. rewrite snd_W_bind.
  now destruct (snd (parse_date_string v)).
Qed.

Lemma prepare_value_ok (column_name : string) (v v' : pyval) :
  snd (prepare_value column_name v) = inr v' <-> prepared column_name v v'.
Proof.
  unfold prepare_value, prepared.
  destruct (str_in column_name _DATE_COLUMNS).
  - destruct v; try exact (date_cell_ok _ _).
    cbn. split; [intros [= <-] | intros ->]; reflexivity.
  - cbn. split; [intros [= <-] | intros ->]; reflexivity.
Qed.

Lemma prepare_value_raises (column_name : string) (v : pyval) :
  raises (snd (prepare_value column_name v)) = true
  <-> str_in column_name _DATE_COLUMNS = true /\ v <> VNone
      /\ raises (snd (parse_date_string v)) = true.
Proof.
  unfold prepare_value. destruct (str_in column_name _DATE_COLUMNS).
  - destruct v;
      (rewrite <- date_cell_raises;
       split; [intros H; repeat split; done | tauto]).
  - cbn. split; [discriminate | intros ([=] & _)].
Qed.

End PrepareDataFacts.

(** X1. When [prepare_data] returns, it returns one row per row of the data;
    each row has one cell per pair of [zip(columns, row)]; the cell of a
    column that is not a date column is the cell it was given, a [None] in a
    date column stays [None], and any other cell of a date column is the
    date [parse_date_string] made of it. *)
Theorem prepare_data_cells
    {rt : Runtime} (upload_columns : list string) (data out : list (list pyval))
    (Hrun : snd (prepare_data upload_columns data) = inr out) :
  length out = length data
  /\ forall i row row',
       data !! i = Some row -> out !! i = Some row' ->
       length row' = Nat.min (length upload_columns) (length row)
       /\ forall j c v,
            upload_columns !! j = Some c -> row !! j = Some v ->
            exists v', row' !! j = Some v' /\ prepared c v v'.
Proof.
  unfold prepare_data in Hrun. apply W_mapM_snd_inr in Hrun.
  split; [symmetry; exact (Forall2_length _ _ _ Hrun) |].
  intros i row row' Hrow Hrow'.
  pose proof (Forall2_lookup_lr _ _ _ _ _ _ Hrun Hrow Hrow') as Hcells.
  cbn in Hcells. apply W_mapM_snd_inr in Hcells. split.
  - rewrite <- (Forall2_length _ _ _ Hcells). apply length_zip_with.
  - intros j c v Hc Hv.
    assert (Hz : zip upload_columns row !! j = Some (c, v)).
    { rewrite lookup_zip_with, Hc. cbn. now rewrite Hv. }
    destruct (Forall2_lookup_l _ _ _ _ _ Hcells Hz) as (v' & Hv' & Hok).
    exists v'. split; [done |]. now apply prepare_value_ok in Hok.
Qed.

Lemma prepare_data_cells_witness :
  exists out,
    snd (@prepare_data ExampleRuntime.runtime ["id"; "date_created"; "last_modified"]
           [ [VStr "e1"; VInt 1700000000000; VNone] ]) = inr out
    /\ length out = 1%nat.
Proof.
  eexists. split; [vm_compute; reflexivity |].
  refine (proj1 (@prepare_data_cells ExampleRuntime.runtime
                   ["id"; "date_created"; "last_modified"]
                   [ [VStr "e1"; VInt 1700000000000; VNone] ] _ _)).
  vm_compute. reflexivity.
Defined.

(** X2. [prepare_data] raises exactly when some cell of a date column is not
    [None] and [parse_date_string] raises on it; no other cell can make it
    fail. *)
Theorem prepare_data_raises_iff
    {rt : Runtime} (upload_columns : list string) (data : list (list pyval)) :
  raises (snd (prepare_data upload_columns data)) = true
  <-> exists row c v,
        row ∈ data /\ (c, v) ∈ zip upload_columns row
        /\ str_in c _DATE_COLUMNS = true /\ v <> VNone
        /\ raises (snd (parse_date_string v)) = true.
Proof.
  unfold prepare_data. rewrite W_mapM_raises. split.
  - intros (row & Hrow & Hr). apply W_mapM_raises in Hr as ([c v] & Hcv & Hr).
    apply prepare_value_raises in Hr. exists row, c, v. tauto.
  - intros (row & c & v & Hrow & Hcv & Hr). exists row. split; [done |].
    apply W_mapM_raises. exists (c, v). split; [done |].
    now apply prepare_value_raises.
Qed.

(* ===================================================================== *)
(** * Further properties of the uploader: the table after a call *)
(* ===================================================================== *)

Section UploaderRuns.
Context {rt : Runtime}.
Variable upload_config : SQLUploaderConfig.t.
Variable values_delimiter : string.

Local Abbreviation table_name := (SQLUploaderConfig.table_name upload_config).
Local Abbreviation record_id_key := (SQLUploaderConfig.record_id_key upload_config).

(** The loop over the chunks, whatever its outcome: the chunks before the
    first failure are inserted, in order. *)
Lemma insert_chunks_run (columns : list string) (dfs : list DataFrame)
    (w1 w2 : world) (r : exn + unit) :
  M_forM_ (insert_chunk upload_config values_delimiter columns) dfs w1 = (w2, r) ->
  exists done : list (list (list pyval)),
    Forall2 (chunk_prepared columns) (take (length done) dfs) done
    /\ tbl_rows (w_table w2)
       = tbl_rows (w_table w1) ++ map (inserted_row (w_table w1) columns) (concat done)
    /\ tbl_columns (w_table w2) = tbl_columns (w_table w1)
    /\ (exists pending : list (list (list pyval)),
          w_calls w2
          = w_calls w1
            ++ map (fun values =>
                      (insert_statement upload_config values_delimiter columns, values))
                   (done ++ pending)
          /\ Forall (fun values => exists d, d ∈ dfs /\ chunk_prepared columns d values)
                    pending)
    /\ (length done <= length dfs)%nat
    /\ (raises r = false -> length done = length dfs)
    /\ (raises r = true -> (length done < length dfs)%nat).
Proof.
  revert w1. induction dfs as [| d dfs IH]; intros w1 H; cbn in H.
  - injection H as <- <-. exists []. cbn. rewrite !app_nil_r.
    repeat split; try done; try constructor.
    exists []. cbn. now rewrite app_nil_r.
  - unfold M_bind at 1 in H. unfold insert_chunk, M_bind, M_of_W, M_log in H.
    destruct (prepare_data columns (df_rows d)) as [l [e | values]] eqn:Hprep; cbn in H.
    + injection H as <- <-. exists []. cbn. rewrite !app_nil_r.
      repeat split; try done; try lia; try constructor.
      exists []. cbn. now rewrite app_nil_r.
    + unfold cursor_execute in H. cbn [w_table w_calls w_log] in H.
      destruct (store_execute (w_table w1) _) as [e | o] eqn:Hstore; cbn in H.
      * injection H as <- <-. exists []. cbn. rewrite ?app_nil_r.
        repeat split; try done; try lia; try constructor.
        exists [values]. split; [reflexivity |]. constructor; [| constructor].
        exists d. split; [left |]. unfold chunk_prepared. now rewrite Hprep.
      * apply insert_into_inr in Hstore as (Hcols & Hname & Hrows).
        apply IH in H
          as (done & Hall & Hrows' & Hcols' & (pending & Hcalls & Hpend) & Hle & Hok & Hko).
        cbn [w_table w_calls] in *.
        exists (values :: done). cbn [length take drop concat map].
        split; [constructor; [unfold chunk_prepared; now rewrite Hprep | done] |].
        split; [| split; [congruence | split; [| split; [lia | split]]]].
        -- rewrite Hrows', Hrows, map_app, <- app_assoc. do 2 f_equal.
           apply map_ext. intros p. now apply inserted_row_columns.
        -- exists pending. split.
           ++ rewrite Hcalls, <- !app_assoc. reflexivity.
           ++ eapply Forall_impl; [exact Hpend |]. cbn.
              intros vs (d' & Hd' & Hp). exists d'. split; [now right | done].
        -- intros Hr. rewrite (Hok Hr). reflexivity.
        -- intros Hr. specialize (Hko Hr). lia.
Qed.

Lemma insert_chunks_log (columns : list string) (dfs : list DataFrame)
    (w1 w2 : world) (r : exn + unit) :
  M_forM_ (insert_chunk upload_config values_delimiter columns) dfs w1 = (w2, r) ->
  exists logs, w_log w2 = w_log w1 ++ logs.
Proof.
  revert w1. induction dfs as [| d dfs IH]; intros w1 H; cbn in H.
  - injection H as <- _. exists []. now rewrite app_nil_r.
  - unfold M_bind at 1 in H. unfold insert_chunk, M_bind, M_of_W, M_log in H.
    destruct (prepare_data columns (df_rows d)) as [l [e | values]]; cbn in H.
    + injection H as <- _. now eexists.
    + unfold cursor_execute in H. cbn [w_table w_calls w_log] in H.
      destruct (store_execute (w_table w1) _) as [e | o]; cbn in H.
      * injection H as <- _. cbn. rewrite <- app_assoc. now eexists.
      * apply IH in H as (logs & ->). cbn. rewrite <- !app_assoc. now eexists.
Qed.

Lemma delete_by_record_id_table (file_data : FileData) (w : world) :
  tbl_name (w_table w) = table_name ->
  str_in record_id_key (tbl_columns (w_table w)) = true ->
  exists w1,
    delete_by_record_id upload_config values_delimiter file_data w = (w1, inr tt)
    /\ tbl_name (w_table w1) = tbl_name (w_table w)
    /\ tbl_columns (w_table w1) = tbl_columns (w_table w)
    /\ tbl_rows (w_table w1) = rows_kept upload_config file_data (w_table w)
    /\ w_calls w1
       = w_calls w ++ [(DeleteWhere table_name record_id_key values_delimiter,
                        [[VStr (identifier file_data)]])]
    /\ w_log w1
       = w_log w
         ++ [ (DEBUG, MsgDeleting record_id_key (identifier file_data) table_name);
              (INFO, MsgDeleted
                       (Z.of_nat (length (tbl_rows (w_table w)))
                        - Z.of_nat (length (rows_kept upload_config file_data
                                              (w_table w))))
                       table_name) ].
Proof.
  intros Hname Hkey.
  unfold delete_by_record_id, M_bind, M_log, cursor_execute, rows_kept. cbn.
  rewrite Hname, String.eqb_refl, Hkey. cbn. eexists. split; [reflexivity |]. cbn.
  now rewrite <- app_assoc.
Qed.

(** An upload call, whatever its outcome: the rows left in place, then the
    prepared rows of the chunks inserted before the first failure. *)
Lemma upload_dataframe_run (df : DataFrame) (file_data : FileData)
    (w w' : world) (r : exn + unit) :
  tbl_name (w_table w) = table_name ->
  upload_dataframe upload_config values_delimiter df file_data w = (w', r) ->
  exists done : list (list (list pyval)),
    Forall2 (chunk_prepared (df_columns df))
      (take (length done)
         (split_dataframe (df_replace_nan df)
            (SQLUploaderConfig.batch_size upload_config)))
      done
    /\ tbl_rows (w_table w')
       = rows_kept upload_config file_data (w_table w)
         ++ map (inserted_row (w_table w) (df_columns df)) (concat done)
    /\ tbl_columns (w_table w') = tbl_columns (w_table w)
    /\ (exists pending : list (list (list pyval)),
          w_calls w'
          = w_calls w
            ++ [(SelectAll table_name, [])]
            ++ (if str_in record_id_key (tbl_columns (w_table w))
                then [(DeleteWhere table_name record_id_key values_delimiter,
                       [[VStr (identifier file_data)]])]
                else [])
            ++ [(SelectAll table_name, [])]
            ++ map (fun values =>
                      (insert_statement upload_config values_delimiter (df_columns df),
                       values))
                   (done ++ pending)
          /\ Forall (fun values =>
                       exists d,
                         d ∈ split_dataframe (df_replace_nan df)
                               (SQLUploaderConfig.batch_size upload_config)
                         /\ chunk_prepared (df_columns df) d values)
                    pending)
    /\ (exists rest,
          w_log w'
          = w_log w
            ++ (if str_in record_id_key (tbl_columns (w_table w))
                then [ (DEBUG, MsgDeleting record_id_key (identifier file_data)
                                 table_name);
                       (INFO, MsgDeleted
                                (Z.of_nat (length (tbl_rows (w_table w)))
                                 - Z.of_nat (length (rows_kept upload_config file_data
                                                       (w_table w))))
                                table_name) ]
                else [(WARNING, MsgSkippingDelete record_id_key)])
            ++ rest)
    /\ (raises r = false ->
        length done
        = length (split_dataframe (df_replace_nan df)
                    (SQLUploaderConfig.batch_size upload_config)))
    /\ (raises r = true ->
        (length done
         < length (split_dataframe (df_replace_nan df)
                     (SQLUploaderConfig.batch_size upload_config)))%nat).
Proof.
  intros Hname Hrun. unfold upload_dataframe, can_delete in Hrun.
  destruct (get_table_columns_run upload_config w Hname) as (w0 & E0 & Ht0 & Hc0).
  assert (Hl0 : w_log w0 = w_log w).
  { unfold get_table_columns, M_bind, cursor_execute in E0. cbn in E0.
    rewrite Hname, String.eqb_refl in E0. cbn in E0. now injection E0 as <-. }
  unfold M_bind at 1 2 in Hrun. rewrite E0 in Hrun. cbn [M_ret] in Hrun.
  set (key_calls := if str_in record_id_key (tbl_columns (w_table w))
                    then [(DeleteWhere table_name record_id_key values_delimiter,
                           [[VStr (identifier file_data)]])]
                    else []).
  set (key_log := if str_in record_id_key (tbl_columns (w_table w))
                  then [ (DEBUG, MsgDeleting record_id_key (identifier file_data)
                                   table_name);
                         (INFO, MsgDeleted
                                  (Z.of_nat (length (tbl_rows (w_table w)))
                                   - Z.of_nat (length (rows_kept upload_config file_data
                                                         (w_table w))))
                                  table_name) ]
                  else [(WARNING, MsgSkippingDelete record_id_key)]).
  assert (Hstep : exists w2,
             (if str_in record_id_key (tbl_columns (w_table w))
              then delete_by_record_id upload_config values_delimiter file_data
              else M_log WARNING (MsgSkippingDelete record_id_key)) w0 = (w2, inr tt)
             /\ tbl_name (w_table w2) = table_name
             /\ tbl_columns (w_table w2) = tbl_columns (w_table w)
             /\ tbl_rows (w_table w2) = rows_kept upload_config file_data (w_table w)
             /\ w_calls w2 = w_calls w0 ++ key_calls
             /\ w_log w2 = w_log w ++ key_log).
  { unfold key_calls, key_log.
    destruct (str_in record_id_key (tbl_columns (w_table w))) eqn:Hkey.
    - destruct (delete_by_record_id_table file_data w0)
        as (w2 & E2 & Hn2 & Hcols2 & Hrows2 & Hcalls2 & Hlog2);
        [now rewrite Ht0 | now rewrite Ht0 |].
      exists w2. rewrite Ht0, Hl0 in *. repeat split; congruence.
    - eexists. split; [reflexivity |]. cbn. unfold rows_kept. rewrite Hkey.
      rewrite Ht0, Hl0, app_nil_r. done. }
  destruct Hstep as (w2 & E2 & Hn2 & Hcols2 & Hrows2 & Hcalls2 & Hlog2).
  unfold M_bind at 1 in Hrun. rewrite E2 in Hrun.
  destruct (get_table_columns_run upload_config w2 Hn2) as (w3 & E3 & Ht3 & Hc3).
  assert (Hl3 : w_log w3 = w_log w2).
  { unfold get_table_columns, M_bind, cursor_execute in E3. cbn in E3.
    rewrite Hn2, String.eqb_refl in E3. cbn in E3. now injection E3 as <-. }
  unfold M_bind at 1 in Hrun. rewrite E3 in Hrun.
  unfold M_bind at 1 2 in Hrun. rewrite _fit_to_schema_noop in Hrun.
  cbn [M_of_W M_log fst snd df_columns df_replace_nan] in Hrun.
  pose proof Hrun as Hlogs. apply insert_chunks_log in Hlogs as (logs & Hlogs).
  apply insert_chunks_run in Hrun
    as (done & Hall & Hrows & Hcols & (pending & Hcalls & Hpend) & _ & Hok & Hko).
  cbn [w_table w_calls w_log] in Hrows, Hcols, Hcalls, Hlogs.
  rewrite Ht3 in Hrows, Hcols.
  exists done. split; [exact Hall |].
  split; [| split; [congruence | split; [| split; [| split; done]]]].
  - rewrite Hrows, Hrows2. f_equal. apply map_ext. intros p.
    now apply inserted_row_columns.
  - exists pending. split; [| exact Hpend].
    rewrite Hcalls, Hc3, Hcalls2, Hc0. now rewrite <- !app_assoc.
  - eexists. rewrite Hlogs, app_nil_r, Hl3, Hlog2, <- !app_assoc. reflexivity.
Qed.

End UploaderRuns.

Section UploadFacts.
Context {rt : Runtime}.

Lemma chunk_prepared_functional (columns : list string) (dfs : list DataFrame)
    (a b : list (list (list pyval))) :
  Forall2 (chunk_prepared columns) dfs a -> Forall2 (chunk_prepared columns) dfs b ->
  a = b.
Proof.
  intros Ha. revert b. induction Ha as [| d va dfs a Hd _ IH]; intros b Hb.
  - now inversion Hb.
  - inversion Hb as [| ? vb ? b' Hd' Hb']; subst. f_equal; [| now apply IH].
    unfold chunk_prepared in *. congruence.
Qed.

Lemma elem_of_chunks {A} (fuel n : nat) (l c : list A) (x : A) :
  c ∈ chunks fuel n l -> x ∈ c -> x ∈ l.
Proof.
  revert l. induction fuel as [| fuel IH]; intros l Hc Hx; cbn in Hc.
  - now apply elem_of_nil in Hc.
  - destruct l as [| y l]; [now apply elem_of_nil in Hc |].
    apply elem_of_cons in Hc as [-> | Hc].
    + rewrite <- (take_drop n (y :: l)). apply elem_of_app. now left.
    + rewrite <- (take_drop n (y :: l)). apply elem_of_app. right. eauto.
Qed.

Lemma split_dataframe_rows (df d : DataFrame) (chunk_size : Z) (row : list pyval) :
  d ∈ split_dataframe df chunk_size -> row ∈ df_rows d -> row ∈ df_rows df.
Proof.
  unfold split_dataframe. intros Hd Hrow.
  apply list_elem_of_fmap in Hd as (rows & -> & Hrows). cbn in Hrow.
  eapply elem_of_chunks; eauto.
Qed.

(** Each row bound for a chunk comes, cell by cell, from a row of the chunk. *)
Lemma chunk_prepared_rows (columns : list string) (d : DataFrame)
    (values : list (list pyval)) (params : list pyval) :
  chunk_prepared columns d values -> params ∈ values ->
  exists row,
    row ∈ df_rows d
    /\ Forall2 (fun cv v' => prepared (fst cv) (snd cv) v') (zip columns row) params.
Proof.
  unfold chunk_prepared, prepare_data. intros H Hp.
  apply W_mapM_snd_inr in H.
  apply list_elem_of_lookup in Hp as (i & Hi).
  destruct (Forall2_lookup_r _ _ _ _ _ H Hi) as (row & Hrow & Hcells).
  exists row. split; [apply list_elem_of_lookup; eauto |].
  cbn in Hcells. apply W_mapM_snd_inr in Hcells.
  eapply Forall2_impl; [exact Hcells |]. cbn. intros [c v] v'.
  apply prepare_value_ok.
Qed.




End UploadFacts.

(** X3. Without the record-linkage column in the table, an upload call,
    whatever its outcome, sends no DELETE and logs a warning that the delete
    is skipped; every row the table had stays, and the prepared rows of the
    chunks inserted before the first failure (all chunks when the call
    succeeds) are appended. *)
Theorem upload_dataframe_without_linkage_column_appends
    {rt : Runtime} (upload_config : SQLUploaderConfig.t) (values_delimiter : string)
    (df : DataFrame) (file_data : FileData) (w w' : world) (r : exn + unit)
    (Hname : tbl_name (w_table w) = SQLUploaderConfig.table_name upload_config)
    (Hnokey : str_in (SQLUploaderConfig.record_id_key upload_config)
                     (tbl_columns (w_table w)) = false)
    (Hrun : upload_dataframe upload_config values_delimiter df file_data w
            = (w', r)) :
  (exists new, w_calls w' = w_calls w ++ new /\ Forall not_a_delete new)
  /\ (exists rest,
        w_log w'
        = w_log w
          ++ (WARNING, MsgSkippingDelete (SQLUploaderConfig.record_id_key upload_config))
             :: rest)
  /\ exists done : list (list (list pyval)),
       tbl_rows (w_table w')
       = tbl_rows (w_table w)
         ++ map (inserted_row (w_table w) (df_columns df)) (concat done)
       /\ Forall2 (chunk_prepared (df_columns df))
            (take (length done)
               (split_dataframe (df_replace_nan df)
                  (SQLUploaderConfig.batch_size upload_config)))
            done
       /\ (r = inr tt ->
           length done
           = length (split_dataframe (df_replace_nan df)
                       (SQLUploaderConfig.batch_size upload_config))).
Proof.
  destruct (upload_dataframe_run upload_config values_delimiter df file_data w w' r
              Hname Hrun)
    as (done & Hall & Hrows & _ & (pending & Hcalls & _) & (rest & Hlog) & Hok & _).
  unfold rows_kept in Hrows. rewrite Hnokey in Hrows, Hcalls, Hlog.
  split; [| split].
  - eexists. split; [exact Hcalls |].
    repeat (apply Forall_app; split); try (repeat constructor).
    apply Forall_forall. intros c Hc.
    apply list_elem_of_fmap in Hc as (values & -> & _). exact I.
  - exists rest. exact Hlog.
  - exists done. split; [exact Hrows |]. split; [exact Hall |].
    intros ->. now apply Hok.
Qed.

Lemma upload_dataframe_without_linkage_column_appends_witness :
  exists done : list (list (list pyval)),
    tbl_rows (w_table
                (fst (@upload_dataframe ExampleRuntime.runtime elements_config "?"
                        drifted_batch file_r1
                        {| w_table := {| tbl_name := "elements";
                                         tbl_columns := ["id"; "extra"];
                                         tbl_rows := [ [VStr "e0"; VInt 0] ] |};
                           w_calls := []; w_log := [] |})))
    = [ [VStr "e0"; VInt 0] ]
      ++ map (inserted_row {| tbl_name := "elements"; tbl_columns := ["id"; "extra"];
                              tbl_rows := [ [VStr "e0"; VInt 0] ] |}
                ["id"; "extra"])
             (concat done).
Proof.
  destruct (@upload_dataframe_without_linkage_column_appends ExampleRuntime.runtime
              elements_config "?" drifted_batch file_r1
              {| w_table := {| tbl_name := "elements"; tbl_columns := ["id"; "extra"];
                               tbl_rows := [ [VStr "e0"; VInt 0] ] |};
                 w_calls := []; w_log := [] |}
              _ _ eq_refl eq_refl (surjective_pairing _))
    as (_ & _ & done & Hrows & _).
  exists done. exact Hrows.
Defined.

(** X4. With the record-linkage column in the table, an upload call that raises
    has already deleted the rows of the file's identifier and does not put
    them back: the table holds the rows it had for other identifiers, then
    the prepared rows of the chunks inserted before the failure, which are
    fewer than all chunks. *)
Theorem upload_dataframe_failure_keeps_the_delete
    {rt : Runtime} (upload_config : SQLUploaderConfig.t) (values_delimiter : string)
    (df : DataFrame) (file_data : FileData) (w w' : world) (e : exn)
    (Hname : tbl_name (w_table w) = SQLUploaderConfig.table_name upload_config)
    (Hkey : str_in (SQLUploaderConfig.record_id_key upload_config)
                   (tbl_columns (w_table w)) = true)
    (Hrun : upload_dataframe upload_config values_delimiter df file_data w
            = (w', inl e)) :
  exists done : list (list (list pyval)),
    (length done
     < length (split_dataframe (df_replace_nan df)
                 (SQLUploaderConfig.batch_size upload_config)))%nat
    /\ Forall2 (chunk_prepared (df_columns df))
         (take (length done)
            (split_dataframe (df_replace_nan df)
               (SQLUploaderConfig.batch_size upload_config)))
         done
    /\ tbl_rows (w_table w')
       = List.filter
           (fun row =>
              negb (row_matches (tbl_columns (w_table w))
                      (SQLUploaderConfig.record_id_key upload_config)
                      (VStr (identifier file_data)) row))
           (tbl_rows (w_table w))
         ++ map (inserted_row (w_table w) (df_columns df)) (concat done)
    /\ (DeleteWhere (SQLUploaderConfig.table_name upload_config)
          (SQLUploaderConfig.record_id_key upload_config) values_delimiter,
        [[VStr (identifier file_data)]]) ∈ w_calls w'.
Proof.
  destruct (upload_dataframe_run upload_config values_delimiter df file_data w w'
              (inl e) Hname Hrun)
    as (done & Hall & Hrows & _ & (pending & Hcalls & _) & _ & _ & Hko).
  unfold rows_kept in Hrows. rewrite Hkey in Hrows, Hcalls.
  exists done. split; [now apply Hko |]. split; [exact Hall |]. split; [exact Hrows |].
  rewrite Hcalls. apply elem_of_app. right. right. left.
Qed.

Lemma upload_dataframe_failure_keeps_the_delete_witness :
  exists (w' : world) (done : list (list (list pyval))),
    @upload_dataframe ExampleRuntime.runtime elements_config "?" drifted_batch file_r1
      {| w_table := drifted_table; w_calls := []; w_log := [] |}
    = (w', inl OperationalError)
    /\ tbl_rows (w_table w')
       = [] ++ map (inserted_row drifted_table ["id"; "extra"]) (concat done).
Proof.
  assert (H : { w' | @upload_dataframe ExampleRuntime.runtime elements_config "?"
                       drifted_batch file_r1
                       {| w_table := drifted_table; w_calls := []; w_log := [] |}
                     = (w', inl OperationalError) })
    by (eexists; vm_compute; reflexivity).
  destruct H as [w' Hrun].
  destruct (@upload_dataframe_failure_keeps_the_delete ExampleRuntime.runtime
              elements_config "?" drifted_batch file_r1
              {| w_table := drifted_table; w_calls := []; w_log := [] |}
              w' OperationalError eq_refl eq_refl Hrun)
    as (done & _ & _ & Hrows & _).
  exists w', done. split; [exact Hrun | exact Hrows].
Defined.



Section ReuploadFacts.
Context {rt : Runtime}.

Lemma dict_get_zip_map (f : pyval -> pyval) (columns : list string)
    (row : list pyval) (k : string) :
  dict_get (zip columns (map f row)) k = f <$> dict_get (zip columns row) k.
Proof.
  revert row. induction columns as [| c columns IH]; intros [| v row]; cbn; try done.
  destruct (String.eqb k c); [done | apply IH].
Qed.

Lemma prepared_key_cell (columns : list string) (row params : list pyval)
    (key : string) :
  str_in key _DATE_COLUMNS = false ->
  Forall2 (fun cv v' => prepared (fst cv) (snd cv) v') (zip columns row) params ->
  dict_get (zip columns params) key = dict_get (zip columns row) key.
Proof.
  intros Hkey. revert row params.
  induction columns as [| c columns IH]; intros row params H.
  - inversion H. reflexivity.
  - destruct row as [| v row]; [inversion H; reflexivity |].
    inversion H as [| ? v' ? params' Hp Hrest]; subst. simpl.
    destruct (String.eqb_spec key c) as [<- | _]; [| now apply IH].
    unfold prepared in Hp. cbn [fst snd] in Hp. rewrite Hkey in Hp. now subst.
Qed.

Lemma str_in_column_index (columns : list string) (key : string) :
  str_in key columns = true -> exists i, column_index columns key = Some i.
Proof.
  intros H. apply str_in_elem_of in H. unfold column_index.
  destruct (list_find_elem_of (String.eqb key) columns key H) as [[i x] Hfind].
  - apply Is_true_true, String.eqb_refl.
  - exists i. now rewrite Hfind.
Qed.

Lemma inserted_row_matches (t : table) (columns : list string) (params : list pyval)
    (key r : string) :
  str_in key (tbl_columns t) = true ->
  dict_get (zip columns params) key = Some (VStr r) ->
  row_matches (tbl_columns t) key (VStr r) (inserted_row t columns params) = true.
Proof.
  intros Hkey Hget. destruct (str_in_column_index _ _ Hkey) as (i & Hi).
  unfold row_matches, row_cell, inserted_row. rewrite Hi.
  rewrite list_lookup_fmap, (column_index_Some _ _ _ Hi). cbn. rewrite Hget. cbn.
  apply String.eqb_refl.
Qed.

Lemma filter_filter {A} (f : A -> bool) (l : list A) :
  List.filter f (List.filter f l) = List.filter f l.
Proof.
  induction l as [| x l IH]; cbn; [done |].
  destruct (f x) eqn:E; cbn; [rewrite E; now f_equal | exact IH].
Qed.

Lemma filter_none {A} (f : A -> bool) (l : list A) :
  Forall (fun x => f x = false) l -> List.filter f l = [].
Proof. induction 1 as [| x l Hx _ IH]; cbn; [done | now rewrite Hx]. Qed.

End ReuploadFacts.

(** X6. Uploading the same batch for the same file twice in a row gives the
    table the first upload gave: when the table has the record-linkage
    column, that column is not a date column, and every row of the batch
    carries the file's identifier under it, the second successful upload
    deletes exactly what the first inserted and inserts it again. *)
Theorem upload_dataframe_twice_is_once
    {rt : Runtime} (upload_config : SQLUploaderConfig.t) (values_delimiter : string)
    (df : DataFrame) (file_data : FileData) (w w1 w2 : world)
    (Hname : tbl_name (w_table w) = SQLUploaderConfig.table_name upload_config)
    (Hkey : str_in (SQLUploaderConfig.record_id_key upload_config)
                   (tbl_columns (w_table w)) = true)
    (Hnotdate : str_in (SQLUploaderConfig.record_id_key upload_config)
                       _DATE_COLUMNS = false)
    (Hlinked : Forall (row_linked (df_columns df)
                         (SQLUploaderConfig.record_id_key upload_config)
                         (identifier file_data))
                      (df_rows df))
    (Hrun1 : upload_dataframe upload_config values_delimiter df file_data w
             = (w1, inr tt))
    (Hrun2 : upload_dataframe upload_config values_delimiter df file_data w1
             = (w2, inr tt)) :
  tbl_rows (w_table w2) = tbl_rows (w_table w1)
  /\ tbl_columns (w_table w2) = tbl_columns (w_table w1).
Proof.
  assert (Hname1 : tbl_name (w_table w1) = SQLUploaderConfig.table_name upload_config).
  { pose proof Hrun2 as H. unfold upload_dataframe, can_delete in H.
    apply M_bind_inr in H as (wa & deletable & H & _).
    apply M_bind_inr in H as (wb & cols & H & _).
    now apply get_table_columns_inr in H as (H & _). }
  destruct (upload_dataframe_run _ _ _ _ _ _ _ Hname Hrun1)
    as (done1 & Hall1 & Hrows1 & Hcols1 & _ & _ & Hlen1 & _).
  destruct (upload_dataframe_run _ _ _ _ _ _ _ Hname1 Hrun2)
    as (done2 & Hall2 & Hrows2 & Hcols2 & _ & _ & Hlen2 & _).
  specialize (Hlen1 eq_refl). specialize (Hlen2 eq_refl).
  rewrite Hlen1, firstn_all in Hall1. rewrite Hlen2, firstn_all in Hall2.
  assert (Hsame : done2 = done1) by (eapply chunk_prepared_functional; eauto).
  subst done2. split; [| exact Hcols2].
  rewrite Hrows2. unfold rows_kept in *. rewrite Hcols1, Hkey in *.
  rewrite Hrows1 at 1. rewrite List.filter_app, filter_filter.
  rewrite (filter_none _ (map _ _)).
  - rewrite app_nil_r, Hrows1. f_equal. apply map_ext. intros p.
    now apply inserted_row_columns.
  - apply Forall_map, Forall_forall. intros params Hparams. cbn.
    apply negb_false_iff. apply inserted_row_matches; [exact Hkey |].
    apply list_elem_of_In, in_concat in Hparams as (values & Hvalues & Hparams).
    apply list_elem_of_In, list_elem_of_lookup in Hvalues as (i & Hi).
    destruct (Forall2_lookup_r _ _ _ _ _ Hall1 Hi) as (d & Hd & Hprep).
    apply list_elem_of_In in Hparams.
    destruct (chunk_prepared_rows _ _ _ _ Hprep Hparams) as (row & Hrow & Hcells).
    assert (Hd' : d ∈ split_dataframe (df_replace_nan df)
                      (SQLUploaderConfig.batch_size upload_config))
      by (apply list_elem_of_lookup; eauto).
    apply (split_dataframe_rows _ _ _ _ Hd') in Hrow. cbn in Hrow.
    apply list_elem_of_fmap in Hrow as (row0 & -> & Hrow0).
    rewrite (prepared_key_cell _ _ _ _ Hnotdate Hcells), dict_get_zip_map.
    rewrite Forall_forall in Hlinked. now rewrite (Hlinked _ Hrow0).
Qed.

Lemma upload_dataframe_twice_is_once_witness :
  tbl_rows (w_table (fst (@upload_dataframe ExampleRuntime.runtime elements_config "?"
                            updated_batch file_r1
                            (proj1_sig updated_batch_uploads))))
  = tbl_rows (w_table (proj1_sig updated_batch_uploads)).
Proof.
  refine (proj1 (@upload_dataframe_twice_is_once ExampleRuntime.runtime
                   elements_config "?" updated_batch file_r1 elements_world
                   (proj1_sig updated_batch_uploads) _ eq_refl eq_refl eq_refl _
                   (proj2_sig updated_batch_uploads) (surjective_pairing _) )).
  repeat constructor.
Defined.

(* ===================================================================== *)
(** * Further properties of the stager's [conform_dataframe] *)
(* ===================================================================== *)

Section ConformDataframeMore.
Context {rt : Runtime}.

Lemma date_not_others (c : string) :
  c ∈ _DATE_COLUMNS -> (c ∉ _STRUCTURED_COLUMNS) /\ (c ∉ _STRINGIFIED_COLUMNS).
Proof.
  intros H. apply list_elem_of_In in H. cbn in H.
  repeat (destruct H as [<- | H]; [split; rewrite <- str_in_elem_of; discriminate |]).
  destruct H.
Qed.

Lemma df_get_same_columns (df df' : DataFrame) (c : string) :
  df_columns df' = df_columns df -> df_get df c = None -> df_get df' c = None.
Proof.
  unfold df_get. intros ->. now destruct (column_index (df_columns df) c).
Qed.

Lemma json_or_null_of_text (x y : pyval) :
  (exists s, x = VStr s) \/ x = VNone -> json_or_null x y -> y = VNone.
Proof. now intros [[s ->] | ->]. Qed.

Lemma json_or_null_text (x y : pyval) :
  json_or_null x y -> (exists s, y = VStr s) \/ y = VNone.
Proof.
  unfold json_or_null.
  destruct x; try (intros ->; now right); intros (s & _ & ->); left; eauto.
Qed.

End ConformDataframeMore.

(** X7. On a rectangular staged frame on which normalization succeeds, each
    cell of a column named [date_created], [date_modified],
    [date_processed] or [last_modified] is the date [parse_date_string]
    makes of it; so normalization cannot succeed when the parser raises on
    one cell of these columns, a [None] included. *)
Theorem conform_dataframe_date_columns
    {rt : Runtime} (df df' : DataFrame) (log : list log_record)
    (Hwf : df_wf df) (Hrun : conform_dataframe df = (log, inr df')) :
  forall c series,
    c ∈ _DATE_COLUMNS -> df_get df c = Some series ->
    exists series', df_get df' c = Some series' /\ Forall2 parsed_date series series'.
Proof.
  destruct (conform_dataframe_phases df df' log Hwf Hrun)
    as (df1 & df2 & (_ & _ & _ & _ & Hi1) & (_ & _ & _ & Ho2 & _)
        & (_ & _ & _ & Ho3 & _)).
  intros c series Hc Hget.
  destruct (date_not_others c Hc) as [Hns Hnt].
  destruct (Hi1 c series Hc Hget) as (series' & Hget' & Hcells).
  exists series'. split; [now rewrite (Ho3 c Hnt), (Ho2 c Hns) |].
  eapply Forall2_impl; [exact Hcells |]. intros x y. apply date_cell_ok.
Qed.

Lemma conform_dataframe_date_columns_witness :
  exists df' series',
    @conform_dataframe ExampleRuntime.runtime
      {| df_columns := ["id"; "date_created"];
         df_rows := [ [VStr "e1"; VInt 1700000000000]; [VStr "e2"; VStr "2023-11-14"] ] |}
    = ([(DEBUG, MsgNotATimestamp (VStr "2023-11-14") ValueError)], inr df')
    /\ df_get df' "date_created" = Some series'
    /\ Forall2 (@parsed_date ExampleRuntime.runtime)
         [VInt 1700000000000; VStr "2023-11-14"] series'.
Proof.
  assert (H : { df' | @conform_dataframe ExampleRuntime.runtime
                        {| df_columns := ["id"; "date_created"];
                           df_rows := [ [VStr "e1"; VInt 1700000000000];
                                        [VStr "e2"; VStr "2023-11-14"] ] |}
                      = ([(DEBUG, MsgNotATimestamp (VStr "2023-11-14") ValueError)],
                         inr df') })
    by (eexists; vm_compute; reflexivity).
  destruct H as [df' Hrun].
  assert (Hwf : df_wf {| df_columns := ["id"; "date_created"];
                         df_rows := [ [VStr "e1"; VInt 1700000000000];
                                      [VStr "e2"; VStr "2023-11-14"] ] |})
    by (repeat constructor).
  destruct (@conform_dataframe_date_columns ExampleRuntime.runtime _ df' _
              Hwf Hrun "date_created" [VInt 1700000000000; VStr "2023-11-14"])
    as (series' & Hget & Hall); [apply list_elem_of_In; cbn; tauto | reflexivity |].
  exists df', series'. auto.
Defined.

(** X8. Normalizing a normalized frame again is not harmless: when both passes
    succeed on a rectangular frame, every cell of a structured column is
    [None] after the second pass, since the first pass left only text and
    [None] there; the stringified columns are as the first pass left them. *)
Theorem conform_dataframe_twice_erases_structured_columns
    {rt : Runtime} (df df1 df2 : DataFrame) (log1 log2 : list log_record)
    (Hwf : df_wf df)
    (Hrun1 : conform_dataframe df = (log1, inr df1))
    (Hrun2 : conform_dataframe df1 = (log2, inr df2)) :
  (forall c series,
      c ∈ _STRUCTURED_COLUMNS -> df_get df c = Some series ->
      df_get df2 c = Some (map (fun _ => VNone) series))
  /\ (forall c, c ∈ _STRINGIFIED_COLUMNS -> df_get df2 c = df_get df1 c).
Proof.
  destruct (conform_dataframe_phases df df1 log1 Hwf Hrun1)
    as (da & db & (_ & Hca & _ & Hoa & _) & (_ & Hcb & _ & Hob & Hib)
        & (Hwf1 & Hcc & _ & Hoc & Hic)).
  destruct (conform_dataframe_phases df1 df2 log2 Hwf1 Hrun2)
    as (ea & eb & (_ & Hea & _ & Hpa & _) & (_ & Heb & _ & Hpb & Hqb)
        & (_ & Hec & _ & Hpc & Hqc)).
  split.
  - intros c series Hc Hget.
    destruct (structured_not_date c Hc) as [Hnd Hns].
    rewrite <- (Hoa c Hnd) in Hget.
    destruct (Hib c series Hc Hget) as (s1 & Hget1 & Hcells1).
    rewrite <- (Hoc c Hns) in Hget1.
    rewrite <- (Hpa c Hnd) in Hget1.
    destruct (Hqb c s1 Hc Hget1) as (s2 & Hget2 & Hcells2).
    rewrite (Hpc c Hns), Hget2. f_equal.
    clear - Hcells1 Hcells2. revert s2 Hcells2.
    induction Hcells1 as [| x y s s1 Hxy _ IH]; intros s2 Hcells2.
    + now inversion Hcells2.
    + inversion Hcells2 as [| ? z ? s2' Hyz Hrest]; subst. cbn. f_equal.
      * apply structured_cell_ok in Hxy, Hyz.
        apply json_or_null_text in Hxy. exact (json_or_null_of_text y z Hxy Hyz).
      * now apply IH.
  - intros c Hc. destruct (stringified_not_date c Hc) as [Hnd Hns].
    destruct (df_get df1 c) as [s1 |] eqn:Hget1.
    + assert (Htext : Forall (fun y => exists s, y = VStr s) s1).
      { destruct (df_get df c) as [s0 |] eqn:Hget0.
        - rewrite <- (Hoa c Hnd), <- (Hob c Hns) in Hget0.
          destruct (Hic c s0 Hc Hget0) as (s1' & Hget1' & Hcells).
          rewrite Hget1 in Hget1'. injection Hget1' as <-.
          clear - Hcells. induction Hcells as [| x y ? ? Hxy _ IH]; constructor; [| done].
          apply str_cell_ok in Hxy. eauto.
        - rewrite (df_get_same_columns df df1 c) in Hget1; [done | congruence | done]. }
      rewrite <- (Hpa c Hnd), <- (Hpb c Hns) in Hget1.
      destruct (Hqc c s1 Hc Hget1) as (s2 & Hget2 & Hcells2).
      rewrite Hget2. f_equal. clear - Hcells2 Htext.
      induction Hcells2 as [| x y ? ? Hxy _ IH]; [done |].
      inversion Htext as [| ? ? [s ->] Hrest]; subst.
      apply str_cell_ok in Hxy. cbn in Hxy. subst. f_equal. now apply IH.
    + apply (df_get_same_columns df1 df2 c); [congruence | done].
Qed.

Lemma staged_batch_conforms_again :
  { df2 | @conform_dataframe ExampleRuntime.runtime (proj1_sig staged_batch_conforms)
          = ([], inr df2) }.
Proof. eexists. vm_compute. reflexivity. Defined.

Lemma conform_dataframe_twice_erases_structured_columns_witness :
  df_get (proj1_sig staged_batch_conforms_again) "links" = Some [VNone; VNone].
Proof.
  refine (proj1 (@conform_dataframe_twice_erases_structured_columns
                   ExampleRuntime.runtime staged_batch
                   (proj1_sig staged_batch_conforms)
                   (proj1_sig staged_batch_conforms_again) [] [] staged_batch_wf
                   (proj2_sig staged_batch_conforms)
                   (proj2_sig staged_batch_conforms_again))
                "links" [VList [VInt 1; VInt 2]; VInt 5] _ _).
  - apply list_elem_of_In. cbn. tauto.
  - reflexivity.
Defined.

(* ===================================================================== *)
(** * Further properties of the stager's [conform_dict] *)
(* ===================================================================== *)

Section FlattenFacts.

Lemma dict_get_absent (d : dict) (k : string) :
  k ∉ dict_keys d -> dict_get d k = None.
Proof.
  unfold dict_keys. induction d as [| [k' v'] d IH]; cbn; [done |].
  rewrite not_elem_of_cons. intros [Hne Hout].
  destruct (String.eqb k k') eqn:E; [| auto].
  apply String.eqb_eq in E. congruence.
Qed.

Lemma dict_remove_absent (d : dict) (k : string) :
  dict_get d k = None -> dict_remove d k = d.
Proof.
  unfold dict_remove. induction d as [| [k' v'] d IH]; cbn; [done |].
  destruct (String.eqb k k'); [discriminate |]. cbn. intros H. now rewrite IH.
Qed.

Lemma dict_remove_pop (d : dict) (k : string) (default : pyval) :
  snd (dict_pop d k default) = dict_remove d k.
Proof.
  unfold dict_pop. destruct (dict_get d k) eqn:E; [done |].
  cbn. now rewrite dict_remove_absent.
Qed.

Lemma dict_remove_unique (d : dict) (k : string) :
  NoDup (dict_keys d) -> NoDup (dict_keys (dict_remove d k)).
Proof.
  unfold dict_keys, dict_remove. induction d as [| [k' v'] d IH]; cbn; [done |].
  rewrite NoDup_cons. intros [Hout Hd].
  destruct (String.eqb k k'); cbn; [auto |].
  apply NoDup_cons. split; [| auto].
  intros Hin. apply Hout.
  apply (dict_keys_filter (fun x => negb (String.eqb k x))) in Hin. tauto.
Qed.

(** [d.update(other)] gives [other]'s value where it has one. *)
Lemma dict_get_update (o d : dict) (k : string) :
  NoDup (dict_keys o) ->
  dict_get (fold_left (fun acc kv => dict_set acc (fst kv) (snd kv)) o d) k
  = match dict_get o k with
    | Some v => Some v
    | None => dict_get d k
    end.
Proof.
  revert d. induction o as [| [k0 v0] o IH]; intros d Hu; cbn; [done |].
  change (dict_keys ((k0, v0) :: o)) with (k0 :: dict_keys o) in Hu.
  apply NoDup_cons in Hu as [Hout Hu]. rewrite (IH _ Hu).
  destruct (String.eqb k k0) eqn:E.
  - apply String.eqb_eq in E as ->.
    now rewrite (dict_get_absent o k0 Hout), dict_get_set_eq.
  - rewrite dict_get_set_ne; [done |]. intros ->. now rewrite String.eqb_refl in E.
Qed.

Lemma mapping_or_absent_inv (field : option pyval) :
  mapping_or_absent field = true -> field = None \/ field = Some (VDict (mapping_of field)).
Proof. destruct field as [[] |]; cbn; auto; discriminate. Qed.

Lemma dict_pop_mapping (d : dict) (k : string) :
  mapping_or_absent (dict_get d k) = true ->
  dict_pop d k (VDict []) = (VDict (mapping_of (dict_get d k)), dict_remove d k).
Proof.
  intros H. rewrite (surjective_pairing (dict_pop d k (VDict []))), dict_remove_pop.
  f_equal. unfold dict_pop. destruct (dict_get d k) as [[] |]; done.
Qed.

End FlattenFacts.

(** X9. [conform_dict] flattens the element. When [metadata], and within it
    [data_source] and [coordinates], are mappings or absent, staging
    succeeds; the mapping handed to [get_enhanced_element_id] has, for
    every key, the value of [coordinates], else of [data_source], else of
    the rest of [metadata], else of the element itself; the staged
    element's [id] is the identifier computed from that mapping, and every
    other allow-listed field has the flattened value. *)
Theorem conform_dict_flattens
    {rt : Runtime} (element_dict : dict) (file_data : FileData)
    (Hmetadata : mapping_or_absent (dict_get element_dict "metadata") = true)
    (Hsource : mapping_or_absent
                 (dict_get (mapping_of (dict_get element_dict "metadata")) "data_source")
               = true)
    (Hcoordinates : mapping_or_absent
                      (dict_get (mapping_of (dict_get element_dict "metadata"))
                         "coordinates")
                    = true)
    (Umetadata : NoDup (dict_keys (mapping_of (dict_get element_dict "metadata"))))
    (Usource : NoDup (dict_keys (mapping_of
                 (dict_get (mapping_of (dict_get element_dict "metadata")) "data_source"))))
    (Ucoordinates : NoDup (dict_keys (mapping_of
                 (dict_get (mapping_of (dict_get element_dict "metadata")) "coordinates")))) :
  exists data element : dict,
    conform_dict element_dict file_data = inr element
    /\ (forall k, dict_get data k = flattened element_dict k)
    /\ dict_get element "id" = Some (VStr (get_enhanced_element_id data file_data))
    /\ (forall k, k ∈ _COLUMNS -> k <> "id" -> dict_get element k = flattened element_dict k).
Proof.
  set (metadata := mapping_of (dict_get element_dict "metadata")) in *.
  set (data_source := mapping_of (dict_get metadata "data_source")) in *.
  set (coordinates := mapping_of (dict_get metadata "coordinates")) in *.
  set (upd := fun d o => fold_left (fun acc kv => dict_set acc (fst kv) (snd kv)) o d).
  set (rest := dict_remove (dict_remove metadata "data_source") "coordinates").
  set (data := upd (upd (upd (dict_remove element_dict "metadata") rest) data_source)
                 coordinates).
  assert (Hco' : dict_get (dict_remove metadata "data_source") "coordinates"
                 = dict_get metadata "coordinates").
  { unfold dict_remove.
    apply (dict_get_filter (fun x => negb (String.eqb "data_source" x))). reflexivity. }
  assert (Hm : merged_data element_dict file_data
               = inr (dict_set data "id" (VStr (get_enhanced_element_id data file_data)))).
  { unfold merged_data.
    rewrite (dict_pop_mapping element_dict "metadata" Hmetadata). fold metadata.
    rewrite (dict_pop_mapping metadata "data_source" Hsource). fold data_source.
    rewrite (dict_pop_mapping (dict_remove metadata "data_source") "coordinates")
      by (now rewrite Hco').
    rewrite Hco'. fold coordinates. reflexivity. }
  assert (Hdata : forall k, dict_get data k = flattened element_dict k).
  { intros k. unfold data, upd, flattened. fold metadata data_source coordinates rest.
    rewrite (dict_get_update coordinates _ k Ucoordinates).
    destruct (dict_get coordinates k); [done |].
    rewrite (dict_get_update data_source _ k Usource).
    destruct (dict_get data_source k); [done |].
    apply dict_get_update. unfold rest. now do 2 apply dict_remove_unique. }
  exists data. eexists. unfold conform_dict. rewrite Hm. cbn [E_bind].
  split; [reflexivity |].
  assert (Hcol : forall k, k ∈ _COLUMNS ->
            dict_get (dict_set (List.filter (fun kv => str_in (fst kv) _COLUMNS)
                         (dict_set data "id" (VStr (get_enhanced_element_id data file_data))))
                        RECORD_ID_LABEL (VStr (identifier file_data))) k
            = dict_get (dict_set data "id" (VStr (get_enhanced_element_id data file_data))) k).
  { intros k Hk. rewrite dict_get_set_ne.
    - apply (dict_get_filter (fun x => str_in x _COLUMNS)). now apply str_in_elem_of.
    - intros <-. now apply record_id_not_a_column. }
  split; [exact Hdata |]. split.
  - rewrite Hcol by (apply list_elem_of_In; cbn; tauto). apply dict_get_set_eq.
  - intros k Hk Hne. rewrite (Hcol k Hk), dict_get_set_ne by congruence. apply Hdata.
Qed.

Lemma conform_dict_flattens_witness :
  exists element : dict,
    @conform_dict ExampleRuntime.runtime nested_element file_r1 = inr element
    /\ dict_get element "url" = Some (VStr "source")
    /\ dict_get element "version" = Some (VStr "s1")
    /\ dict_get element "points" = Some (VList [VInt 0; VInt 0])
    /\ dict_get element "filename" = Some (VStr "a.pdf")
    /\ dict_get element "system" = Some (VStr "PixelSpace").
Proof.
  destruct (@conform_dict_flattens ExampleRuntime.runtime nested_element file_r1)
    as (data & element & Hrun & _ & _ & Hget);
    try reflexivity;
    try (vm_compute; repeat constructor; rewrite ?elem_of_cons, ?elem_of_nil;
         intuition discriminate).
  exists element. split; [exact Hrun |].
  repeat split; (rewrite Hget; [reflexivity | apply list_elem_of_In; cbn; tauto | discriminate]).
Defined.

(** X10. Staging composes: an element that [conform_dict] returned is staged
    again without error, for any file; every allow-listed field other than
    [id] keeps its value, and the record-linkage field is that of the new
    file. *)
Theorem conform_dict_restages
    {rt : Runtime} (element_dict element : dict) (file_data file_data' : FileData)
    (Hrun : conform_dict element_dict file_data = inr element) :
  exists element' : dict,
    conform_dict element file_data' = inr element'
    /\ (forall k, k ∈ _COLUMNS -> k <> "id" -> dict_get element' k = dict_get element k)
    /\ dict_get element' RECORD_ID_LABEL = Some (VStr (identifier file_data')).
Proof.
  assert (Hkeys : forall k, k ∈ dict_keys element -> k ∈ _COLUMNS \/ k = RECORD_ID_LABEL).
  { unfold conform_dict in Hrun.
    destruct (merged_data element_dict file_data) as [e | data]; [discriminate |].
    cbn in Hrun. injection Hrun as <-.
    intros k Hk. apply dict_keys_set in Hk as [-> | Hk]; [now right |].
    apply (dict_keys_filter (fun x => str_in x _COLUMNS)) in Hk as [_ Hk].
    left. now apply str_in_elem_of. }
  assert (Hnone : dict_get element "metadata" = None).
  { apply dict_get_absent. intros Hin.
    destruct (Hkeys _ Hin) as [Hc | Hc]; [| discriminate].
    apply str_in_elem_of in Hc. discriminate. }
  assert (Hm : merged_data element file_data'
               = inr (dict_set element "id"
                        (VStr (get_enhanced_element_id element file_data')))).
  { unfold merged_data, dict_pop. rewrite Hnone. reflexivity. }
  eexists. unfold conform_dict. rewrite Hm. cbn [E_bind].
  split; [reflexivity |]. split; [| apply dict_get_set_eq].
  intros k Hk Hne. rewrite dict_get_set_ne.
  - rewrite (dict_get_filter (fun x => str_in x _COLUMNS)) by (now apply str_in_elem_of).
    apply dict_get_set_ne. congruence.
  - intros <-. now apply record_id_not_a_column.
Qed.

Lemma conform_dict_restages_witness :
  exists element element' : dict,
    @conform_dict ExampleRuntime.runtime nested_element file_r1 = inr element
    /\ @conform_dict ExampleRuntime.runtime element {| identifier := "r2" |} = inr element'
    /\ dict_get element' "url" = dict_get element "url"
    /\ dict_get element' RECORD_ID_LABEL = Some (VStr "r2").
Proof.
  assert (H : { element | @conform_dict ExampleRuntime.runtime nested_element file_r1
                          = inr element })
    by (eexists; vm_compute; reflexivity).
  destruct H as [element Hrun].
  destruct (@conform_dict_restages ExampleRuntime.runtime nested_element element
              file_r1 {| identifier := "r2" |} Hrun) as (element' & Hrun' & Hkeep & Hid).
  exists element, element'. repeat split; [exact Hrun | exact Hrun' | | exact Hid].
  apply Hkeep; [apply list_elem_of_In; cbn; tauto | discriminate].
Defined.

(* ===================================================================== *)
(** * Further properties of the indexer *)
(* ===================================================================== *)

Section IndexerMore.
Context {rt : Runtime}.
Variable self_connector_type : string.
Variable index_config : SQLIndexerConfig.t.
Variable fetchall : string -> list string.
Variable clock : nat -> string.

Local Abbreviation B := (SQLIndexerConfig.batch_size index_config).
Local Abbreviation ids := (py_sorted (fetchall (doc_ids_query index_config))).

(** With a batch size of one or more, the run yields the descriptors of the
    slices of width [B]; the [i]-th slice starts inside the sorted list. *)
Lemma SQLIndexer_run_slices :
  1 <= B ->
  exists slices : list (list string),
    SQLIndexer_run self_connector_type index_config fetchall clock
    = inr (imap (descriptor self_connector_type index_config clock) slices)
    /\ forall i s, slices !! i = Some s ->
         s = take (Z.to_nat B) (drop (i * Z.to_nat B) ids)
         /\ (i * Z.to_nat B < length ids)%nat.
Proof.
  intros Hsize.
  pose proof (ceil_div_bounds index_config (Z.of_nat (length ids))
                ltac:(lia) Hsize) as (Hk0 & Hk).
  exists (nat_slices (Z.to_nat B)
            (Z.to_nat ((Z.of_nat (length ids) + B - 1) / B)) ids).
  split.
  - unfold SQLIndexer_run, _get_doc_ids.
    rewrite (id_slices_nat index_config ids Hsize). reflexivity.
  - intros i s Hs. unfold nat_slices in Hs. rewrite list_lookup_fmap in Hs.
    destruct (seq 0 _ !! i) as [n |] eqn:En; [| done].
    apply lookup_seq in En as [-> Hi]. cbn in Hs. injection Hs as <-.
    split; [done |]. nia.
Qed.

Lemma frozenset_iter_NoDup (l : list string) : NoDup (frozenset_iter l).
Proof. rewrite (frozenset_iter_perm l). apply NoDup_elements. Qed.

Lemma frozenset_iter_elem_of (l : list string) (x : string) :
  x ∈ frozenset_iter l <-> x ∈ l.
Proof. now rewrite (frozenset_iter_perm l), elem_of_elements, elem_of_list_to_set. Qed.

Lemma frozenset_iter_length (l : list string) :
  (length (frozenset_iter l) <= length l)%nat.
Proof.
  apply submseteq_length, NoDup_submseteq; [apply frozenset_iter_NoDup |].
  intros x. now rewrite frozenset_iter_elem_of.
Qed.

Lemma frozenset_iter_nil : frozenset_iter [] = [].
Proof.
  pose proof (frozenset_iter_length []) as H.
  destruct (frozenset_iter []); [done | cbn in H; lia].
Qed.

Lemma negative_ceil_div (n : Z) :
  B < 0 -> 2 <= n -> (n + B - 1) / B <= 0.
Proof.
  intros HB Hn.
  pose proof (Z.div_mod (n + B - 1) B ltac:(lia)) as Hdm.
  pose proof (Z.mod_neg_bound (n + B - 1) B HB) as Hm.
  nia.
Qed.

(** With a negative step every slice the comprehension takes is empty. *)
Lemma py_slice_negative_step (l : list string) (i : Z) :
  B < 0 -> 0 <= i < (Z.of_nat (length l) + B - 1) / B ->
  py_slice l (i * B) ((i + 1) * B) = [].
Proof.
  intros HB Hi.
  assert (Hlen : Z.of_nat (length l) <= 1).
  { destruct (Z_le_gt_dec (Z.of_nat (length l)) 1) as [| Hgt]; [done |].
    pose proof (negative_ceil_div (Z.of_nat (length l)) HB ltac:(lia)). lia. }
  unfold py_slice, slice_bound.
  replace (Z.to_nat _) with 0%nat; [apply take_0 |].
  destruct (i * B <? 0) eqn:E1; destruct ((i + 1) * B <? 0) eqn:E2; nia.
Qed.

End IndexerMore.

(** X11. With a batch size [B >= 1] and any table, repeated identifiers
    included, no descriptor is empty and none has more than [B] batch
    items; the items of one descriptor are distinct. *)
Theorem SQLIndexer_run_batch_sizes
    {rt : Runtime} (self_connector_type : string) (index_config : SQLIndexerConfig.t)
    (fetchall : string -> list string) (clock : nat -> string)
    (Hsize : 1 <= SQLIndexerConfig.batch_size index_config) :
  exists ds : list SqlBatchFileData,
    SQLIndexer_run self_connector_type index_config fetchall clock = inr ds
    /\ Forall (fun d =>
                 NoDup (batch_items d)
                 /\ 1 <= Z.of_nat (length (batch_items d))
                      <= SQLIndexerConfig.batch_size index_config) ds.
Proof.
  destruct (SQLIndexer_run_slices self_connector_type index_config fetchall clock Hsize)
    as (slices & Hrun & Hslices).
  eexists. split; [exact Hrun |].
  apply Forall_lookup. intros i d Hd.
  apply list_lookup_imap_Some in Hd as (s & Hs & ->).
  destruct (Hslices i s Hs) as [Heq Hin]. cbn [batch_items descriptor].
  split.
  - apply (NoDup_fmap_2_strong (fun b => {| item_identifier := b |}));
      [intros x y _ _ Hxy; now injection Hxy | apply frozenset_iter_NoDup].
  - rewrite length_map. split.
    + assert (Hne : exists x, x ∈ s).
      { destruct s as [| x s']; [| exists x; apply elem_of_cons; auto].
        exfalso. apply (f_equal length) in Heq.
        rewrite length_take, length_drop in Heq. cbn in Heq. lia. }
      destruct Hne as [x Hx]. apply frozenset_iter_elem_of in Hx.
      destruct (frozenset_iter s); [now apply elem_of_nil in Hx | cbn; lia].
    + pose proof (frozenset_iter_length s) as Hle.
      apply (f_equal length) in Heq. rewrite length_take in Heq. lia.
Qed.

(** X12. With a batch size [B >= 1] and any table, the descriptors follow the
    sorted order: no identifier of a later descriptor sorts before an
    identifier of an earlier one. *)
Theorem SQLIndexer_run_batches_in_order
    {rt : Runtime} (self_connector_type : string) (index_config : SQLIndexerConfig.t)
    (fetchall : string -> list string) (clock : nat -> string)
    (Hsize : 1 <= SQLIndexerConfig.batch_size index_config) :
  exists ds : list SqlBatchFileData,
    SQLIndexer_run self_connector_type index_config fetchall clock = inr ds
    /\ forall i j di dj a b,
         (i < j)%nat -> ds !! i = Some di -> ds !! j = Some dj ->
         a ∈ descriptor_ids di -> b ∈ descriptor_ids dj -> str_le a b.
Proof.
  destruct (SQLIndexer_run_slices self_connector_type index_config fetchall clock Hsize)
    as (slices & Hrun & Hslices).
  eexists. split; [exact Hrun |].
  intros i j di dj a b Hij Hi Hj Ha Hb.
  apply list_lookup_imap_Some in Hi as (si & Hsi & ->).
  apply list_lookup_imap_Some in Hj as (sj & Hsj & ->).
  rewrite descriptor_ids_descriptor, elem_of_list_to_set in Ha, Hb.
  destruct (Hslices i si Hsi) as [-> _]. destruct (Hslices j sj Hsj) as [-> _].
  apply elem_of_nat_slice_take in Ha.
  apply (elem_of_nat_slice_drop _ j ((i + 1) * Z.to_nat (SQLIndexerConfig.batch_size index_config)))
    in Hb; [| nia].
  eapply (StronglySorted_app_1_elem_of str_le); [| exact Ha | exact Hb].
  rewrite take_drop. apply py_sorted_sorted.
Qed.

(** X13. A batch size that is not positive indexes nothing: with zero the run
    raises [ZeroDivisionError]; with a negative size it returns without
    error, every descriptor it yields has no batch item, and a table of two
    rows or more yields no descriptor at all. *)
Theorem SQLIndexer_run_nonpositive_batch_size
    {rt : Runtime} (self_connector_type : string) (index_config : SQLIndexerConfig.t)
    (fetchall : string -> list string) (clock : nat -> string)
    (Hsize : SQLIndexerConfig.batch_size index_config <= 0) :
  if SQLIndexerConfig.batch_size index_config =? 0
  then SQLIndexer_run self_connector_type index_config fetchall clock
       = inl ZeroDivisionError
  else exists ds : list SqlBatchFileData,
         SQLIndexer_run self_connector_type index_config fetchall clock = inr ds
         /\ Forall (fun d => batch_items d = []) ds
         /\ ((2 <= length (fetchall (doc_ids_query index_config)))%nat -> ds = []).
Proof.
  unfold SQLIndexer_run, _get_doc_ids, id_slices.
  set (ids := py_sorted (fetchall (doc_ids_query index_config))).
  assert (Hlen : length ids = length (fetchall (doc_ids_query index_config)))
    by (apply Permutation_length, py_sorted_perm).
  set (B := SQLIndexerConfig.batch_size index_config) in *.
  destruct (B =? 0) eqn:E; [reflexivity |].
  assert (HB : B < 0) by lia.
  eexists. split; [reflexivity |]. split.
  - apply Forall_lookup. intros i d Hd.
    apply list_lookup_imap_Some in Hd as (s & Hs & ->).
    rewrite list_lookup_fmap in Hs. unfold py_range in Hs.
    rewrite list_lookup_fmap in Hs.
    destruct (seq 0 _ !! i) as [n |] eqn:En; [| done].
    apply lookup_seq in En as [-> Hi]. cbn in Hs. injection Hs as <-.
    cbn [batch_items descriptor].
    unfold B. rewrite (py_slice_negative_step index_config ids (Z.of_nat i) HB)
      by (fold B; lia).
    now rewrite frozenset_iter_nil.
  - intros Hrows. unfold py_range.
    pose proof (negative_ceil_div index_config (Z.of_nat (length ids)) HB ltac:(lia)) as Hq.
    fold B in Hq. replace (Z.to_nat _) with 0%nat by lia. reflexivity.
Qed.

Lemma SQLIndexer_run_batch_sizes_witness :
  exists ds : list SqlBatchFileData,
    @SQLIndexer_run ExampleRuntime.runtime "sql" abc_config
      (fun _ => ["b"; "a"; "b"; "b"; "c"]) (ExampleRuntime.clock_from 1700000000) = inr ds
    /\ Forall (fun d => NoDup (batch_items d) /\ 1 <= Z.of_nat (length (batch_items d)) <= 2)
         ds.
Proof.
  apply (@SQLIndexer_run_batch_sizes ExampleRuntime.runtime "sql" abc_config
           (fun _ => ["b"; "a"; "b"; "b"; "c"]) (ExampleRuntime.clock_from 1700000000)).
  cbn. lia.
Defined.

Lemma SQLIndexer_run_batches_in_order_witness :
  exists ds : list SqlBatchFileData,
    @SQLIndexer_run ExampleRuntime.runtime "sql" abc_config
      (fun _ => ["b"; "a"; "b"; "b"; "c"]) (ExampleRuntime.clock_from 1700000000) = inr ds
    /\ forall i j di dj a b,
         (i < j)%nat -> ds !! i = Some di -> ds !! j = Some dj ->
         a ∈ descriptor_ids di -> b ∈ descriptor_ids dj -> str_le a b.
Proof.
  apply (@SQLIndexer_run_batches_in_order ExampleRuntime.runtime "sql" abc_config
           (fun _ => ["b"; "a"; "b"; "b"; "c"]) (ExampleRuntime.clock_from 1700000000)).
  cbn. lia.
Defined.

Lemma SQLIndexer_run_nonpositive_batch_size_witness :
  exists ds : list SqlBatchFileData,
    @SQLIndexer_run ExampleRuntime.runtime "sql"
      {| SQLIndexerConfig.table_name := "elements"; SQLIndexerConfig.id_column := "id";
         SQLIndexerConfig.batch_size := -2 |}
      (fun _ => ["b"; "a"; "c"]) (ExampleRuntime.clock_from 1700000000) = inr ds
    /\ Forall (fun d => batch_items d = []) ds
    /\ ((2 <= 3)%nat -> ds = []).
Proof.
  apply (@SQLIndexer_run_nonpositive_batch_size ExampleRuntime.runtime "sql"
           {| SQLIndexerConfig.table_name := "elements"; SQLIndexerConfig.id_column := "id";
              SQLIndexerConfig.batch_size := -2 |}
           (fun _ => ["b"; "a"; "c"]) (ExampleRuntime.clock_from 1700000000)).
  cbn. lia.
Defined.

(* ===================================================================== *)
(** * Further properties of the downloader's file name *)
(* ===================================================================== *)

Section TextMore.

Lemma list_ascii_of_append (a b : string) :
  list_ascii_of_string (a +:+ b) = list_ascii_of_string a ++ list_ascii_of_string b.
Proof.
  induction a as [| c a IH]; [reflexivity |].
  change (c :: list_ascii_of_string (a +:+ b)
          = c :: (list_ascii_of_string a ++ list_ascii_of_string b)).
  now rewrite IH.
Qed.

Lemma list_ascii_inj (a b : string) :
  list_ascii_of_string a = list_ascii_of_string b -> a = b.
Proof.
  intros H. rewrite <- (string_of_list_ascii_of_string a), H.
  apply string_of_list_ascii_of_string.
Qed.

Lemma append_inj_l (a b s : string) : a +:+ s = b +:+ s -> a = b.
Proof.
  intros H. apply (f_equal list_ascii_of_string) in H.
  rewrite !list_ascii_of_append in H.
  apply app_inj_2 in H as [H _]; [now apply list_ascii_inj | done].
Qed.

Lemma append_assoc (a b c : string) : (a +:+ b) +:+ c = a +:+ (b +:+ c).
Proof.
  apply list_ascii_inj. now rewrite !list_ascii_of_append, app_assoc.
Qed.

End TextMore.

(** X14. For one table and one field projection, two rows get the same
    identifier, hence the same file name, only when their record
    identifiers are equal. *)
Theorem get_identifier_separates_rows
    (fields : list string) (table_name record_id1 record_id2 : string) :
  get_identifier fields table_name record_id1
  = get_identifier fields table_name record_id2
  <-> record_id1 = record_id2.
Proof.
  split; [| now intros ->].
  unfold get_identifier. destruct fields as [| f fs]; intros H.
  - apply append_inj_r in H. now apply (append_inj_r "-") in H.
  - apply append_inj_l in H.
    apply append_inj_r in H. now apply (append_inj_r "-") in H.
Qed.

(** X15. Across tables the identifier does not separate rows: the table name and
    the record identifier are joined by a hyphen that either may contain,
    so a row of a table [t-x] and a row of the table [t] can get the same
    identifier, whatever the field projection. *)
Theorem get_identifier_confuses_tables
    (fields : list string) (t x record_id : string) :
  get_identifier fields (t +:+ "-" +:+ x) record_id
  = get_identifier fields t (x +:+ "-" +:+ record_id).
Proof.
  assert (H : (t +:+ "-" +:+ x) +:+ "-" +:+ record_id
              = t +:+ "-" +:+ x +:+ "-" +:+ record_id)
    by (now rewrite !append_assoc).
  unfold get_identifier. destruct fields; now rewrite H.
Qed.

(* ===================================================================== *)
(** * Properties of the KDB.AI uploader's batching *)
(* ===================================================================== *)

Section Chunks.
Context {A : Type}.

(** The chunks are the slices of width [n], as many as there are chunks. *)
Lemma chunks_nat_slices (fuel n : nat) (l : list A) :
  chunks fuel n l = nat_slices n (length (chunks fuel n l)) l.
Proof.
  unfold nat_slices. revert l. induction fuel as [| fuel IH]; intros l; [done |].
  destruct l as [| x l]; [done |].
  cbn [chunks length]. rewrite <- cons_seq, <- fmap_S_seq. cbn [map].
  f_equal. rewrite (IH (drop n (x :: l))) at 1.
  generalize (seq 0 (length (chunks fuel n (drop n (x :: l))))). intros s.
  induction s as [| i s IHs]; [done |]. cbn. rewrite <- IHs. f_equal.
  now rewrite drop_drop.
Qed.

Lemma chunks_length_bounds (fuel n : nat) (l : list A) :
  (1 <= n)%nat -> (length l <= fuel)%nat ->
  (length l <= length (chunks fuel n l) * n)%nat
  /\ (forall j, (j < length (chunks fuel n l))%nat -> (j * n < length l)%nat).
Proof.
  intros Hn. revert l. induction fuel as [| fuel IH]; intros l Hl.
  - destruct l; cbn in *; [split; [lia | intros; lia] | lia].
  - destruct l as [| x l]; [cbn; split; [lia | intros; lia] |].
    cbn [chunks length].
    destruct (IH (drop n (x :: l))) as [H1 H2].
    { rewrite length_drop. cbn [length] in *. lia. }
    rewrite length_drop in H1, H2.
    set (k := length (chunks fuel n (drop n (x :: l)))) in *.
    change (length (x :: l)) with (S (length l)) in *.
    split; [nia |].
    intros [| j] Hj; [lia |]. specialize (H2 j ltac:(lia)). nia.
Qed.

End Chunks.

Section GroupBy.

Lemma key_of_row (b i j : nat) :
  (1 <= b)%nat ->
  (Z.of_nat i / Z.of_nat b =? Z.of_nat j) = true <-> (j * b <= i < j * b + b)%nat.
Proof.
  intros Hb. rewrite Z.eqb_eq.
  pose proof (Z.div_mod (Z.of_nat i) (Z.of_nat b) ltac:(lia)) as Hdm.
  pose proof (Z.mod_pos_bound (Z.of_nat i) (Z.of_nat b) ltac:(lia)) as Hm.
  split; intros H; nia.
Qed.

(** The rows whose position divided by [b] is [j] are the [j]-th slice. *)
Lemma rows_of_key {A} (b j : nat) (l : list A) :
  (1 <= b)%nat ->
  map snd (List.filter (fun kr => fst kr =? Z.of_nat j)
             (zip (map (fun x => x / Z.of_nat b) (Kdbai.np_arange (length l))) l))
  = take b (drop (j * b) l).
Proof.
  intros Hb. unfold Kdbai.np_arange. induction l as [| x l IH] using rev_ind; cbn.
  - now rewrite drop_nil, take_nil.
  - rewrite length_app. cbn [length]. rewrite Nat.add_1_r, seq_S, !map_app. cbn [map].
    rewrite zip_with_app by (now rewrite !length_map, length_seq).
    rewrite List.filter_app, map_app, IH. cbn [zip_with List.filter fst].
    change (0 + length l)%nat with (length l).
    destruct (Z.of_nat (length l) / Z.of_nat b =? Z.of_nat j) eqn:E.
    + apply key_of_row in E; [| done]. cbn [map snd].
      rewrite drop_app_le by lia.
      rewrite take_app_ge by (rewrite length_drop; lia).
      rewrite (take_ge (drop (j * b) l)) by (rewrite length_drop; lia).
      f_equal. rewrite take_ge; [done |]. rewrite length_drop. cbn [length]. lia.
    + cbn [map]. rewrite app_nil_r.
      assert (Hout : ~ (j * b <= length l < j * b + b)%nat).
      { intros H. apply (key_of_row b (length l) j Hb) in H. congruence. }
      destruct (Nat.lt_ge_cases (length l) (j * b)) as [Hlt | Hge].
      * rewrite !drop_ge; [done | rewrite length_app; cbn [length]; lia | lia].
      * rewrite drop_app_le by lia. rewrite take_app_le; [done |].
        rewrite length_drop. lia.
Qed.

Lemma group_keys_range (keys : list Z) (k : nat) :
  (forall x, x ∈ keys <-> 0 <= x < Z.of_nat k) ->
  Kdbai.group_keys keys = map Z.of_nat (seq 0 k).
Proof.
  intros Hkeys. unfold Kdbai.group_keys.
  apply (Sorted_unique Z.le).
  - apply (Sorted_merge_sort Z.le).
  - apply StronglySorted_Sorted. clear. generalize 0%nat.
    induction k as [| k IH]; intros s; cbn; constructor; [apply IH |].
    apply Forall_forall. intros x Hx. apply list_elem_of_fmap in Hx as (i & -> & Hi).
    apply elem_of_seq in Hi. lia.
  - rewrite merge_sort_Permutation. apply NoDup_Permutation.
    + apply NoDup_remove_dups.
    + apply (NoDup_fmap_2 Z.of_nat), NoDup_seq.
    + intros x. rewrite elem_of_remove_dups, Hkeys. split.
      * intros Hx. apply list_elem_of_fmap. exists (Z.to_nat x).
        split; [lia | apply elem_of_seq; lia].
      * intros Hx. apply list_elem_of_fmap in Hx as (i & -> & Hi).
        apply elem_of_seq in Hi. lia.
Qed.

(** Grouping the rows by position [// B] gives the chunks of [B] rows, in
    order. *)
Lemma df_groupby_chunks (df : DataFrame) (B : Z) :
  1 <= B ->
  map snd (Kdbai.df_groupby df
             (Kdbai.np_floor_divide (Kdbai.np_arange (length (df_rows df))) B))
  = split_dataframe df B.
Proof.
  intros HB. unfold Kdbai.df_groupby, split_dataframe.
  set (rows := df_rows df). set (b := Z.to_nat B).
  assert (Hb : (1 <= b)%nat) by lia.
  destruct (chunks_length_bounds (length rows) b rows Hb (le_n _)) as [Hup Hlow].
  set (k := length (chunks (length rows) b rows)) in *.
  assert (Hkeys : Kdbai.np_floor_divide (Kdbai.np_arange (length rows)) B
                  = map (fun x => x / Z.of_nat b) (Kdbai.np_arange (length rows))).
  { unfold Kdbai.np_floor_divide. apply map_ext. intros x.
    destruct (B =? 0) eqn:E; [lia |]. unfold b. now rewrite Z2Nat.id by lia. }
  rewrite Hkeys, (group_keys_range _ k).
  - rewrite (chunks_nat_slices (length rows) b rows). fold k. unfold nat_slices.
    rewrite !map_map. apply map_ext. intros j. cbn [snd]. f_equal.
    now apply rows_of_key.
  - intros x. unfold Kdbai.np_arange. rewrite map_map. split.
    + intros Hx. apply list_elem_of_fmap in Hx as (i & -> & Hi).
      apply elem_of_seq in Hi.
      pose proof (Z.div_mod (Z.of_nat i) (Z.of_nat b) ltac:(lia)) as Hdm.
      pose proof (Z.mod_pos_bound (Z.of_nat i) (Z.of_nat b) ltac:(lia)) as Hm.
      nia.
    + intros Hx. apply list_elem_of_fmap. exists (Z.to_nat x * b)%nat. split.
      * rewrite Nat2Z.inj_mul, Z.div_mul by lia. lia.
      * apply elem_of_seq. specialize (Hlow (Z.to_nat x) ltac:(lia)). lia.
Qed.

End GroupBy.

Section KdbaiFacts.
Variable St : Type.

Lemma K_forM_map {A B} (g : A -> B) (f : B -> Kdbai.K St unit) (l : list A) (s : St) :
  Kdbai.K_forM_ St (fun x => f (g x)) l s = Kdbai.K_forM_ St f (map g l) s.
Proof.
  revert s. induction l as [| x l IH]; intros s; [done |].
  cbn. unfold Kdbai.K_bind. destruct (f (g x) s) as [s' [e | []]]; [done | apply IH].
Qed.

End KdbaiFacts.

(** X16. With a batch size [B >= 1], grouping the rows by position [// B]
    batches them like consecutive slicing: [process_dataframe] hands to
    [upsert_batch], in order, the frames of rows [0..B-1], [B..2B-1], ...;
    together these are the rows of the frame, each once and in order, and
    every batch has the frame's columns and between 1 and [B] rows. *)
Theorem process_dataframe_inserts_consecutive_batches
    (connection_config : Kdbai.KdbaiConnectionConfig)
    (upload_config : Kdbai.KdbaiUploaderConfig)
    (St Session Database Table : Type)
    (get_session : Kdbai.KdbaiConnectionConfig -> St -> St * (exn + Session))
    (session_database : Session -> string -> St -> St * (exn + Database))
    (database_table : Database -> string -> St -> St * (exn + Table))
    (table_insert : Table -> DataFrame -> St -> St * (exn + unit))
    (df : DataFrame) (s : St)
    (Hsize : 1 <= Kdbai.batch_size upload_config) :
  snd (Kdbai.process_dataframe connection_config upload_config St Session Database
         Table get_session session_database database_table table_insert df) s
  = Kdbai.K_forM_ St
      (Kdbai.upsert_batch connection_config upload_config St Session Database Table
         get_session session_database database_table table_insert)
      (split_dataframe df (Kdbai.batch_size upload_config)) s
  /\ concat (map df_rows (split_dataframe df (Kdbai.batch_size upload_config)))
     = df_rows df
  /\ Forall (fun d =>
               df_columns d = df_columns df
               /\ 1 <= Z.of_nat (length (df_rows d)) <= Kdbai.batch_size upload_config)
       (split_dataframe df (Kdbai.batch_size upload_config)).
Proof.
  split; [| split].
  - unfold Kdbai.process_dataframe. cbn [snd].
    rewrite (K_forM_map St snd), df_groupby_chunks by done. reflexivity.
  - unfold split_dataframe. rewrite map_map. cbn [df_rows]. rewrite map_id.
    apply chunks_concat; lia.
  - unfold split_dataframe. apply Forall_map.
    eapply Forall_impl; [apply (chunks_bounded _ (Z.to_nat (Kdbai.batch_size upload_config))); lia |].
    intros c [Hne Hle]. cbn [df_columns df_rows]. split; [done |].
    destruct c; [done | cbn [length] in *; lia].
Qed.

Lemma process_dataframe_inserts_consecutive_batches_witness :
  snd (Kdbai.process_dataframe {| Kdbai.endpoint := "http://localhost:8082" |}
         kdbai_config (list (string * string * DataFrame)) unit string (string * string)
         (fun _ s => (s, inr tt)) (fun _ name s => (s, inr name))
         (fun db name s => (s, inr (db, name))) recording_insert three_rows) []
  = ([ ("default", "elements",
        {| df_columns := ["id"; "document"];
           df_rows := [ [VStr "e1"; VStr "a"]; [VStr "e2"; VStr "b"] ] |});
       ("default", "elements",
        {| df_columns := ["id"; "document"];
           df_rows := [ [VStr "e3"; VStr "c"] ] |}) ],
     inr tt).
Proof.
  rewrite (proj1 (process_dataframe_inserts_consecutive_batches
                    {| Kdbai.endpoint := "http://localhost:8082" |} kdbai_config
                    (list (string * string * DataFrame)) unit string (string * string)
                    (fun _ s => (s, inr tt)) (fun _ name s => (s, inr name))
                    (fun db name s => (s, inr (db, name))) recording_insert
                    three_rows [] ltac:(cbn; lia))).
  reflexivity.
Defined.
